(** * dpytools: chunking helpers and reaction menus

    A shallow embedding of [src/dpytools/__init__.py] (the [Emoji] table,
    [chunkify], [chunkify_string_list]) and of [src/dpytools/menus.py]
    ([try_clear_reactions], [arrows], [confirm], [multichoice]), followed by
    the properties established about them.

    Python integers are [Z]; Python lists are [list]; a Python [str] is a
    [string] whose characters stand for the characters of the Python string,
    so [len] of an ASCII string is exact.  Exceptions are values of [exn];
    a generator is the list of what it yields together with how it ends. *)

From Stdlib Require Import String Ascii ZArith List Bool Lia.
Import ListNotations.

Local Open Scope Z_scope.

(* ================================================================= *)
(** ** Python primitives used by the sources *)

Module Py.

(** Which [ValueError] was raised (the sources tell them apart by message). *)
Inductive value_error : Type :=
| range_step_zero                     (* range() arg 3 must not be zero *)
| items_exceed (max_length : Z)       (* "All items should be of length {max_length} or less." *)
| options_empty                       (* "Options cannot be empty" *)
| option_too_long.                    (* "The maximum length for any option is 2000" *)

Inductive type_error : Type :=
| options_not_list                    (* '"options" param must be :list: but is {t}' *)
| options_contents_not_str            (* 'All of the "options" param contents must be :str:' *)
| none_not_an_index.                  (* list indices must be integers, not NoneType *)

Inductive exn : Type :=
| ValueError (why : value_error)
| TypeError (why : type_error)
| IndexError
| KeyError
| AttributeError
| Forbidden.                          (* discord.errors.Forbidden *)

(** [len(l)] for a list and for a string. *)
Definition len {A : Type} (l : list A) : Z := Z.of_nat (List.length l).
Definition str_len (s : string) : Z := Z.of_nat (String.length s).

(** [s * n]: a string repeated [n] times, empty when [n <= 0]. *)
Definition str_mul (s : string) (n : Z) : string :=
  String.concat "" (repeat s (Z.to_nat n)).

(** [''.join(parts)]. *)
Definition join (parts : list string) : string := String.concat "" parts.

(** Number of elements of [range(start, stop, step)] for [step <> 0]. *)
Definition range_len (start stop step : Z) : Z :=
  if 0 <? step
  then (if start <? stop then (stop - start - 1) / step + 1 else 0)
  else (if stop <? start then (start - stop - 1) / (- step) + 1 else 0).

(** [range(start, stop, step)], which raises on a zero step. *)
Definition range (start stop step : Z) : exn + list Z :=
  if step =? 0 then inl (ValueError range_step_zero)
  else inr (map (fun k => start + Z.of_nat k * step)
                (seq 0 (Z.to_nat (range_len start stop step)))).

(** [x in range(n)] for an integer [x]. *)
Definition in_range (x n : Z) : bool := (0 <=? x) && (x <? n).

(** A slice bound is clamped as Python does: a negative bound counts from
    the end, and what is still outside is brought back to [0] or [len]. *)
Definition clamp (n bound : Z) : Z :=
  if bound <? 0 then Z.max (bound + n) 0 else Z.min bound n.

(** [l[start:stop]]. *)
Definition slice {A : Type} (l : list A) (start stop : Z) : list A :=
  let lo := clamp (len l) start in
  let hi := clamp (len l) stop in
  firstn (Z.to_nat (hi - lo)) (skipn (Z.to_nat lo) l).

(** [l[i]], with negative indices and [IndexError]. *)
Definition index {A : Type} (l : list A) (i : Z) : exn + A :=
  let j := if i <? 0 then i + len l else i in
  if j <? 0 then inl IndexError
  else match nth_error l (Z.to_nat j) with
       | Some x => inr x
       | None => inl IndexError
       end.

(** [x in l] for a list of strings. *)
Definition str_in (x : string) (l : list string) : bool :=
  existsb (String.eqb x) l.

(** How a generator ends: exhausted, by an exception, or (for the model
    only) because the budget of loop iterations given to it ran out. *)
Inductive ending : Type :=
| StopIteration
| Raise (e : exn)
| OutOfFuel.

Record generated (A : Type) : Type :=
  { yielded : list A; ending_of : ending }.
Arguments yielded {A} _.
Arguments ending_of {A} _.

Definition yield {A : Type} (x : A) (rest : generated A) : generated A :=
  {| yielded := x :: yielded rest; ending_of := ending_of rest |}.

Definition stops {A : Type} (how : ending) : generated A :=
  {| yielded := []; ending_of := how |}.

End Py.

(* ================================================================= *)
(** ** [src/dpytools/__init__.py] *)

Module Emoji.
Local Open Scope string_scope.
Definition THUMBS_UP : string := "👍".
Definition X : string := "❌".
Definition LAST_TRACK : string := "⏮️".
Definition REVERSE : string := "◀️".
Definition PLAY : string := "▶️".
Definition NEXT_TRACK : string := "⏭️".
Definition PAUSE : string := "⏸️".
Definition ONE : string := "1️⃣".
Definition TWO : string := "2️⃣".
Definition THREE : string := "3️⃣".
Definition FOUR : string := "4️⃣".
Definition FIVE : string := "5️⃣".
Definition SIX : string := "6️⃣".
Definition SEVEN : string := "7️⃣".
Definition EIGHT : string := "8️⃣".
Definition NINE : string := "9️⃣".
Definition TEN : string := "🔟".
Definition ZERO : string := "0️⃣".
Definition SMILE : string := "🙂".
Definition THUMBS_DOWN : string := "👎".
Definition HEART : string := "❤️".
Definition GREEN_CHECK : string := "✅".
Definition PROHIBITED : string := "🚫".
Definition FIRE : string := "🔥".
Definition STAR : string := "⭐".
Definition RED_CIRCLE : string := "🔴".
Definition GREEN_CIRCLE : string := "🟢".
Definition YELLOW_CIRCLE : string := "🟡".
Definition FIRST_PLACE_MEDAL : string := "🥇".
Definition SECOND_PLACE_MEDAL : string := "🥈".
Definition THIRD_PLACE_MEDAL : string := "🥉".

(** The values of the members of [Emoji], in the order of the class body. *)
Definition values : list string :=
  [ SMILE; THUMBS_UP; THUMBS_DOWN; HEART; GREEN_CHECK; X; PROHIBITED; FIRE;
    STAR; RED_CIRCLE; GREEN_CIRCLE; YELLOW_CIRCLE; LAST_TRACK; REVERSE; PLAY;
    NEXT_TRACK; PAUSE; FIRST_PLACE_MEDAL; SECOND_PLACE_MEDAL;
    THIRD_PLACE_MEDAL; ONE; TWO; THREE; FOUR; FIVE; SIX; SEVEN; EIGHT; NINE;
    TEN; ZERO ].
End Emoji.

Module EmojiNumbers.
(** The values of the members of [EmojiNumbers], each taken from [Emoji]. *)
Definition values : list string :=
  [ Emoji.ONE; Emoji.TWO; Emoji.THREE; Emoji.FOUR; Emoji.FIVE; Emoji.SIX;
    Emoji.SEVEN; Emoji.EIGHT; Emoji.NINE; Emoji.TEN; Emoji.ZERO ].
End EmojiNumbers.

Module Color.
(** The members of the [IntEnum] and their values. *)
Inductive t : Type :=
| CYAN | GOLD | YELLOW | RED | LIME | VIOLET | PINK | FUCHSIA | BLUE
| PURPLE | FIRE_ORANGE | COSMIC_LATTE | BABY_BLUE.

Definition value (c : t) : Z :=
  match c with
  | CYAN => 0x00FFFF
  | GOLD => 0xFFD700
  | YELLOW => 0xffff00
  | RED => 0xFF0000
  | LIME => 0x00FF00
  | VIOLET => 0xEE82EE
  | PINK => 0xFFC0CB
  | FUCHSIA => 0xFF00FF
  | BLUE => 0x0000FF
  | PURPLE => 0x8A2BE2
  | FIRE_ORANGE => 0xFF4500
  | COSMIC_LATTE => 0xFFF8E7
  | BABY_BLUE => 0x89cff0
  end.
End Color.

Module Dpytools.
Import Py.

(** [chunkify]: one slice per start position of the range. *)
Definition chunkify {A : Type} (input_list : list A) (max_number : Z)
  : generated (list A) :=
  match range 0 (len input_list) max_number with
  | inl e => stops (Raise e)
  | inr starts =>
      {| yielded := map (fun i => slice input_list i (i + max_number)) starts;
         ending_of := StopIteration |}
  end.

(** The test of the [while] of [chunkify_string_list]:
    [len(''.join(opt + '_' * separator_length for opt in l))
       - separator_length > max_length]. *)
Definition too_long (l : list string) (max_length separator_length : Z) : bool :=
  str_len (join (map (fun opt => (opt ++ str_mul "_" separator_length)%string) l))
    - separator_length >? max_length.

(** The [while] loop for the chunk that starts at [i], entered with [n]:
    [fuel] bounds the number of times its body runs. *)
Fixpoint shrink (fuel : nat) (input_list : list string)
         (i n max_length separator_length : Z) : option (list string) :=
  let l := slice input_list i (i + n) in
  if too_long l max_length separator_length then
    match fuel with
    | O => None
    | S fuel' => shrink fuel' input_list i (n - 1) max_length separator_length
    end
  else Some l.

(** The [for] loop over the start positions. *)
Fixpoint chunks_from (fuel : nat) (input_list : list string)
         (max_number max_length separator_length : Z) (starts : list Z)
  : generated (list string) :=
  match starts with
  | [] => stops StopIteration
  | i :: starts' =>
      match shrink fuel input_list i max_number max_length separator_length with
      | None => stops OutOfFuel
      | Some l =>
          yield l (chunks_from fuel input_list max_number max_length
                               separator_length starts')
      end
  end.

Definition chunkify_string_list (fuel : nat) (input_list : list string)
           (max_number max_length separator_length : Z)
  : generated (list string) :=
  if existsb (fun item => str_len item >? max_length - separator_length) input_list
  then stops (Raise (ValueError (items_exceed max_length)))
  else match range 0 (len input_list) max_number with
       | inl e => stops (Raise e)
       | inr starts =>
           chunks_from fuel input_list max_number max_length separator_length starts
       end.

End Dpytools.

(* ================================================================= *)
(** ** The host chat client, as the menus see it *)

Module Discord.
Import Py.

(** What the menus read of the command context. *)
Record Guild : Type :=
  { get_member : Z -> option (list Z) }.   (* roles of a member, [None] when unknown *)

Record Context : Type :=
  { author : Z;                 (* ctx.author.id *)
    bot_user : Z;               (* ctx.bot.user.id *)
    channel : Z;                (* ctx.channel.id *)
    guild : option Guild }.     (* ctx.guild *)

(** The message a menu drives: its id, whether [msg.guild] is set, and
    whether the host lets the bot clear its reactions. *)
Record Message : Type :=
  { id : Z;
    in_guild : bool;
    clear_allowed : bool }.

(** Payload of a [raw_reaction_add] event. *)
Record RawReaction : Type :=
  { message_id : Z; user_id : Z; emoji_name : string }.

(** [reaction.emoji] is a string for a unicode emoji and an object for a
    custom one; an object is equal to no string. *)
Inductive emoji : Type :=
| unicode (s : string)
| custom (emoji_id : Z).

(** Arguments of a [reaction_add] event: the reaction and the user. *)
Record ReactionAdd : Type :=
  { on_message : Z;             (* reaction.message.id *)
    on_channel : Z;             (* reaction.message.channel.id *)
    reaction_emoji : emoji;     (* reaction.emoji *)
    user : Z }.

(** What reaches a pending [wait_for]: an event, or the end of its timeout.
    A run of a menu is driven by the list of these signals in the order they
    occur; when the list is used up nothing arrives any more, and the
    pending wait times out. *)
Inductive signal (E : Type) : Type :=
| Arrives (e : E)
| TimerExpires.
Arguments Arrives {E} e.
Arguments TimerExpires {E}.

(** What a menu shows: an embed of the caller, or a page of options built
    from the base embed (its description lists [chunk], its footer reads
    "Page [page]/[pages]" once set).  [truthy] is [bool(embed)], which
    discord.py computes from what the embed holds: an embed it counts as
    empty is falsy. *)
Record Embed : Type :=
  { description : string; color : option Z; truthy : bool }.

Record Page : Type :=
  { chunk : list string; footer : option (Z * Z) }.

Inductive view : Type :=
| embed_view (e : Embed)
| page_view (p : Page).

(** The calls a menu makes on the host, in the order it makes them. *)
Inductive call : Type :=
| send (content : option string) (v : view)
| add_reaction (emoji : string)
| clear_reactions
| edit (v : view)                       (* msg.edit(embed=v) *)
| edit_closing (v : view)               (* msg.edit(content=None, embed=v, delete_after=10) *)
| delete.

(** How many times a run asked the host to clear the reactions. *)
Definition is_clear (c : call) : bool :=
  match c with clear_reactions => true | _ => false end.

Definition clear_attempts (t : list call) : nat := length (filter is_clear t).

(** A coroutine of the menus: the calls made, then how it ended. *)
Inductive outcome (A : Type) : Type :=
| Returns (a : A)
| Raises (e : exn)
| RunsOutOfFuel.
Arguments Returns {A} a.
Arguments Raises {A} e.
Arguments RunsOutOfFuel {A}.

Definition M (A : Type) : Type := (list call * outcome A)%type.

Definition ret {A : Type} (a : A) : M A := ([], Returns a).

Definition bind {A B : Type} (m : M A) (k : A -> M B) : M B :=
  match m with
  | (t, Returns a) => let (t', r) := k a in (t ++ t', r)
  | (t, Raises e) => (t, Raises e)
  | (t, RunsOutOfFuel) => (t, RunsOutOfFuel)
  end.

Definition raise {A : Type} (e : exn) : M A := ([], Raises e).

Definition lift {A : Type} (r : exn + A) : M A :=
  match r with inl e => raise e | inr a => ret a end.

Definition perform (c : call) : M unit := ([c], Returns tt).

Definition calls {A : Type} (m : M A) : list call := fst m.
Definition result {A : Type} (m : M A) : outcome A := snd m.

(** The calls [t] of a run that ended as [r] hold at most one [delete], as
    their last call, and hold it whenever the run returned. *)
Definition delete_is_last {A : Type} (t : list call) (r : outcome A) : Prop :=
  exists before,
    Forall (fun c => c <> delete) before
    /\ (t = before ++ [delete]
        \/ (t = before /\ forall x, r <> Returns x)).

(** [try: m  except discord.errors.Forbidden: pass]. *)
Definition except_forbidden_pass (m : M unit) : M unit :=
  match m with
  | (t, Raises Forbidden) => (t, Returns tt)
  | _ => m
  end.

(** [await msg.clear_reactions()]. *)
Definition msg_clear_reactions (msg : Message) : M unit :=
  ([clear_reactions],
   if clear_allowed msg then Returns tt else Raises Forbidden).

(** [for emoji in to_react: await msg.add_reaction(emoji)]. *)
Definition add_reactions (to_react : list string) : M unit :=
  (map add_reaction to_react, Returns tt).

(** [ctx.bot.wait_for(event, check=check, timeout=timeout)]: the first
    event that passes [check]; [None] stands for [asyncio.TimeoutError];
    an exception of [check] reaches the waiting coroutine.  The signals
    left after the one that ended the wait are returned as well. *)
Fixpoint wait_for {E : Type} (check : E -> exn + bool) (sigs : list (signal E))
  : exn + option (E * list (signal E)) :=
  match sigs with
  | [] => inr None
  | TimerExpires :: _ => inr None
  | Arrives e :: rest =>
      match check e with
      | inl x => inl x
      | inr true => inr (Some (e, rest))
      | inr false => wait_for check rest
      end
  end.

End Discord.

Declare Scope menu_scope.
Delimit Scope menu_scope with menu.
Notation "x <- m ;; k" := (Discord.bind m (fun x => k))
  (at level 61, m at next level, right associativity) : menu_scope.
Notation "m ;; k" := (Discord.bind m (fun _ => k))
  (at level 61, right associativity) : menu_scope.

(* ================================================================= *)
(** ** [src/dpytools/menus.py] *)

Module Menus.
Import Py Discord.
Local Open Scope menu_scope.

(** [try_clear_reactions]: nothing is attempted outside a guild, and a
    refusal of the host is passed over. *)
Definition try_clear_reactions (msg : Message) : M unit :=
  if in_guild msg
  then except_forbidden_pass (msg_clear_reactions msg)
  else ret tt.

(* --------------------------------------------------------------- *)
(** *** [arrows] *)

Module Arrows.

(** [get_reactions(_head)], for a list of [n] embeds. *)
Definition get_reactions (n _head : Z) : list string :=
  (if in_range (_head - 2) n then [Emoji.LAST_TRACK] else [])
    ++ (if in_range (_head - 1) n then [Emoji.REVERSE] else [])
    ++ (if in_range (_head + 1) n then [Emoji.PLAY] else [])
    ++ (if in_range (_head + 2) n then [Emoji.NEXT_TRACK] else [])
    ++ [Emoji.PAUSE; Emoji.X].

Definition check (ctx : Context) (msg : Message) (to_react : list string)
           (payload_ : RawReaction) : bool :=
  forallb (fun b : bool => b)
          [ id msg =? message_id payload_;
            user_id payload_ =? author ctx;
            str_in (emoji_name payload_) to_react ].

(** What [get_head] returns: [False], [True], or an integer. *)
Inductive head_value : Type :=
| is_False
| is_True
| is_int (h : Z).

(** [get_head(head_, emoji_)], for a list of [n] embeds: the entry of
    the [actions] dictionary under [emoji_]. *)
Definition get_head (n head_ : Z) (emoji_ : string) : exn + head_value :=
  if String.eqb emoji_ Emoji.LAST_TRACK then inr (is_int 0)
  else if String.eqb emoji_ Emoji.REVERSE
       then inr (is_int (if head_ =? 0 then 0 else head_ - 1))
  else if String.eqb emoji_ Emoji.PLAY
       then inr (is_int (if head_ <? n - 1 then head_ + 1 else n))
  else if String.eqb emoji_ Emoji.NEXT_TRACK then inr (is_int (n - 1))
  else if String.eqb emoji_ Emoji.X then inr is_False
  else if String.eqb emoji_ Emoji.PAUSE then inr is_True
  else inl KeyError.

(** [Embed(description="Closed by user", color=Color.RED)]. *)
Definition default_closed_embed : Embed :=
  {| description := "Closed by user"; color := Some 16711680; truthy := true |}.

(** [closed_embed or Embed(description="Closed by user", color=Color.RED)]:
    the default stands in for [None] and for an embed that is falsy. *)
Definition or_default (closed_embed : option Embed) : Embed :=
  match closed_embed with
  | Some given => if truthy given then given else default_closed_embed
  | None => default_closed_embed
  end.

Section Session.
Variable ctx : Context.
Variable embed_list : list Embed.
Variable closed_embed : Embed.   (* its value after [closed_embed or ...] *)
Variable msg : Message.          (* what [channel.send] returns *)

(** The [while True] loop, one [wait_for] per round: events that do
    not pass [check] are skipped by the pending wait. *)
Fixpoint loop (head : Z) (to_react : list string)
         (sigs : list (signal RawReaction)) : M (option Message) :=
  match sigs with
  | [] => try_clear_reactions msg ;; ret None
  | TimerExpires :: _ => try_clear_reactions msg ;; ret None
  | Arrives payload :: rest =>
      if check ctx msg to_react payload then
        h <- lift (get_head (len embed_list) head (emoji_name payload)) ;;
        match h with
        | is_True => try_clear_reactions msg ;; ret None
        | is_False =>
            try_clear_reactions msg ;;
            perform (edit_closing (embed_view closed_embed)) ;;
            ret None
        | is_int head' =>
            try_clear_reactions msg ;;
            e <- lift (index embed_list head') ;;
            perform (edit (embed_view e)) ;;
            let to_react' := get_reactions (len embed_list) head' in
            add_reactions to_react' ;;
            loop head' to_react' rest
        end
      else loop head to_react rest
  end.

End Session.

(** [arrows(ctx, embed_list, content, head, timeout, closed_embed)];
    [msg] is what [channel.send] returns. *)
Definition arrows (ctx : Context) (embed_list : list Embed)
           (closed_embed : option Embed) (msg : Message)
           (content : option string) (head : Z)
           (sigs : list (signal RawReaction)) : M (option Message) :=
  let closed_embed := or_default closed_embed in
  if len embed_list =? 1 then
    e <- lift (index embed_list 0) ;;
    perform (send content (embed_view e)) ;;
    ret (Some msg)
  else
    e <- lift (index embed_list head) ;;
    perform (send content (embed_view e)) ;;
    let to_react := get_reactions (len embed_list) head in
    add_reactions to_react ;;
    loop ctx embed_list closed_embed msg head to_react sigs.

End Arrows.

(* --------------------------------------------------------------- *)
(** *** [confirm] *)

Module Confirm.

(** The [lock] argument. *)
Inductive lock_arg : Type :=
| lock_bool (b : bool)
| lock_None
| lock_member (member_id : Z)
| lock_role (role : Z).

Definition emojis : list string := [Emoji.THUMBS_UP; Emoji.X].

Definition all (checks : list bool) : bool := forallb (fun b : bool => b) checks.

Definition check (ctx : Context) (msg : Message) (lock : lock_arg)
           (payload : RawReaction) : exn + bool :=
  let _checks :=
    [ negb (user_id payload =? bot_user ctx);
      str_in (emoji_name payload) emojis;
      message_id payload =? id msg ] in
  match lock with
  | lock_bool true =>
      inr (all (_checks ++ [user_id payload =? author ctx]))
  | lock_member member_id =>
      inr (all (_checks ++ [user_id payload =? member_id]))
  | lock_role role =>
      match guild ctx with
      | None => inl AttributeError
      | Some g =>
          match get_member g (user_id payload) with
          | None => inl AttributeError
          | Some roles => inr (all (_checks ++ [existsb (Z.eqb role) roles]))
          end
      end
  | lock_bool false => inr (all _checks)
  | lock_None => inr (all _checks)
  end.

Definition confirm (ctx : Context) (msg : Message) (lock : lock_arg)
           (sigs : list (signal RawReaction)) : M (option bool) :=
  add_reactions emojis ;;
  waited <- lift (wait_for (check ctx msg lock) sigs) ;;
  match waited with
  | None => try_clear_reactions msg ;; ret None
  | Some (payload, _) =>
      try_clear_reactions msg ;;
      if String.eqb (emoji_name payload) Emoji.THUMBS_UP
      then ret (Some true)
      else ret (Some false)
  end.

End Confirm.

(* --------------------------------------------------------------- *)
(** *** [multichoice] *)

Module Multichoice.

(** The [options] argument is whatever the caller passes. *)
#[local] Unset Elimination Schemes.
Inductive pyval : Type :=
| PyNone
| PyBool (b : bool)
| PyInt (z : Z)
| PyStr (s : string)
| PyList (items : list pyval)
| PyTuple (items : list pyval).
#[local] Set Elimination Schemes.

(** Truth value of an object, as [not options] reads it. *)
Definition truthy (v : pyval) : bool :=
  match v with
  | PyNone => false
  | PyBool b => b
  | PyInt z => negb (z =? 0)
  | PyStr s => negb (String.eqb s "")
  | PyList items => negb (len items =? 0)
  | PyTuple items => negb (len items =? 0)
  end.

(** [type(item) is str]. *)
Definition type_is_str (v : pyval) : bool :=
  match v with PyStr _ => true | _ => false end.

Definition as_str (v : pyval) : string :=
  match v with PyStr s => s | _ => EmptyString end.

(** The four guards that open [multichoice]; past them [options] is a
    list of strings. *)
Definition validate (options : pyval) : exn + list string :=
  if negb (truthy options) then inl (ValueError options_empty)
  else match options with
       | PyList items =>
           if negb (forallb type_is_str items)
           then inl (TypeError options_contents_not_str)
           else if existsb (fun opt => str_len (as_str opt) >? 2000) items
                then inl (ValueError option_too_long)
                else inr (map as_str items)
       | _ => inl (TypeError options_not_list)
       end.

(** The [nums] dictionary, in insertion order. *)
Definition nums : list (string * Z) :=
  [ (Emoji.ONE, 0); (Emoji.TWO, 1); (Emoji.THREE, 2); (Emoji.FOUR, 3);
    (Emoji.FIVE, 4); (Emoji.SIX, 5); (Emoji.SEVEN, 6); (Emoji.EIGHT, 7);
    (Emoji.NINE, 8); (Emoji.TEN, 9) ].

(** [emoji == s], [emoji in l] and [nums[emoji]] for a reaction's emoji. *)
Definition emoji_is (e : emoji) (s : string) : bool :=
  match e with unicode s' => String.eqb s' s | custom _ => false end.

Definition emoji_in (e : emoji) (l : list string) : bool :=
  match e with unicode s => str_in s l | custom _ => false end.

Definition nums_get (e : emoji) : option Z :=
  match find (fun kv => emoji_is e (fst kv)) nums with
  | Some kv => Some (snd kv)
  | None => None
  end.

(** Running the generator to its end, as the [for] over it does. *)
Definition consume {A : Type} (g : generated A) : M (list A) :=
  match ending_of g with
  | StopIteration => ret (yielded g)
  | Raise e => raise e
  | OutOfFuel => ([], RunsOutOfFuel)
  end.

Definition set_footer (p : Page) (page pages : Z) : Page :=
  {| chunk := chunk p; footer := Some (page, pages) |}.

(** [get_nums(_chunk)]. *)
Definition get_nums (_chunk : list string) : list string :=
  slice (map fst nums) 0 (len _chunk).

Definition z_in (x : Z) (l : list Z) : bool := existsb (Z.eqb x) l.

(** [get_reactions()], reading [embeds], [multiple] and [head]. *)
Definition get_reactions (embeds : list (list string * Page))
           (multiple : bool) (head : Z) : exn + list string :=
  match index embeds head with
  | inl e => inl e
  | inr entry =>
      let to_react := get_nums (fst entry) in
      let to_react :=
        if multiple then
          if negb (z_in head [0; len embeds - 1])
          then [Emoji.LAST_TRACK; Emoji.REVERSE] ++ to_react
                 ++ [Emoji.PLAY; Emoji.NEXT_TRACK]
          else if head =? 0
               then to_react ++ [Emoji.PLAY; Emoji.NEXT_TRACK]
               else if head =? len embeds - 1
                    then [Emoji.LAST_TRACK; Emoji.REVERSE] ++ to_react
                    else to_react
        else to_react in
      inr (to_react ++ [Emoji.X])
  end.

(** [adjust_head(head_, emoji)]: [None] when there is a single page. *)
Definition adjust_head (pages : Z) (multiple : bool) (head_ : Z) (e : emoji)
  : option Z :=
  if negb multiple then None
  else if emoji_is e Emoji.LAST_TRACK then Some 0
  else if emoji_is e Emoji.REVERSE
       then Some (head_ - (if head_ >? 0 then 1 else 0))
  else if emoji_is e Emoji.PLAY
       then Some (head_ + (if head_ <? pages - 1 then 1 else 0))
  else if emoji_is e Emoji.NEXT_TRACK then Some (pages - 1)
  else Some head_.

Definition check (ctx : Context) (to_react : list string) (ev : ReactionAdd)
  : bool :=
  forallb (fun b : bool => b)
          [ negb (user ev =? bot_user ctx);
            user ev =? author ctx;
            channel ctx =? on_channel ev;
            emoji_in (reaction_emoji ev) to_react ].

(** [try: m  except Forbidden: pass  else: on_success], then [next]. *)
Definition try_else {B : Type} (m : M unit)
           (on_forbidden on_success : M B) : M B :=
  match m with
  | (t, Returns _) => let (t', r) := on_success in (t ++ t', r)
  | (t, Raises Forbidden) => let (t', r) := on_forbidden in (t ++ t', r)
  | (t, Raises e) => (t, Raises e)
  | (t, RunsOutOfFuel) => (t, RunsOutOfFuel)
  end.

Section Session.
Variable ctx : Context.
Variable msg : Message.          (* what [ctx.send] returns *)
Variable embeds : list (list string * Page).
Variable multiple : bool.

Fixpoint loop (head : Z) (to_react : list string)
         (sigs : list (signal ReactionAdd)) : M (option string) :=
  match sigs with
  | [] => perform delete ;; ret None
  | TimerExpires :: _ => perform delete ;; ret None
  | Arrives ev :: rest =>
      if check ctx to_react ev then
        let emoji := reaction_emoji ev in
        if emoji_is emoji Emoji.X then perform delete ;; ret None
        else
          match nums_get emoji with
          | Some k =>
              perform delete ;;
              entry <- lift (index embeds head) ;;
              opt <- lift (index (fst entry) k) ;;
              ret (Some opt)
          | None =>
              match adjust_head (len embeds) multiple head emoji with
              | None => raise (TypeError none_not_an_index)
              | Some head' =>
                  entry <- lift (index embeds head') ;;
                  let next_embed := set_footer (snd entry) (head' + 1) (len embeds) in
                  perform (edit (page_view next_embed)) ;;
                  try_else (msg_clear_reactions msg)
                    (loop head' to_react rest)
                    (to_react' <- lift (get_reactions embeds multiple head') ;;
                     add_reactions to_react' ;;
                     loop head' to_react' rest)
              end
          end
      else loop head to_react rest
  end.
End Session.

Definition multichoice (fuel : nat) (ctx : Context) (options : pyval)
           (msg : Message) (sigs : list (signal ReactionAdd))
  : M (option string) :=
  opts <- lift (validate options) ;;
  let multiple := len opts >? 10 in
  let head := 0 in
  chunks <- consume (Dpytools.chunkify_string_list fuel opts 10 2000 10) ;;
  let embeds :=
    map (fun c => (c, {| chunk := c; footer := None |})) chunks in
  to_react <- lift (get_reactions embeds multiple head) ;;
  entry <- lift (index embeds 0) ;;
  let first_embed := set_footer (snd entry) 1 (len embeds) in
  perform (send None (page_view first_embed)) ;;
  add_reactions to_react ;;
  loop ctx msg embeds multiple head to_react sigs.

End Multichoice.

End Menus.

(* ================================================================= *)
(** ** Sample sessions *)

Module Sample.
Import Py Discord Menus.

(** The author is user 1, the bot is user 2, the menu is message 10 of
    channel 3. *)
Definition ctx : Context :=
  {| author := 1; bot_user := 2; channel := 3; guild := None |}.

Definition msg : Message :=
  {| id := 10; in_guild := true; clear_allowed := true |}.

(** A guild that resolves user 1 to a member holding role 7, and resolves
    nobody else; the same context inside this guild. *)
Definition a_guild : Guild :=
  {| get_member := fun u => if u =? 1 then Some [7] else None |}.

Definition guild_ctx : Context :=
  {| author := 1; bot_user := 2; channel := 3; guild := Some a_guild |}.

(** User 5 adds a smile to message 99. *)
Definition smile_elsewhere : RawReaction :=
  {| message_id := 99; user_id := 5; emoji_name := Emoji.SMILE |}.

Definition an_embed (text : string) : Embed :=
  {| description := text; color := None;
     truthy := negb (String.eqb text EmptyString) |}.

Definition three_embeds : list Embed :=
  [an_embed "one"; an_embed "two"; an_embed "three"].

Definition play_by_author : RawReaction :=
  {| message_id := 10; user_id := 1; emoji_name := Emoji.PLAY |}.

(** A reaction on the menu message. *)
Definition raw (who : Z) (what : string) : RawReaction :=
  {| message_id := 10; user_id := who; emoji_name := what |}.

(** A reaction of [who] with [what] on message [where_] of channel 3. *)
Definition reaction (where_ who : Z) (what : string) : ReactionAdd :=
  {| on_message := where_; on_channel := 3;
     reaction_emoji := unicode what; user := who |}.

Definition two_options : Multichoice.pyval :=
  Multichoice.PyList [Multichoice.PyStr "tea"; Multichoice.PyStr "coffee"].

(** Twenty-five options, the letters A to Y. *)
Definition letters : list string :=
  map (fun k => String (ascii_of_nat (65 + k)) EmptyString) (seq 0 25).

Definition letter_options : Multichoice.pyval :=
  Multichoice.PyList (map Multichoice.PyStr letters).

(** Eleven options, the letters A to K. *)
Definition eleven_letters : list string := firstn 11 letters.

(** The menu message where the host refuses to clear reactions. *)
Definition msg_no_clear : Message :=
  {| id := 10; in_guild := true; clear_allowed := false |}.

(** An option of 1991 characters. *)
Definition long_option : string := str_mul "x" 1991.

End Sample.

(* ================================================================= *)
(** * Properties *)

Import Py Discord Menus.

(* ----------------------------------------------------------------- *)
(** ** Slices and ranges *)

Lemma firstn_plus {A : Type} (a b : nat) (l : list A) :
  firstn (a + b) l = firstn a l ++ firstn b (skipn a l).
Proof.
  revert l; induction a as [|a IH]; intros l; simpl; [reflexivity|].
  destruct l as [|x l]; simpl.
  - now rewrite firstn_nil.
  - now rewrite IH.
Qed.

(** A slice whose bounds are not negative is a window of the list. *)
Lemma slice_from {A : Type} (l : list A) (i m : Z) :
  0 <= i -> 0 <= m ->
  slice l i (i + m) = firstn (Z.to_nat m) (skipn (Z.to_nat i) l).
Proof.
  intros Hi Hm. unfold slice, clamp, len.
  destruct (i <? 0) eqn:E1; [apply Z.ltb_lt in E1; lia|].
  destruct (i + m <? 0) eqn:E2; [apply Z.ltb_lt in E2; lia|].
  destruct (Z_lt_le_dec i (Z.of_nat (length l))) as [Hlt|Hge].
  - rewrite (Z.min_l i) by lia.
    destruct (Z_le_gt_dec (i + m) (Z.of_nat (length l))) as [Hle|Hgt].
    + rewrite Z.min_l by lia. f_equal. lia.
    + rewrite Z.min_r by lia.
      rewrite !firstn_all2; try reflexivity; rewrite length_skipn; lia.
  - rewrite (Z.min_r i) by lia.
    rewrite (skipn_all2 l) by lia. rewrite (skipn_all2 l) by lia.
    now rewrite !firstn_nil.
Qed.

(** The number of start positions covers the list, and not by a whole step
    too many. *)
Lemma range_len_pos (n step : Z) :
  0 < step -> 0 <= n ->
  let c := range_len 0 n step in
  0 <= c /\ n <= c * step /\ (0 < c -> (c - 1) * step < n).
Proof.
  intros Hs Hn. unfold range_len.
  destruct (0 <? step) eqn:E; [|apply Z.ltb_ge in E; lia].
  destruct (0 <? n) eqn:E'.
  - apply Z.ltb_lt in E'. simpl.
    rewrite Z.sub_0_r.
    pose proof (Z.div_mod (n - 1) step ltac:(lia)) as Hdm.
    pose proof (Z.mod_pos_bound (n - 1) step Hs) as Hb.
    pose proof (Z.div_pos (n - 1) step ltac:(lia) Hs).
    repeat split; nia.
  - apply Z.ltb_ge in E'. simpl. repeat split; lia.
Qed.

Lemma range_from_zero (n step : Z) :
  0 < step ->
  range 0 n step =
  inr (map (fun k => Z.of_nat k * step) (seq 0 (Z.to_nat (range_len 0 n step)))).
Proof.
  intros Hs. unfold range.
  destruct (step =? 0) eqn:E; [apply Z.eqb_eq in E; lia|].
  f_equal.
Qed.

(* ----------------------------------------------------------------- *)
(** ** [chunkify] *)

Lemma concat_windows {A : Type} (n : nat) (l : list A) (c : nat) :
  concat (map (fun k => firstn n (skipn (k * n)%nat l)) (seq 0 c))
  = firstn (c * n)%nat l.
Proof.
  induction c as [|c IH]; [reflexivity|].
  rewrite seq_S, map_app, concat_app, IH. simpl.
  rewrite app_nil_r, (Nat.add_comm n), firstn_plus. reflexivity.
Qed.

Lemma chunkify_windows {A : Type} (input_list : list A) (max_number : Z) :
  0 < max_number ->
  Dpytools.chunkify input_list max_number =
  {| yielded := map (fun k => firstn (Z.to_nat max_number)
                                 (skipn (k * Z.to_nat max_number)%nat input_list))
                    (seq 0 (Z.to_nat (range_len 0 (len input_list) max_number)));
     ending_of := StopIteration |}.
Proof.
  intros Hpos. unfold Dpytools.chunkify. rewrite range_from_zero by assumption.
  f_equal. rewrite map_map. apply map_ext. intros k.
  rewrite slice_from by lia. do 2 f_equal. nia.
Qed.

(** C7. For every list and every [max_number > 0], [chunkify] ends normally
    and the chunks it yields, concatenated in order, are the list; every
    chunk has at most [max_number] items; every chunk but the last has
    exactly [max_number]; and [chunkify([1..7], 3)] yields
    [[1,2,3],[4,5,6],[7]]. *)
Theorem chunkify_partitions {A : Type} (seq0 : list A) (max_number : Z) :
  0 < max_number ->
  let chunks := yielded (Dpytools.chunkify seq0 max_number) in
  ending_of (Dpytools.chunkify seq0 max_number) = StopIteration
  /\ concat chunks = seq0
  /\ Forall (fun c => len c <= max_number) chunks
  /\ (forall k c, nth_error chunks k = Some c -> (S k < length chunks)%nat ->
                  len c = max_number)
  /\ yielded (Dpytools.chunkify [1; 2; 3; 4; 5; 6; 7] 3)
     = [[1; 2; 3]; [4; 5; 6]; [7]].
Proof.
  intros Hpos chunks. subst chunks.
  rewrite chunkify_windows by assumption. cbn [yielded ending_of].
  pose proof (range_len_pos (len seq0) max_number Hpos
                ltac:(unfold len; lia)) as (Hc0 & Hcover & Htight).
  set (c := range_len 0 (len seq0) max_number) in *.
  unfold len in Hcover, Htight.
  split; [reflexivity|]. split; [|split; [|split]].
  - rewrite concat_windows. apply firstn_all2. nia.
  - apply Forall_forall. intros ch Hin.
    apply in_map_iff in Hin as (k & <- & _).
    unfold len. rewrite length_firstn. lia.
  - intros k ch Hnth Hlast.
    rewrite length_map, length_seq in Hlast.
    rewrite nth_error_map in Hnth.
    rewrite nth_error_seq in Hnth.
    destruct (Nat.ltb k (Z.to_nat c)) eqn:Ek; [|discriminate].
    simpl in Hnth. injection Hnth as <-.
    unfold len. rewrite length_firstn, length_skipn.
    assert ((Z.of_nat k + 1) * max_number < Z.of_nat (length seq0)) by nia.
    nia.
  - reflexivity.
Qed.

Lemma chunkify_partitions_witness :
  0 < 3 /\ concat (yielded (Dpytools.chunkify [10; 20; 30; 40; 50; 60; 70] 3))
           = [10; 20; 30; 40; 50; 60; 70].
Proof.
  split; [lia|].
  exact (proj1 (proj2 (chunkify_partitions [10; 20; 30; 40; 50; 60; 70] 3 ltac:(lia)))).
Defined.

(* ----------------------------------------------------------------- *)
(** ** [chunkify_string_list] *)

(** One turn of the [while] loop, whatever the fuel. *)
Lemma shrink_eq (fuel : nat) (input_list : list string)
      (i n max_length separator_length : Z) :
  Dpytools.shrink fuel input_list i n max_length separator_length =
  if Dpytools.too_long (slice input_list i (i + n)) max_length separator_length
  then match fuel with
       | O => None
       | S fuel' =>
           Dpytools.shrink fuel' input_list i (n - 1) max_length separator_length
       end
  else Some (slice input_list i (i + n)).
Proof. destruct fuel; reflexivity. Qed.

(** C3. [chunkify_string_list(['aaa','b','c'], 2, 3, 0)] yields
    [['aaa'], ['c']]: the first chunk is shrunk to one item, the next slice
    starts two positions further all the same, and ['b'] is in no chunk, so
    the chunks do not concatenate to the input. *)
Theorem chunkify_string_list_drops_item :
  forall fuel : nat,
    let input_list := ["aaa"; "b"; "c"]%string in
    let g := Dpytools.chunkify_string_list (S fuel) input_list 2 3 0 in
    g = {| yielded := [["aaa"]; ["c"]]%string; ending_of := StopIteration |}
    /\ In "b"%string input_list
    /\ ~ In "b"%string (concat (yielded g))
    /\ concat (yielded g) <> input_list.
Proof.
  intros fuel input_list g.
  assert (Hg : g = {| yielded := [["aaa"]; ["c"]]%string;
                      ending_of := StopIteration |}).
  { subst g input_list. unfold Dpytools.chunkify_string_list.
    cbv -[Dpytools.shrink]. rewrite !shrink_eq. reflexivity. }
  rewrite Hg. cbn [yielded concat app]. subst input_list.
  repeat split.
  - right; left; reflexivity.
  - intros [H|[H|[]]]; discriminate H.
  - discriminate.
Qed.

Lemma chunks_from_never_raises (fuel : nat) (input_list : list string)
      (max_number max_length separator_length : Z) (starts : list Z) (e : exn) :
  ending_of (Dpytools.chunks_from fuel input_list max_number max_length
                                  separator_length starts) <> Raise e.
Proof.
  induction starts as [|i starts IH]; simpl; [discriminate|].
  destruct (Dpytools.shrink fuel input_list i max_number max_length separator_length);
    simpl; [assumption|discriminate].
Qed.

Lemma existsb_false_of_Forall {A : Type} (p : A -> bool) (l : list A) :
  Forall (fun x => p x = false) l -> existsb p l = false.
Proof.
  induction 1 as [|x l Hx _ IH]; simpl; [reflexivity|].
  now rewrite Hx, IH.
Qed.

(** C6. Whenever some item is longer than [max_length - separator_length],
    [chunkify_string_list] raises its [ValueError] and has yielded nothing;
    when no item is, that error is not raised. *)
Theorem chunkify_string_list_validation
        (fuel : nat) (input_list : list string)
        (max_number max_length separator_length : Z) :
  let g := Dpytools.chunkify_string_list fuel input_list max_number
                                         max_length separator_length in
  (Exists (fun item => str_len item > max_length - separator_length) input_list ->
   g = {| yielded := []; ending_of := Raise (ValueError (items_exceed max_length)) |})
  /\ (Forall (fun item => str_len item <= max_length - separator_length) input_list ->
      forall m, ending_of g <> Raise (ValueError (items_exceed m))).
Proof.
  intros g. subst g. unfold Dpytools.chunkify_string_list. split.
  - intros Hex.
    assert (E : existsb (fun item => str_len item >? max_length - separator_length)
                        input_list = true).
    { apply existsb_exists. apply Exists_exists in Hex as (item & Hin & Hlen).
      exists item. split; [assumption|]. apply Z.gtb_lt. lia. }
    now rewrite E.
  - intros Hall m.
    rewrite existsb_false_of_Forall.
    + destruct (range 0 (len input_list) max_number) as [e|starts] eqn:Er.
      * unfold range in Er. destruct (max_number =? 0); [|discriminate].
        injection Er as <-. simpl. discriminate.
      * apply chunks_from_never_raises.
    + eapply Forall_impl; [|exact Hall]. intros item Hlen. simpl in Hlen.
      destruct (str_len item >? max_length - separator_length) eqn:E;
        [apply Z.gtb_lt in E; lia|reflexivity].
Qed.

Lemma chunkify_string_list_validation_witness :
  Dpytools.chunkify_string_list 4 ["abcd"; "e"]%string 2 3 0
  = {| yielded := []; ending_of := Raise (ValueError (items_exceed 3)) |}
  /\ ending_of (Dpytools.chunkify_string_list 4 ["abc"; "e"]%string 2 3 0)
     <> Raise (ValueError (items_exceed 3)).
Proof.
  split.
  - apply (proj1 (chunkify_string_list_validation 4 ["abcd"; "e"]%string 2 3 0)).
    apply Exists_cons_hd. vm_compute. reflexivity.
  - apply (proj2 (chunkify_string_list_validation 4 ["abc"; "e"]%string 2 3 0)).
    repeat constructor; vm_compute; discriminate.
Defined.

(* ----------------------------------------------------------------- *)
(** ** Coroutines *)

Lemma bind_ret_l {A B : Type} (a : A) (k : A -> M B) : bind (ret a) k = k a.
Proof. unfold bind, ret. destruct (k a) as [t r]. reflexivity. Qed.

Lemma bind_assoc {A B C : Type} (m : M A) (k : A -> M B) (k' : B -> M C) :
  bind (bind m k) k' = bind m (fun a => bind (k a) k').
Proof.
  destruct m as [t [a| |]]; cbn; try reflexivity.
  destruct (k a) as [t1 [b| |]]; cbn; try reflexivity.
  destruct (k' b) as [t2 r]. now rewrite app_assoc.
Qed.

(** [try_clear_reactions] always returns: a refusal of the host does not
    come out of it. *)
Lemma try_clear_reactions_returns (msg : Message) :
  try_clear_reactions msg
  = ((if in_guild msg then [clear_reactions] else []), Returns tt).
Proof.
  unfold try_clear_reactions, msg_clear_reactions, except_forbidden_pass, ret.
  destruct (in_guild msg), (clear_allowed msg); reflexivity.
Qed.

(** Each round of the loop of [arrows] is one [wait_for] under its check,
    followed by the handling of the event that ended the wait. *)
Lemma arrows_loop_waits (ctx : Context) (embed_list : list Embed)
      (closed_embed : Embed) (msg : Message) (head : Z) (to_react : list string)
      (sigs : list (signal RawReaction)) :
  Arrows.loop ctx embed_list closed_embed msg head to_react sigs =
  match wait_for (fun payload => inr (Arrows.check ctx msg to_react payload)) sigs with
  | inl e => raise e
  | inr None => (try_clear_reactions msg ;; ret None)%menu
  | inr (Some (payload, rest)) =>
      (h <- lift (Arrows.get_head (len embed_list) head (emoji_name payload)) ;;
       match h with
       | Arrows.is_True => try_clear_reactions msg ;; ret None
       | Arrows.is_False =>
           try_clear_reactions msg ;;
           perform (edit_closing (embed_view closed_embed)) ;;
           ret None
       | Arrows.is_int head' =>
           try_clear_reactions msg ;;
           e <- lift (index embed_list head') ;;
           perform (edit (embed_view e)) ;;
           let to_react' := Arrows.get_reactions (len embed_list) head' in
           add_reactions to_react' ;;
           Arrows.loop ctx embed_list closed_embed msg head' to_react' rest
       end)%menu
  end.
Proof.
  induction sigs as [|[payload|] sigs IH]; cbn [Arrows.loop wait_for];
    try reflexivity.
  destruct (Arrows.check ctx msg to_react payload); [reflexivity|exact IH].
Qed.

(** The same for the loop of [multichoice]. *)
Lemma multichoice_loop_waits (ctx : Context) (msg : Message)
      (embeds : list (list string * Page)) (multiple : bool) (head : Z)
      (to_react : list string) (sigs : list (signal ReactionAdd)) :
  Multichoice.loop ctx msg embeds multiple head to_react sigs =
  match wait_for (fun ev => inr (Multichoice.check ctx to_react ev)) sigs with
  | inl e => raise e
  | inr None => (perform delete ;; ret None)%menu
  | inr (Some (ev, rest)) =>
      let emoji := reaction_emoji ev in
      if Multichoice.emoji_is emoji Emoji.X then (perform delete ;; ret None)%menu
      else
        match Multichoice.nums_get emoji with
        | Some k =>
            (perform delete ;;
             entry <- lift (index embeds head) ;;
             opt <- lift (index (fst entry) k) ;;
             ret (Some opt))%menu
        | None =>
            match Multichoice.adjust_head (len embeds) multiple head emoji with
            | None => raise (TypeError none_not_an_index)
            | Some head' =>
                (entry <- lift (index embeds head') ;;
                 let next_embed :=
                   Multichoice.set_footer (snd entry) (head' + 1) (len embeds) in
                 perform (edit (page_view next_embed)) ;;
                 Multichoice.try_else (msg_clear_reactions msg)
                   (Multichoice.loop ctx msg embeds multiple head' to_react rest)
                   (to_react' <- lift (Multichoice.get_reactions embeds multiple head') ;;
                    add_reactions to_react' ;;
                    Multichoice.loop ctx msg embeds multiple head' to_react' rest))%menu
            end
        end
  end.
Proof.
  induction sigs as [|[ev|] sigs IH]; cbn [Multichoice.loop wait_for];
    try reflexivity.
  destruct (Multichoice.check ctx to_react ev); [reflexivity|exact IH].
Qed.

(* ----------------------------------------------------------------- *)
(** ** [arrows] *)

Lemma in_range_spec (x n : Z) : in_range x n = true <-> 0 <= x < n.
Proof. unfold in_range. rewrite andb_true_iff, Z.leb_le, Z.ltb_lt. tauto. Qed.

Lemma index_in_range {A : Type} (l : list A) (i : Z) :
  0 <= i < len l -> exists x, index l i = inr x.
Proof.
  intros [Hlo Hhi]. unfold index, len in *.
  destruct (i <? 0) eqn:E; [apply Z.ltb_lt in E; lia|]. rewrite E.
  destruct (nth_error l (Z.to_nat i)) as [x|] eqn:En; [now exists x|].
  apply nth_error_None in En. lia.
Qed.

(** The play affordance is attached exactly when a next view exists. *)
Lemma play_attached (n head : Z) :
  str_in Emoji.PLAY (Arrows.get_reactions n head) = in_range (head + 1) n.
Proof.
  unfold Arrows.get_reactions.
  destruct (in_range (head - 2) n), (in_range (head - 1) n),
    (in_range (head + 1) n), (in_range (head + 2) n); reflexivity.
Qed.

Lemma arrows_check_spec (ctx : Context) (msg : Message) (to_react : list string)
      (payload : RawReaction) :
  Arrows.check ctx msg to_react payload = true <->
  id msg = message_id payload /\ user_id payload = author ctx
  /\ str_in (emoji_name payload) to_react = true.
Proof.
  unfold Arrows.check. cbn [forallb].
  rewrite !andb_true_iff, !Z.eqb_eq. tauto.
Qed.

(** C2. For every qualifying play event, whatever view is displayed, the
    new index is [min(index + 1, len - 1)]; it lies in [[0, len - 1]] and is
    not [len]; the loop shows that view and goes on from it with the
    affordances recomputed for it. *)
Theorem arrows_next_stays_in_range
        (ctx : Context) (msg : Message) (embed_list : list Embed)
        (closed_embed : Embed) (head : Z) (payload : RawReaction)
        (rest : list (signal RawReaction)) :
  Arrows.check ctx msg (Arrows.get_reactions (len embed_list) head) payload = true ->
  emoji_name payload = Emoji.PLAY ->
  let n := len embed_list in
  let head' := Z.min (head + 1) (n - 1) in
  Arrows.get_head n head (emoji_name payload) = inr (Arrows.is_int head')
  /\ 0 <= head' <= n - 1
  /\ head' <> n
  /\ exists e,
      index embed_list head' = inr e
      /\ Arrows.loop ctx embed_list closed_embed msg head
                     (Arrows.get_reactions n head) (Arrives payload :: rest)
         = (try_clear_reactions msg ;;
            perform (edit (embed_view e)) ;;
            add_reactions (Arrows.get_reactions n head') ;;
            Arrows.loop ctx embed_list closed_embed msg head'
                        (Arrows.get_reactions n head') rest)%menu.
Proof.
  intros Hcheck Hplay n head'.
  pose proof Hcheck as Hq.
  apply arrows_check_spec in Hq as (_ & _ & Hin).
  rewrite Hplay, play_attached in Hin. apply in_range_spec in Hin.
  fold n in Hin.
  assert (Hhead' : head' = head + 1) by (subst head'; lia).
  assert (Hget : Arrows.get_head n head (emoji_name payload)
                 = inr (Arrows.is_int head')).
  { rewrite Hplay, Hhead'. unfold Arrows.get_head. cbn.
    destruct (head <? n - 1) eqn:E; [reflexivity|].
    apply Z.ltb_ge in E. lia. }
  split; [exact Hget|]. split; [lia|]. split; [lia|].
  destruct (index_in_range embed_list head' ltac:(fold n; lia)) as [e He].
  exists e. split; [exact He|].
  cbn [Arrows.loop]. fold n in Hcheck |- *. rewrite Hcheck, Hget.
  cbn [lift]. rewrite bind_ret_l, He. cbn [lift].
  rewrite try_clear_reactions_returns.
  unfold bind at 1 3. now rewrite bind_ret_l.
Qed.

Lemma arrows_next_stays_in_range_witness :
  Arrows.check Sample.ctx Sample.msg
               (Arrows.get_reactions (len Sample.three_embeds) 0)
               Sample.play_by_author = true
  /\ Arrows.get_head (len Sample.three_embeds) 0
                     (emoji_name Sample.play_by_author)
     = inr (Arrows.is_int 1).
Proof.
  split; [reflexivity|].
  exact (proj1 (arrows_next_stays_in_range
                  Sample.ctx Sample.msg Sample.three_embeds
                  Arrows.default_closed_embed 0 Sample.play_by_author []
                  eq_refl eq_refl)).
Defined.

(** The entry of [actions] for the play emoji at the last index is [len]
    itself; the lemmas below show that no run of the loop reads it. *)
Lemma get_head_play_at_last (n : Z) :
  Arrows.get_head n (n - 1) Emoji.PLAY = inr (Arrows.is_int n).
Proof.
  unfold Arrows.get_head. cbn.
  destruct (n - 1 <? n - 1) eqn:E; [apply Z.ltb_lt in E; lia|reflexivity].
Qed.

Lemma str_in_In (x : string) (l : list string) :
  str_in x l = true <-> In x l.
Proof.
  unfold str_in. rewrite existsb_exists. split.
  - intros (y & Hin & Heq). apply String.eqb_eq in Heq. now subst.
  - intros Hin. exists x. split; [assumption|apply String.eqb_refl].
Qed.

(** What an attached affordance of [arrows] can be, and when. *)
Lemma arrows_attached (n head : Z) (x : string) :
  str_in x (Arrows.get_reactions n head) = true ->
  (x = Emoji.LAST_TRACK /\ 0 <= head - 2 < n)
  \/ (x = Emoji.REVERSE /\ 0 <= head - 1 < n)
  \/ (x = Emoji.PLAY /\ 0 <= head + 1 < n)
  \/ (x = Emoji.NEXT_TRACK /\ 0 <= head + 2 < n)
  \/ x = Emoji.PAUSE \/ x = Emoji.X.
Proof.
  rewrite str_in_In. unfold Arrows.get_reactions.
  rewrite !in_app_iff.
  destruct (in_range (head - 2) n) eqn:E1, (in_range (head - 1) n) eqn:E2,
    (in_range (head + 1) n) eqn:E3, (in_range (head + 2) n) eqn:E4;
    try apply in_range_spec in E1; try apply in_range_spec in E2;
    try apply in_range_spec in E3; try apply in_range_spec in E4;
    cbn [In]; intuition (subst; auto).
Qed.

(** From a state whose affordances are those of its index, a qualifying
    event leads [get_head] to [True], [False] or a valid index. *)
Lemma get_head_of_attached (n head : Z) (x : string) :
  str_in x (Arrows.get_reactions n head) = true ->
  Arrows.get_head n head x = inr Arrows.is_True
  \/ Arrows.get_head n head x = inr Arrows.is_False
  \/ exists h, Arrows.get_head n head x = inr (Arrows.is_int h) /\ 0 <= h < n.
Proof.
  intros Hin. apply arrows_attached in Hin.
  destruct Hin as [[-> H]|[[-> H]|[[-> H]|[[-> H]|[->| ->]]]]];
    unfold Arrows.get_head; cbn.
  - right; right. exists 0. split; [reflexivity|lia].
  - right; right. destruct (head =? 0) eqn:E; [apply Z.eqb_eq in E; lia|].
    exists (head - 1). split; [reflexivity|lia].
  - right; right. destruct (head <? n - 1) eqn:E; [|apply Z.ltb_ge in E; lia].
    exists (head + 1). split; [reflexivity|lia].
  - right; right. exists (n - 1). split; [reflexivity|lia].
  - left; reflexivity.
  - right; left; reflexivity.
Qed.

(** The loop of [arrows] always returns: no index it reads is out of range. *)
Lemma arrows_loop_returns (ctx : Context) (embed_list : list Embed)
      (closed_embed : Embed) (msg : Message)
      (sigs : list (signal RawReaction)) :
  forall head,
  exists t r,
    Arrows.loop ctx embed_list closed_embed msg head
                (Arrows.get_reactions (len embed_list) head) sigs
    = (t, Returns r).
Proof.
  induction sigs as [|[payload|] sigs IH]; intros head; cbn [Arrows.loop];
    try (rewrite try_clear_reactions_returns; cbn; eauto; fail).
  destruct (Arrows.check _ _ _ payload) eqn:Hc; [|apply IH].
  apply arrows_check_spec in Hc as (_ & _ & Hin).
  destruct (get_head_of_attached _ _ _ Hin) as [Hg|[Hg|(h & Hg & Hh)]];
    rewrite Hg; cbn [lift]; rewrite bind_ret_l, try_clear_reactions_returns;
    try (cbn; eauto; fail).
  destruct (index_in_range embed_list h Hh) as [e He]. rewrite He.
  destruct (IH h) as (t & r & Hloop). rewrite Hloop. cbn. eauto.
Qed.

Lemma index_valid {A : Type} (l : list A) (i : Z) :
  - len l <= i < len l -> exists x, index l i = inr x.
Proof.
  intros Hi. destruct (Z_lt_le_dec i 0) as [Hneg|Hpos].
  - destruct (index_in_range l (i + len l) ltac:(lia)) as [x Hx].
    exists x. unfold index in *.
    destruct (i <? 0) eqn:E; [|apply Z.ltb_ge in E; lia].
    destruct (i + len l <? 0) eqn:E'; [apply Z.ltb_lt in E'; lia|].
    now rewrite E' in Hx.
  - apply index_in_range. lia.
Qed.

(** Started on a list of at least one embed at an index Python accepts,
    [arrows] returns, whatever events arrive. *)
Lemma arrows_returns (ctx : Context) (embed_list : list Embed)
      (closed_embed : option Embed) (msg : Message) (content : option string)
      (head : Z) (sigs : list (signal RawReaction)) :
  - len embed_list <= head < len embed_list ->
  exists t r,
    Arrows.arrows ctx embed_list closed_embed msg content head sigs
    = (t, Returns r).
Proof.
  intros Hhead. unfold Arrows.arrows.
  destruct (len embed_list =? 1) eqn:Hone.
  - apply Z.eqb_eq in Hone.
    destruct (index_in_range embed_list 0 ltac:(lia)) as [e He].
    rewrite He. cbn. eauto.
  - destruct (index_valid embed_list head Hhead) as [e He]. rewrite He.
    cbn [lift]. rewrite bind_ret_l.
    destruct (arrows_loop_returns ctx embed_list
                                  (Arrows.or_default closed_embed) msg sigs head)
      as (t & r & Hloop).
    rewrite Hloop. cbn. eauto.
Qed.

(* ----------------------------------------------------------------- *)
(** ** [confirm] *)

(** A pending wait passes over the events its check answers [False] to. *)
Lemma wait_for_skips {E : Type} (check : E -> exn + bool) (pre : list E)
      (sigs : list (signal E)) :
  Forall (fun q => check q = inr false) pre ->
  wait_for check (map Arrives pre ++ sigs) = wait_for check sigs.
Proof.
  induction 1 as [|q pre Hq _ IH]; [reflexivity|].
  cbn. now rewrite Hq.
Qed.

Lemma confirm_after_wait (ctx : Context) (msg : Message)
      (lock : Confirm.lock_arg) (sigs : list (signal RawReaction)) :
  result (Confirm.confirm ctx msg lock sigs) =
  match wait_for (Confirm.check ctx msg lock) sigs with
  | inl e => Raises e
  | inr None => Returns None
  | inr (Some (payload, _)) =>
      Returns (Some (String.eqb (emoji_name payload) Emoji.THUMBS_UP))
  end.
Proof.
  unfold Confirm.confirm.
  destruct (wait_for (Confirm.check ctx msg lock) sigs) as [e|[[payload rest]|]];
    cbn [lift]; try rewrite try_clear_reactions_returns;
    unfold result, add_reactions, raise, ret, bind; cbn [snd]; try reflexivity.
  destruct (String.eqb (emoji_name payload) Emoji.THUMBS_UP); reflexivity.
Qed.

Lemma confirm_all_spec (ctx : Context) (msg : Message) (q : RawReaction)
      (extra : bool) :
  Confirm.all
    ([ negb (user_id q =? bot_user ctx);
       str_in (emoji_name q) Confirm.emojis;
       message_id q =? id msg ] ++ [extra]) = true
  <-> user_id q <> bot_user ctx
      /\ In (emoji_name q) Confirm.emojis
      /\ message_id q = id msg
      /\ extra = true.
Proof.
  unfold Confirm.all. cbn [app forallb].
  rewrite !andb_true_iff, negb_true_iff, Z.eqb_neq, Z.eqb_eq, str_in_In. tauto.
Qed.

Lemma confirm_all_base_spec (ctx : Context) (msg : Message) (q : RawReaction) :
  Confirm.all
    [ negb (user_id q =? bot_user ctx);
      str_in (emoji_name q) Confirm.emojis;
      message_id q =? id msg ] = true
  <-> user_id q <> bot_user ctx
      /\ In (emoji_name q) Confirm.emojis
      /\ message_id q = id msg.
Proof.
  unfold Confirm.all. cbn [forallb].
  rewrite !andb_true_iff, negb_true_iff, Z.eqb_neq, Z.eqb_eq, str_in_In. tauto.
Qed.

(** Where [confirm] does what is said of it: it returns [True] when the
    first event its check accepts carries the approve emoji and [False]
    when it carries the deny emoji; it returns [None] when the timer
    expires (or the events end) before the check accepts any; an event
    the check answers [False] to changes nothing.  The check answers
    [False] to an event on another message, an event with another emoji,
    and an event of a user the lock excludes; under a role lock only for a
    user the guild resolves to a member. *)
Lemma confirm_outcomes
        (ctx : Context) (msg : Message) (lock : Confirm.lock_arg)
        (pre : list RawReaction) (payload : RawReaction)
        (post : list (signal RawReaction)) :
  Forall (fun q => Confirm.check ctx msg lock q = inr false) pre ->
  Confirm.check ctx msg lock payload = inr true ->
  let run := fun sigs => Confirm.confirm ctx msg lock sigs in
  (emoji_name payload = Emoji.THUMBS_UP ->
   result (run (map Arrives pre ++ Arrives payload :: post)) = Returns (Some true))
  /\ (emoji_name payload = Emoji.X ->
      result (run (map Arrives pre ++ Arrives payload :: post)) = Returns (Some false))
  /\ (emoji_name payload = Emoji.THUMBS_UP \/ emoji_name payload = Emoji.X)
  /\ result (run (map Arrives pre ++ TimerExpires :: Arrives payload :: post))
     = Returns None
  /\ result (run (map Arrives pre)) = Returns None
  /\ (forall sigs, run (map Arrives pre ++ sigs) = run sigs)
  /\ (forall q : RawReaction,
         match lock with
         | Confirm.lock_role role =>
             forall g roles,
               guild ctx = Some g -> get_member g (user_id q) = Some roles ->
               message_id q <> id msg
               \/ ~ In (emoji_name q) Confirm.emojis
               \/ ~ In role roles ->
               Confirm.check ctx msg lock q = inr false
         | Confirm.lock_member member_id =>
             message_id q <> id msg
             \/ ~ In (emoji_name q) Confirm.emojis
             \/ user_id q <> member_id ->
             Confirm.check ctx msg lock q = inr false
         | Confirm.lock_bool true =>
             message_id q <> id msg
             \/ ~ In (emoji_name q) Confirm.emojis
             \/ user_id q <> author ctx ->
             Confirm.check ctx msg lock q = inr false
         | _ =>
             message_id q <> id msg
             \/ ~ In (emoji_name q) Confirm.emojis ->
             Confirm.check ctx msg lock q = inr false
         end).
Proof.
  intros Hpre Hq run. subst run. cbn beta.
  assert (Hemoji : emoji_name payload = Emoji.THUMBS_UP
                   \/ emoji_name payload = Emoji.X).
  { assert (Hin : In (emoji_name payload) Confirm.emojis).
    { unfold Confirm.check in Hq. cbv zeta in Hq.
      destruct lock as [[|]| |m|r];
        try (destruct (guild ctx) as [g|]; [|discriminate];
             destruct (get_member g (user_id payload)); [|discriminate]);
        injection Hq as Hq;
        first [ apply confirm_all_spec in Hq
              | apply confirm_all_base_spec in Hq ]; tauto. }
    destruct Hin as [H|[H|[]]]; auto. }
  repeat split.
  - intros He. rewrite confirm_after_wait, wait_for_skips by assumption.
    cbn. now rewrite Hq, He.
  - intros He. rewrite confirm_after_wait, wait_for_skips by assumption.
    cbn. now rewrite Hq, He.
  - exact Hemoji.
  - rewrite confirm_after_wait, wait_for_skips by assumption. reflexivity.
  - rewrite <- (app_nil_r (map Arrives pre)).
    rewrite confirm_after_wait, wait_for_skips by assumption. reflexivity.
  - intros sigs. unfold Confirm.confirm.
    now rewrite wait_for_skips by assumption.
  - intros q. unfold Confirm.check. cbv zeta.
    destruct lock as [[|]| |m|r].
    + intros H. f_equal. apply not_true_is_false. intros Hall.
      apply confirm_all_spec in Hall as (_ & Hin & Hm & Hu).
      apply Z.eqb_eq in Hu. tauto.
    + intros H. f_equal. apply not_true_is_false. intros Hall.
      apply confirm_all_base_spec in Hall. tauto.
    + intros H. f_equal. apply not_true_is_false. intros Hall.
      apply confirm_all_base_spec in Hall. tauto.
    + intros H. f_equal. apply not_true_is_false. intros Hall.
      apply confirm_all_spec in Hall as (_ & Hin & Hm & Hu).
      apply Z.eqb_eq in Hu. tauto.
    + intros g roles Hg Hmem H. rewrite Hg, Hmem.
      f_equal. apply not_true_is_false. intros Hall.
      apply confirm_all_spec in Hall as (_ & Hin & Hm & Hu).
      apply existsb_exists in Hu as (r' & Hr' & Heq).
      apply Z.eqb_eq in Heq. subst r'. tauto.
Qed.

(** Under a role lock, [check] reads the roles of the member that the guild
    resolves the reacting user to; for a user it does not resolve, [check]
    raises instead of answering, and the exception ends [confirm]. *)
Lemma confirm_role_lock_unknown_member
      (ctx : Context) (msg : Message) (role : Z) (g : Guild)
      (payload : RawReaction) (rest : list (signal RawReaction)) :
  guild ctx = Some g ->
  get_member g (user_id payload) = None ->
  Confirm.check ctx msg (Confirm.lock_role role) payload = inl AttributeError
  /\ result (Confirm.confirm ctx msg (Confirm.lock_role role)
                             (Arrives payload :: rest))
     = Raises AttributeError.
Proof.
  intros Hg Hmember.
  assert (Hcheck : Confirm.check ctx msg (Confirm.lock_role role) payload
                   = inl AttributeError).
  { unfold Confirm.check. cbv zeta. now rewrite Hg, Hmember. }
  split; [exact Hcheck|].
  rewrite confirm_after_wait. cbn [wait_for]. now rewrite Hcheck.
Qed.

Lemma confirm_outcomes_witness :
  Forall (fun q => Confirm.check Sample.ctx Sample.msg (Confirm.lock_bool true) q
                   = inr false)
         [Sample.raw 5 Emoji.THUMBS_UP; Sample.raw 1 Emoji.PLAY]
  /\ Confirm.check Sample.ctx Sample.msg (Confirm.lock_bool true)
                   (Sample.raw 1 Emoji.X) = inr true
  /\ result (Confirm.confirm Sample.ctx Sample.msg (Confirm.lock_bool true)
               (map Arrives [Sample.raw 5 Emoji.THUMBS_UP; Sample.raw 1 Emoji.PLAY]
                  ++ Arrives (Sample.raw 1 Emoji.X) :: []))
     = Returns (Some false).
Proof.
  assert (Hpre : Forall (fun q => Confirm.check Sample.ctx Sample.msg
                                    (Confirm.lock_bool true) q = inr false)
                        [Sample.raw 5 Emoji.THUMBS_UP; Sample.raw 1 Emoji.PLAY])
    by (repeat constructor).
  split; [exact Hpre|]. split; [reflexivity|].
  exact (proj1 (proj2 (confirm_outcomes
                         Sample.ctx Sample.msg (Confirm.lock_bool true)
                         [Sample.raw 5 Emoji.THUMBS_UP; Sample.raw 1 Emoji.PLAY]
                         (Sample.raw 1 Emoji.X) [] Hpre eq_refl))
               eq_refl).
Defined.

(** C8 (the code departs from the claim).  Under a role lock, [check]
    appends [lock in ctx.guild.get_member(payload.user_id).roles] to its
    tests for every event, before [all] combines them.  So an event that
    is non-qualifying on every count (another message, an emoji that is
    neither approve nor deny, a user without the role) is not passed over
    when there is no guild or the guild does not resolve its user to a
    member: wherever it arrives after events the check answered [False]
    to, [check] raises [AttributeError], the pending wait ends with it,
    and [confirm] neither keeps waiting nor returns a result.  In a guild
    that resolves only user 1, who holds role 7: the approval of user 1
    gives [True]; after a smile of user 5 on message 99 that approval is
    never read, while under the default lock the smile is passed over. *)
Theorem confirm_role_lock_ends_on_unresolved_user :
  (forall (ctx : Context) (msg : Message) (role : Z) (pre : list RawReaction)
          (q : RawReaction) (rest : list (signal RawReaction)),
      Forall (fun p => Confirm.check ctx msg (Confirm.lock_role role) p
                       = inr false) pre ->
      guild ctx = None
      \/ (exists g, guild ctx = Some g /\ get_member g (user_id q) = None) ->
      Confirm.confirm ctx msg (Confirm.lock_role role)
                      (map Arrives pre ++ Arrives q :: rest)
      = ([add_reaction Emoji.THUMBS_UP; add_reaction Emoji.X],
         Raises AttributeError))
  /\ message_id Sample.smile_elsewhere <> id Sample.msg
  /\ ~ In (emoji_name Sample.smile_elsewhere) Confirm.emojis
  /\ get_member Sample.a_guild (user_id Sample.smile_elsewhere) = None
  /\ Confirm.confirm Sample.guild_ctx Sample.msg (Confirm.lock_role 7)
                     [Arrives (Sample.raw 1 Emoji.THUMBS_UP)]
     = ([add_reaction Emoji.THUMBS_UP; add_reaction Emoji.X; clear_reactions],
        Returns (Some true))
  /\ Confirm.confirm Sample.guild_ctx Sample.msg (Confirm.lock_role 7)
                     [Arrives Sample.smile_elsewhere;
                      Arrives (Sample.raw 1 Emoji.THUMBS_UP)]
     = ([add_reaction Emoji.THUMBS_UP; add_reaction Emoji.X],
        Raises AttributeError)
  /\ Confirm.confirm Sample.guild_ctx Sample.msg (Confirm.lock_bool true)
                     [Arrives Sample.smile_elsewhere;
                      Arrives (Sample.raw 1 Emoji.THUMBS_UP)]
     = ([add_reaction Emoji.THUMBS_UP; add_reaction Emoji.X; clear_reactions],
        Returns (Some true)).
Proof.
  split.
  - intros ctx msg role pre q rest Hpre Hunknown.
    assert (Hcheck : Confirm.check ctx msg (Confirm.lock_role role) q
                     = inl AttributeError).
    { unfold Confirm.check. cbv zeta.
      destruct Hunknown as [Hg|(g & Hg & Hm)]; rewrite Hg; [reflexivity|].
      now rewrite Hm. }
    unfold Confirm.confirm. rewrite wait_for_skips by exact Hpre.
    cbn [wait_for]. now rewrite Hcheck.
  - split; [discriminate|].
    split; [intros [H|[H|[]]]; discriminate H|].
    repeat split.
Qed.

(** The claim of C9 as stated, that in open mode every user id qualifies,
    fails for the bot's own id: [check] rejects the bot's reactions in
    every mode. *)
Lemma confirm_open_rejects_bot :
  ~ (forall (ctx : Context) (msg : Message) (payload : RawReaction),
        In (emoji_name payload) Confirm.emojis ->
        message_id payload = id msg ->
        Confirm.check ctx msg (Confirm.lock_bool false) payload = inr true).
Proof.
  intros H.
  specialize (H Sample.ctx Sample.msg (Sample.raw 2 Emoji.THUMBS_UP)
                (or_introl eq_refl) eq_refl).
  discriminate H.
Qed.

(** C9 (amended). In open mode ([lock=False], and [lock=None] alike), a
    reaction with the approve or deny emoji on the dialog message qualifies
    exactly when its user is not the bot itself; the first such reaction
    decides the dialog. *)
Theorem confirm_open_mode
        (ctx : Context) (msg : Message) (payload : RawReaction)
        (post : list (signal RawReaction)) :
  In (emoji_name payload) Confirm.emojis ->
  message_id payload = id msg ->
  (Confirm.check ctx msg (Confirm.lock_bool false) payload = inr true
   <-> user_id payload <> bot_user ctx)
  /\ Confirm.check ctx msg Confirm.lock_None payload
     = Confirm.check ctx msg (Confirm.lock_bool false) payload
  /\ (user_id payload <> bot_user ctx ->
      result (Confirm.confirm ctx msg (Confirm.lock_bool false)
                              (Arrives payload :: post))
      = Returns (Some (String.eqb (emoji_name payload) Emoji.THUMBS_UP)))
  /\ (user_id payload = bot_user ctx ->
      Confirm.confirm ctx msg (Confirm.lock_bool false) (Arrives payload :: post)
      = Confirm.confirm ctx msg (Confirm.lock_bool false) post).
Proof.
  intros Hemoji Hmsg.
  assert (Hiff : Confirm.check ctx msg (Confirm.lock_bool false) payload = inr true
                 <-> user_id payload <> bot_user ctx).
  { unfold Confirm.check. cbv zeta. split.
    - intros H. injection H as H. apply confirm_all_base_spec in H. tauto.
    - intros H. f_equal. apply confirm_all_base_spec. tauto. }
  split; [exact Hiff|]. split; [reflexivity|]. split.
  - intros Hu. apply Hiff in Hu.
    rewrite confirm_after_wait. cbn [wait_for]. now rewrite Hu.
  - intros Hu.
    assert (Hrej : Confirm.check ctx msg (Confirm.lock_bool false) payload
                   = inr false).
    { unfold Confirm.check. cbv zeta. f_equal. apply not_true_is_false.
      intros H. apply confirm_all_base_spec in H. tauto. }
    unfold Confirm.confirm. cbn [wait_for]. now rewrite Hrej.
Qed.

Lemma confirm_open_mode_witness :
  In (emoji_name (Sample.raw 77 Emoji.X)) Confirm.emojis
  /\ message_id (Sample.raw 77 Emoji.X) = id Sample.msg
  /\ result (Confirm.confirm Sample.ctx Sample.msg (Confirm.lock_bool false)
                             (Arrives (Sample.raw 77 Emoji.X) :: []))
     = Returns (Some false).
Proof.
  split; [right; left; reflexivity|]. split; [reflexivity|].
  refine (proj1 (proj2 (proj2 (confirm_open_mode
                                 Sample.ctx Sample.msg (Sample.raw 77 Emoji.X) []
                                 (or_intror (or_introl eq_refl)) eq_refl))) _).
  discriminate.
Defined.

(* ----------------------------------------------------------------- *)
(** ** Lengths of joined strings, and the end of the [while] loop *)

Lemma string_length_app (s1 s2 : string) :
  String.length (s1 ++ s2) = (String.length s1 + String.length s2)%nat.
Proof. induction s1 as [|c s1 IH]; simpl; [reflexivity|now rewrite IH]. Qed.

Lemma list_sum_step (x : nat) (l : list nat) :
  list_sum (x :: l) = (x + list_sum l)%nat.
Proof. reflexivity. Qed.

Lemma join_length (parts : list string) :
  String.length (join parts) = list_sum (map String.length parts).
Proof.
  unfold join. induction parts as [|x [|y parts] IH]; [reflexivity| |].
  - simpl. lia.
  - change (String.concat "" (x :: y :: parts))
      with (x ++ "" ++ String.concat "" (y :: parts))%string.
    rewrite !string_length_app, IH. simpl. lia.
Qed.

Lemma str_mul_length (n : Z) : str_len (str_mul "_" n) = Z.max 0 n.
Proof.
  unfold str_len, str_mul. fold (join (repeat "_"%string (Z.to_nat n))).
  rewrite join_length.
  assert (H : forall k, list_sum (map String.length (repeat "_"%string k)) = k).
  { induction k as [|k IH]; simpl; [reflexivity|now rewrite IH]. }
  rewrite H. lia.
Qed.

(** The test of the [while] loop, as arithmetic on the lengths. *)
Lemma too_long_spec (l : list string) (max_length separator_length : Z) :
  Dpytools.too_long l max_length separator_length =
  (fold_right (fun opt acc => str_len opt + Z.max 0 separator_length + acc) 0 l
   - separator_length >? max_length).
Proof.
  unfold Dpytools.too_long.
  assert (H : str_len (join (map (fun opt => (opt ++ str_mul "_" separator_length)%string) l))
              = fold_right (fun opt acc => str_len opt + Z.max 0 separator_length + acc)
                           0 l).
  { unfold str_len at 1. rewrite join_length, map_map.
    induction l as [|opt l IH]; [reflexivity|].
    cbn [map fold_right]. rewrite list_sum_step, Nat2Z.inj_add, IH.
    rewrite string_length_app, Nat2Z.inj_add.
    fold (str_len opt). fold (str_len (str_mul "_" separator_length)).
    rewrite str_mul_length. lia. }
  now rewrite H.
Qed.

(** A chunk of one item passes the test of the [while] loop. *)
Lemma single_item_fits (input_list : list string)
      (i max_length separator_length : Z) :
  0 <= separator_length ->
  Forall (fun item => str_len item <= max_length - separator_length) input_list ->
  0 <= i < len input_list ->
  Dpytools.too_long (slice input_list i (i + 1)) max_length separator_length = false.
Proof.
  intros Hsep Hall Hi.
  rewrite too_long_spec, slice_from by lia.
  destruct (skipn (Z.to_nat i) input_list) as [|x xs] eqn:Hskip.
  - apply skipn_all_iff in Hskip. unfold len in Hi. lia.
  - assert (Hin : In x input_list).
    { rewrite <- (firstn_skipn (Z.to_nat i) input_list), Hskip.
      apply in_or_app. right. left. reflexivity. }
    rewrite Forall_forall in Hall. specialize (Hall x Hin).
    change (Z.to_nat 1) with 1%nat. cbn [firstn fold_right].
    destruct (_ >? _) eqn:E; [apply Z.gtb_lt in E; lia|reflexivity].
Qed.

(** Entered with [n >= 1] at a start position inside the list, with no
    item longer than [max_length - separator_length] and a separator that is
    not negative, the [while] loop ends within [n - 1] turns. *)
Lemma shrink_terminates (fuel : nat) (input_list : list string)
      (i n max_length separator_length : Z) :
  0 <= separator_length ->
  Forall (fun item => str_len item <= max_length - separator_length) input_list ->
  0 <= i < len input_list ->
  1 <= n <= Z.of_nat fuel + 1 ->
  exists l, Dpytools.shrink fuel input_list i n max_length separator_length = Some l.
Proof.
  intros Hsep Hall Hi. revert n.
  induction fuel as [|fuel IH]; intros n Hn; rewrite shrink_eq;
    destruct (Dpytools.too_long _ _ _) eqn:Hlong; eauto.
  - assert (n = 1) by lia. subst n.
    rewrite single_item_fits in Hlong by assumption. discriminate.
  - destruct (Z.eq_dec n 1) as [->|Hne]; [|apply IH; lia].
    rewrite single_item_fits in Hlong by assumption. discriminate.
Qed.

(** With a separator that is not negative, at most [fuel + 1] items per
    chunk and no item over [max_length - separator_length], every [while]
    loop ends and the generator is exhausted after one chunk per start
    position. *)
Lemma chunks_from_terminates (fuel : nat) (input_list : list string)
      (max_number max_length separator_length : Z) (starts : list Z) :
  0 <= separator_length ->
  1 <= max_number <= Z.of_nat fuel + 1 ->
  Forall (fun item => str_len item <= max_length - separator_length) input_list ->
  Forall (fun i => 0 <= i < len input_list) starts ->
  exists chunks,
    Dpytools.chunks_from fuel input_list max_number max_length separator_length starts
    = {| yielded := chunks; ending_of := StopIteration |}
    /\ length chunks = length starts.
Proof.
  intros Hsep Hn Hall Hstarts.
  induction Hstarts as [|i starts Hi _ IH]; cbn [Dpytools.chunks_from].
  - exists []. split; reflexivity.
  - destruct (shrink_terminates fuel input_list i max_number max_length
                separator_length Hsep Hall Hi Hn) as [l Hl].
    destruct IH as (chunks & Hchunks & Hlen).
    rewrite Hl, Hchunks. exists (l :: chunks). split; [reflexivity|].
    cbn [length]. now rewrite Hlen.
Qed.

Lemma range_in_bounds (n step : Z) (starts : list Z) :
  0 < step -> 0 <= n ->
  range 0 n step = inr starts ->
  Forall (fun i => 0 <= i < n) starts
  /\ (0 < n -> starts <> []).
Proof.
  intros Hs Hn Hr. rewrite range_from_zero in Hr by assumption.
  injection Hr as <-.
  destruct (range_len_pos n step Hs Hn) as (Hc0 & Hcover & Htight).
  set (c := range_len 0 n step) in *.
  split.
  - apply Forall_forall. intros i Hin.
    apply in_map_iff in Hin as (k & <- & Hk). apply in_seq in Hk. nia.
  - intros Hpos Hnil. apply map_eq_nil in Hnil.
    assert (Hlen : length (seq 0 (Z.to_nat c)) = 0%nat) by now rewrite Hnil.
    rewrite length_seq in Hlen. nia.
Qed.

Lemma chunkify_string_list_terminates (fuel : nat) (input_list : list string)
      (max_number max_length separator_length : Z) :
  0 <= separator_length ->
  1 <= max_number <= Z.of_nat fuel + 1 ->
  Forall (fun item => str_len item <= max_length - separator_length) input_list ->
  exists chunks,
    Dpytools.chunkify_string_list fuel input_list max_number max_length
                                  separator_length
    = {| yielded := chunks; ending_of := StopIteration |}
    /\ (input_list <> [] -> chunks <> []).
Proof.
  intros Hsep Hn Hall. unfold Dpytools.chunkify_string_list.
  rewrite existsb_false_of_Forall.
  - destruct (range 0 (len input_list) max_number) as [e|starts] eqn:Hr.
    + rewrite range_from_zero in Hr by lia. discriminate.
    + assert (Hlen0 : 0 <= len input_list) by (unfold len; lia).
      destruct (range_in_bounds (len input_list) max_number starts
                  ltac:(lia) Hlen0 Hr) as [Hb Hne].
      destruct (chunks_from_terminates fuel input_list max_number max_length
                  separator_length starts Hsep Hn Hall Hb)
        as (chunks & Hchunks & Hlen).
      exists chunks. split; [exact Hchunks|].
      intros Hnonempty Hnil. apply Hne.
      * unfold len. destruct input_list; [congruence|cbn [length]; lia].
      * subst chunks. now destruct starts.
  - eapply Forall_impl; [|exact Hall]. intros item Hlen. cbn beta in Hlen.
    destruct (str_len item >? max_length - separator_length) eqn:E;
      [apply Z.gtb_lt in E; lia|reflexivity].
Qed.

(* ----------------------------------------------------------------- *)
(** ** [multichoice] *)

(** C1. The check of [multichoice] does not read the message of the
    reaction: an event on any other message of the channel is answered as
    the same event on the menu's message.  The author's numeral reaction on
    message 99, while the menu is message 10, selects an option. *)
Theorem multichoice_check_ignores_message
        (ctx : Context) (to_react : list string) (ev : ReactionAdd) (other : Z) :
  Multichoice.check ctx to_react
                    {| on_message := other; on_channel := on_channel ev;
                       reaction_emoji := reaction_emoji ev; user := user ev |}
  = Multichoice.check ctx to_react ev
  /\ on_message (Sample.reaction 99 1 Emoji.ONE) <> id Sample.msg
  /\ Multichoice.multichoice 10 Sample.ctx Sample.two_options Sample.msg
                             [Arrives (Sample.reaction 99 1 Emoji.ONE)]
     = ([send None (page_view {| chunk := ["tea"; "coffee"]%string;
                                 footer := Some (1, 1) |});
         add_reaction Emoji.ONE; add_reaction Emoji.TWO; add_reaction Emoji.X;
         delete],
        Returns (Some "tea"%string)).
Proof.
  split; [reflexivity|]. split; [discriminate|]. vm_compute. reflexivity.
Qed.

(** What passes the four guards of [multichoice]. *)
Lemma validate_spec (options : Multichoice.pyval) (opts : list string) :
  Multichoice.validate options = inr opts
  <-> options = Multichoice.PyList (map Multichoice.PyStr opts)
      /\ opts <> []
      /\ Forall (fun opt => str_len opt <= 2000) opts.
Proof.
  unfold Multichoice.validate. split.
  - destruct (negb (Multichoice.truthy options)) eqn:Ht; [discriminate|].
    destruct options as [| | | |items|]; try discriminate.
    destruct (negb (forallb Multichoice.type_is_str items)) eqn:Hs; [discriminate|].
    destruct (existsb _ items) eqn:Hl; [discriminate|].
    intros H. injection H as <-.
    apply negb_false_iff in Hs. rewrite forallb_forall in Hs.
    assert (Hitems : items = map Multichoice.PyStr (map Multichoice.as_str items)).
    { clear Ht Hl. induction items as [|v items IH]; [reflexivity|].
      cbn [map]. rewrite <- IH by (intros x Hx; apply Hs; now right).
      specialize (Hs v (or_introl eq_refl)).
      destruct v; try discriminate. reflexivity. }
    split; [now rewrite <- Hitems|]. split.
    + intros Hnil. destruct items; [discriminate Ht|discriminate Hnil].
    + apply Forall_forall. intros opt Hin.
      apply in_map_iff in Hin as (v & <- & Hv).
      destruct (Z_le_gt_dec (str_len (Multichoice.as_str v)) 2000) as [|Hgt];
        [assumption|].
      assert (existsb (fun opt => str_len (Multichoice.as_str opt) >? 2000) items
              = true).
      { apply existsb_exists. exists v. split; [assumption|].
        apply Z.gtb_lt. lia. }
      congruence.
  - intros (-> & Hne & Hall).
    assert (Ht : Multichoice.truthy (Multichoice.PyList (map Multichoice.PyStr opts))
                 = true).
    { destruct opts; [congruence|reflexivity]. }
    rewrite Ht. cbn [negb].
    assert (Hs : forallb Multichoice.type_is_str (map Multichoice.PyStr opts) = true).
    { apply forallb_forall. intros v Hin.
      apply in_map_iff in Hin as (opt & <- & _). reflexivity. }
    rewrite Hs. cbn [negb].
    rewrite existsb_false_of_Forall.
    + f_equal. rewrite map_map. cbn [Multichoice.as_str]. apply map_id.
    + apply Forall_forall. intros v Hin.
      apply in_map_iff in Hin as (opt & <- & Hopt).
      rewrite Forall_forall in Hall. specialize (Hall opt Hopt).
      cbn [Multichoice.as_str].
      destruct (str_len opt >? 2000) eqn:E; [apply Z.gtb_lt in E; lia|reflexivity].
Qed.

(** C5. An option of 1991 characters passes the four guards of
    [multichoice] (it is a string of at most 2000 characters in a non-empty
    list), and [multichoice] still raises a [ValueError], that of
    [chunkify_string_list], before any call to the host; yet a chunk made of
    this option alone passes the test of the [while] loop. *)
Theorem multichoice_rejects_1991_characters
        (fuel : nat) (ctx : Context) (msg : Message)
        (sigs : list (signal ReactionAdd)) :
  str_len Sample.long_option = 1991
  /\ Multichoice.validate (Multichoice.PyList [Multichoice.PyStr Sample.long_option])
     = inr [Sample.long_option]
  /\ Multichoice.multichoice fuel ctx
                             (Multichoice.PyList [Multichoice.PyStr Sample.long_option])
                             msg sigs
     = ([], Raises (ValueError (items_exceed 2000)))
  /\ Dpytools.too_long [Sample.long_option] 2000 10 = false.
Proof.
  split; [vm_compute; reflexivity|].
  assert (Hv : Multichoice.validate
                 (Multichoice.PyList [Multichoice.PyStr Sample.long_option])
               = inr [Sample.long_option]) by (vm_compute; reflexivity).
  split; [exact Hv|]. split; [|vm_compute; reflexivity].
  unfold Multichoice.multichoice. rewrite Hv. cbn [lift]. rewrite bind_ret_l.
  assert (Hg : Dpytools.chunkify_string_list fuel [Sample.long_option] 10 2000 10
               = stops (Raise (ValueError (items_exceed 2000)))).
  { unfold Dpytools.chunkify_string_list.
    assert (He : existsb (fun item => str_len item >? 2000 - 10)
                         [Sample.long_option] = true) by (vm_compute; reflexivity).
    now rewrite He. }
  rewrite Hg. reflexivity.
Qed.

Lemma bind_perform {B : Type} (c : call) (k : unit -> M B) :
  bind (perform c) k = (c :: calls (k tt), result (k tt)).
Proof. unfold bind, perform, calls, result. now destruct (k tt). Qed.

(** Where [multichoice] stops before the menu is shown, and where it shows
    it: the four guards, then the guard of [chunkify_string_list] at
    [2000 - 10] characters; past both, the first call sends the menu. *)
Lemma multichoice_before_send (fuel : nat) (ctx : Context)
      (options : Multichoice.pyval) (msg : Message)
      (sigs : list (signal ReactionAdd)) :
  (9 <= fuel)%nat ->
  match Multichoice.validate options with
  | inl e =>
      Multichoice.multichoice fuel ctx options msg sigs = ([], Raises e)
  | inr opts =>
      if existsb (fun opt => str_len opt >? 1990) opts
      then Multichoice.multichoice fuel ctx options msg sigs
           = ([], Raises (ValueError (items_exceed 2000)))
      else exists page more r,
             Multichoice.multichoice fuel ctx options msg sigs
             = (send None (page_view page) :: more, r)
  end.
Proof.
  intros Hfuel. unfold Multichoice.multichoice.
  destruct (Multichoice.validate options) as [e|opts] eqn:Hv; [reflexivity|].
  cbn [lift]. rewrite bind_ret_l.
  destruct (existsb (fun opt => str_len opt >? 1990) opts) eqn:Hlong.
  - unfold Dpytools.chunkify_string_list.
    change (2000 - 10) with 1990. now rewrite Hlong.
  - apply validate_spec in Hv as (_ & Hne & _).
    assert (Hall : Forall (fun item => str_len item <= 2000 - 10) opts).
    { apply Forall_forall. intros item Hin.
      destruct (Z_le_gt_dec (str_len item) (2000 - 10)) as [|Hgt]; [assumption|].
      assert (existsb (fun opt => str_len opt >? 1990) opts = true).
      { apply existsb_exists. exists item. split; [assumption|].
        apply Z.gtb_lt. lia. }
      congruence. }
    destruct (chunkify_string_list_terminates fuel opts 10 2000 10
                ltac:(lia) ltac:(lia) Hall) as (chunks & Hchunks & Hsome).
    rewrite Hchunks. specialize (Hsome Hne).
    destruct chunks as [|c0 chunks]; [congruence|].
    unfold Multichoice.consume. cbn [ending_of yielded]. rewrite bind_ret_l.
    cbn [map]. unfold Multichoice.get_reactions at 1.
    change (index ((c0, {| chunk := c0; footer := None |}) :: ?l) 0)
      with (@inr exn _ (c0, {| chunk := c0; footer := None |})).
    cbn [lift]. rewrite !bind_ret_l. rewrite bind_perform.
    eauto.
Qed.

Lemma gtb_false (x y : Z) : (x >? y) = false <-> x <= y.
Proof. rewrite Z.gtb_ltb, Z.ltb_ge. tauto. Qed.

Lemma multichoice_check_author (ctx : Context) (to_react : list string)
      (where_ : Z) (e : emoji) :
  author ctx <> bot_user ctx ->
  Multichoice.check ctx to_react
    {| on_message := where_; on_channel := channel ctx;
       reaction_emoji := e; user := author ctx |}
  = Multichoice.emoji_in e to_react.
Proof.
  intros Hne. unfold Multichoice.check. cbn [forallb user on_channel reaction_emoji].
  rewrite !Z.eqb_refl. apply Z.eqb_neq in Hne. rewrite Hne.
  cbn [negb andb]. now rewrite andb_true_r.
Qed.


Lemma result_bind_returns {A B : Type} (t : list call) (a : A) (k : A -> M B) :
  result (bind (t, Returns a) k) = result (k a).
Proof. unfold bind, result. now destruct (k a). Qed.

Lemma calls_bind_returns {A B : Type} (t : list call) (a : A) (k : A -> M B) :
  calls (bind (t, Returns a) k) = t ++ calls (k a).
Proof. unfold bind, calls. now destruct (k a). Qed.

Lemma result_try_else {B : Type} (msg : Message) (on_forbidden on_success : M B) :
  result (Multichoice.try_else (msg_clear_reactions msg) on_forbidden on_success)
  = if clear_allowed msg then result on_success else result on_forbidden.
Proof.
  unfold Multichoice.try_else, msg_clear_reactions, result.
  destruct (clear_allowed msg);
    [destruct on_success|destruct on_forbidden]; reflexivity.
Qed.

Lemma multichoice_loop_select (ctx : Context) (msg : Message)
      (embeds : list (list string * Page)) (multiple : bool) (head : Z)
      (to_react : list string) (ev : ReactionAdd)
      (rest : list (signal ReactionAdd)) (k : Z) :
  Multichoice.check ctx to_react ev = true ->
  Multichoice.emoji_is (reaction_emoji ev) Emoji.X = false ->
  Multichoice.nums_get (reaction_emoji ev) = Some k ->
  Multichoice.loop ctx msg embeds multiple head to_react (Arrives ev :: rest)
  = (perform delete ;;
     entry <- lift (index embeds head) ;;
     opt <- lift (index (fst entry) k) ;;
     ret (Some opt))%menu.
Proof.
  intros Hcheck Hx Hk. cbn [Multichoice.loop]. now rewrite Hcheck, Hx, Hk.
Qed.

Lemma multichoice_loop_navigate (ctx : Context) (msg : Message)
      (embeds : list (list string * Page)) (multiple : bool) (head : Z)
      (to_react : list string) (ev : ReactionAdd)
      (rest : list (signal ReactionAdd)) (head' : Z) (entry : list string * Page) :
  Multichoice.check ctx to_react ev = true ->
  Multichoice.emoji_is (reaction_emoji ev) Emoji.X = false ->
  Multichoice.nums_get (reaction_emoji ev) = None ->
  Multichoice.adjust_head (len embeds) multiple head (reaction_emoji ev) = Some head' ->
  index embeds head' = inr entry ->
  Multichoice.loop ctx msg embeds multiple head to_react (Arrives ev :: rest)
  = (perform (edit (page_view (Multichoice.set_footer (snd entry) (head' + 1)
                                                      (len embeds)))) ;;
     Multichoice.try_else (msg_clear_reactions msg)
       (Multichoice.loop ctx msg embeds multiple head' to_react rest)
       (to_react' <- lift (Multichoice.get_reactions embeds multiple head') ;;
        add_reactions to_react' ;;
        Multichoice.loop ctx msg embeds multiple head' to_react' rest))%menu.
Proof.
  intros Hcheck Hx Hk Hadj Hidx. cbn [Multichoice.loop].
  rewrite Hcheck, Hx, Hk, Hadj, Hidx. cbn [lift]. now rewrite bind_ret_l.
Qed.

(** The claim of C4 as stated fails on the letters A to Y: with page 1
    displayed, the numeral 3 returns the option at index 12 (M), which is
    not the option at index 13 (N). *)
Lemma multichoice_numeral_three_not_index_13 :
  index Sample.letters 13 = inr "N"%string
  /\ result (Multichoice.multichoice
               10 Sample.ctx Sample.letter_options Sample.msg
               [Arrives (Sample.reaction 10 1 Emoji.PLAY);
                Arrives (Sample.reaction 10 1 Emoji.THREE)])
     <> Returns (Some "N"%string).
Proof.
  split; [reflexivity|]. vm_compute. discriminate.
Qed.

(** C4 (amended). For 25 options short enough that no chunk is shrunk, the
    options are grouped into three pages of 10, 10 and 5 options, and with
    page 1 displayed the numeral 3 returns [options[12]], the third option
    of that page: so does the loop on any qualifying numeral-3 event, and so
    does the whole call when the author reacts with play, then with 3. *)
Theorem multichoice_25_options
        (fuel : nat) (ctx : Context) (msg : Message) (options : list string) :
  len options = 25 ->
  (forall i, In i [0; 10; 20] ->
             Dpytools.too_long (slice options i (i + 10)) 2000 10 = false) ->
  author ctx <> bot_user ctx ->
  let pages := [slice options 0 10; slice options 10 20; slice options 20 30] in
  let embeds := map (fun c => (c, {| chunk := c; footer := None |})) pages in
  let by_author := fun what =>
    Arrives {| on_message := id msg; on_channel := channel ctx;
               reaction_emoji := unicode what; user := author ctx |} in
  Dpytools.chunkify_string_list fuel options 10 2000 10
  = {| yielded := pages; ending_of := StopIteration |}
  /\ map len pages = [10; 10; 5]
  /\ exists opt,
      index options 12 = inr opt
      /\ (forall to_react ev rest,
             Multichoice.check ctx to_react ev = true ->
             reaction_emoji ev = unicode Emoji.THREE ->
             Multichoice.loop ctx msg embeds true 1 to_react (Arrives ev :: rest)
             = ([delete], Returns (Some opt)))
      /\ result (Multichoice.multichoice
                   fuel ctx (Multichoice.PyList (map Multichoice.PyStr options)) msg
                   [by_author Emoji.PLAY; by_author Emoji.THREE])
         = Returns (Some opt).
Proof.
  intros Hlen Hfit Hauthor pages embeds by_author.
  pose proof (Hfit 0 ltac:(cbn; auto)) as K0.
  pose proof (Hfit 10 ltac:(cbn; auto)) as K10.
  pose proof (Hfit 20 ltac:(cbn; auto)) as K20.
  pose proof K0 as H0. pose proof K10 as H10. pose proof K20 as H20.
  rewrite too_long_spec, gtb_false, slice_from in H0, H10, H20 by lia.
  change (Z.to_nat 0) with 0%nat in *. change (Z.to_nat 10) with 10%nat in *.
  change (Z.to_nat 20) with 20%nat in *.
  unfold len in Hlen.
  do 25 (destruct options as [|? options]; [cbn [length] in Hlen; lia|]).
  destruct options; [|cbn [length] in Hlen; lia].
  cbn [firstn skipn fold_right] in H0, H10, H20.
  set (options := [s; s0; s1; s2; s3; s4; s5; s6; s7; s8; s9; s10; s11; s12;
                   s13; s14; s15; s16; s17; s18; s19; s20; s21; s22; s23]) in *.
  assert (Hshort : Forall (fun item => str_len item <= 1990) options).
  { subst options. unfold str_len in *. repeat constructor; lia. }
  assert (Hchunks : Dpytools.chunkify_string_list fuel options 10 2000 10
                    = {| yielded := pages; ending_of := StopIteration |}).
  { unfold Dpytools.chunkify_string_list.
    rewrite existsb_false_of_Forall.
    - change (range 0 (len options) 10) with (@inr exn _ [0; 10; 20]).
      cbn [Dpytools.chunks_from]. rewrite !shrink_eq, K0, K10, K20. reflexivity.
    - eapply Forall_impl; [|exact Hshort]. intros item Hitem.
      apply gtb_false. cbn beta in Hitem. lia. }
  split; [exact Hchunks|]. split; [reflexivity|].
  assert (Hsel : forall to_react ev rest,
             Multichoice.check ctx to_react ev = true ->
             reaction_emoji ev = unicode Emoji.THREE ->
             Multichoice.loop ctx msg embeds true 1 to_react (Arrives ev :: rest)
             = ([delete], Returns (Some s11))).
  { intros to_react ev rest Hcheck Hemoji.
    rewrite (multichoice_loop_select _ _ _ _ _ _ _ _ 2 Hcheck);
      [reflexivity|rewrite Hemoji; reflexivity..]. }
  exists s11. split; [reflexivity|]. split; [exact Hsel|].
  unfold Multichoice.multichoice.
    assert (Hv : Multichoice.validate (Multichoice.PyList (map Multichoice.PyStr options))
                 = inr options).
    { apply validate_spec. split; [reflexivity|]. split; [discriminate|].
      eapply Forall_impl; [|exact Hshort]. intros item Hitem. cbn beta in Hitem. lia. }
    rewrite Hv. cbn [lift]. rewrite bind_ret_l, Hchunks.
    unfold Multichoice.consume. cbn [ending_of yielded]. rewrite bind_ret_l.
    fold embeds. change (len options >? 10) with true.
    set (numerals := map fst Multichoice.nums).
    assert (Hr0 : Multichoice.get_reactions embeds true 0
                  = inr (numerals ++ [Emoji.PLAY; Emoji.NEXT_TRACK] ++ [Emoji.X]))
      by reflexivity.
    assert (Hr1 : Multichoice.get_reactions embeds true 1
                  = inr ([Emoji.LAST_TRACK; Emoji.REVERSE] ++ numerals
                           ++ [Emoji.PLAY; Emoji.NEXT_TRACK] ++ [Emoji.X]))
      by reflexivity.
    rewrite Hr0. cbn [lift]. rewrite bind_ret_l.
    change (index embeds 0) with (@inr exn _ (nth 0 embeds ([], {| chunk := []; footer := None |}))).
    cbn [lift]. rewrite bind_ret_l.
    unfold perform, add_reactions. rewrite !result_bind_returns.
    subst by_author. cbv beta.
    rewrite (multichoice_loop_navigate _ _ _ _ _ _ _ _ 1
               (nth 1 embeds ([], {| chunk := []; footer := None |})));
      try reflexivity;
      [|rewrite multichoice_check_author by assumption; reflexivity].
    unfold perform. rewrite result_bind_returns, result_try_else.
    destruct (clear_allowed msg).
    + rewrite Hr1. cbn [lift]. rewrite bind_ret_l.
      unfold add_reactions. rewrite result_bind_returns.
      rewrite Hsel; [reflexivity| |reflexivity].
      rewrite multichoice_check_author by assumption. reflexivity.
    + rewrite Hsel; [reflexivity| |reflexivity].
      rewrite multichoice_check_author by assumption. reflexivity.
Qed.

Lemma multichoice_25_options_witness :
  len Sample.letters = 25
  /\ author Sample.ctx <> bot_user Sample.ctx
  /\ Dpytools.chunkify_string_list 10 Sample.letters 10 2000 10
     = {| yielded := [slice Sample.letters 0 10; slice Sample.letters 10 20;
                      slice Sample.letters 20 30];
          ending_of := StopIteration |}.
Proof.
  split; [reflexivity|]. split; [discriminate|].
  refine (proj1 (multichoice_25_options 10 Sample.ctx Sample.msg Sample.letters
                   eq_refl _ _)).
  - intros i [<-|[<-|[<-|[]]]]; vm_compute; reflexivity.
  - discriminate.
Defined.

(* ----------------------------------------------------------------- *)
(** ** Clearing the reactions when a menu ends *)

(** The claim of C10 as stated fails for [multichoice]: when its wait times
    out in a guild, it has deleted the message and has not asked once to
    clear the reactions. *)
Lemma multichoice_timeout_clears_nothing :
  in_guild Sample.msg = true
  /\ calls (Multichoice.multichoice 10 Sample.ctx Sample.two_options Sample.msg [])
     = [send None (page_view {| chunk := ["tea"; "coffee"]%string;
                                footer := Some (1, 1) |});
        add_reaction Emoji.ONE; add_reaction Emoji.TWO; add_reaction Emoji.X;
        delete]
  /\ clear_attempts
       (calls (Multichoice.multichoice 10 Sample.ctx Sample.two_options
                                       Sample.msg []))
     <> 1%nat.
Proof.
  split; [reflexivity|]. split; [vm_compute; reflexivity|].
  vm_compute. discriminate.
Qed.

(** C10 (amended). [arrows] and [confirm] call [try_clear_reactions] once on
    each of their exit paths (time-out, pause, close; time-out, decision):
    it asks the host once to clear the reactions when the message is in a
    guild and not at all otherwise, and a refusal of the host does not come
    out of it.  [multichoice] asks for no clearing on its exit paths
    (time-out, close, selection): it deletes the message. *)
Theorem menus_clear_on_exit (ctx : Context) (msg : Message) :
  let cleared := if in_guild msg then [clear_reactions] else [] in
  clear_attempts cleared = (if in_guild msg then 1 else 0)%nat
  /\ try_clear_reactions msg = (cleared, Returns tt)
  /\ (forall embed_list closed_embed head to_react rest,
        let loop := Arrows.loop ctx embed_list closed_embed msg head to_react in
        loop [] = (cleared, Returns None)
        /\ loop (TimerExpires :: rest) = (cleared, Returns None)
        /\ forall payload,
            Arrows.check ctx msg to_react payload = true ->
            (emoji_name payload = Emoji.PAUSE ->
             loop (Arrives payload :: rest) = (cleared, Returns None))
            /\ (emoji_name payload = Emoji.X ->
                loop (Arrives payload :: rest)
                = (cleared ++ [edit_closing (embed_view closed_embed)],
                   Returns None)))
  /\ (forall lock sigs,
        (forall e, wait_for (Confirm.check ctx msg lock) sigs <> inl e) ->
        calls (Confirm.confirm ctx msg lock sigs)
        = map add_reaction Confirm.emojis ++ cleared
        /\ exists r, result (Confirm.confirm ctx msg lock sigs) = Returns r)
  /\ (forall embeds multiple head to_react rest,
        let loop := Multichoice.loop ctx msg embeds multiple head to_react in
        loop [] = ([delete], Returns None)
        /\ loop (TimerExpires :: rest) = ([delete], Returns None)
        /\ forall ev,
            Multichoice.check ctx to_react ev = true ->
            (Multichoice.emoji_is (reaction_emoji ev) Emoji.X = true ->
             loop (Arrives ev :: rest) = ([delete], Returns None))
            /\ (forall k,
                   Multichoice.emoji_is (reaction_emoji ev) Emoji.X = false ->
                   Multichoice.nums_get (reaction_emoji ev) = Some k ->
                   calls (loop (Arrives ev :: rest)) = [delete])).
Proof.
  intros cleared.
  assert (Htry : try_clear_reactions msg = (cleared, Returns tt))
    by apply try_clear_reactions_returns.
  assert (Hlast : forall (A : Type) (a : A),
             bind (cleared, Returns tt) (fun _ => ret a) = (cleared, Returns a)).
  { intros A a. unfold bind, ret. now rewrite app_nil_r. }
  split; [subst cleared; now destruct (in_guild msg)|].
  split; [exact Htry|]. split; [|split].
  - intros embed_list closed_embed head to_react rest loop. subst loop.
    cbn [Arrows.loop]. rewrite Htry, Hlast.
    split; [reflexivity|]. split; [reflexivity|].
    intros payload Hcheck. rewrite Hcheck.
    split; intros Hemoji; rewrite Hemoji; reflexivity.
  - intros lock sigs Hno.
    unfold Confirm.confirm, add_reactions.
    rewrite calls_bind_returns, result_bind_returns.
    destruct (wait_for (Confirm.check ctx msg lock) sigs) as [e|[[payload rest]|]].
    + now elim (Hno e).
    + cbn [lift]. rewrite bind_ret_l, Htry.
      destruct (String.eqb (emoji_name payload) Emoji.THUMBS_UP);
        rewrite Hlast; (split; [reflexivity|eexists; reflexivity]).
    + cbn [lift]. rewrite bind_ret_l, Htry, Hlast.
      split; [reflexivity|eexists; reflexivity].
  - intros embeds multiple head to_react rest loop. subst loop.
    cbn [Multichoice.loop].
    split; [reflexivity|]. split; [reflexivity|].
    intros ev Hcheck. rewrite Hcheck. split.
    + intros Hx. now rewrite Hx.
    + intros k Hx Hk. rewrite Hx, Hk.
      unfold perform. rewrite calls_bind_returns.
      destruct (index embeds head) as [e|entry]; [reflexivity|].
      cbn [lift]. rewrite bind_ret_l.
      destruct (index (fst entry) k); reflexivity.
Qed.

Lemma menus_clear_on_exit_witness :
  Arrows.check Sample.ctx Sample.msg [Emoji.PAUSE; Emoji.X]
               (Sample.raw 1 Emoji.PAUSE) = true
  /\ Arrows.loop Sample.ctx Sample.three_embeds Arrows.default_closed_embed
                 Sample.msg 0 [Emoji.PAUSE; Emoji.X]
                 [Arrives (Sample.raw 1 Emoji.PAUSE)]
     = ([clear_reactions], Returns None).
Proof.
  split; [reflexivity|].
  exact (proj1 (proj2 (proj2
           (proj1 (proj2 (proj2 (menus_clear_on_exit Sample.ctx Sample.msg)))
                  Sample.three_embeds Arrows.default_closed_embed 0
                  [Emoji.PAUSE; Emoji.X] []))
           (Sample.raw 1 Emoji.PAUSE) eq_refl) eq_refl).
Defined.

(* ================================================================= *)
(** * Further properties of the code *)

(* ----------------------------------------------------------------- *)
(** ** [chunkify]: degenerate arguments, count and addressing *)

Lemma index_nonneg {A : Type} (l : list A) (i : Z) :
  0 <= i ->
  index l i = match nth_error l (Z.to_nat i) with
              | Some x => inr x
              | None => inl IndexError
              end.
Proof.
  intros Hi. unfold index.
  destruct (i <? 0) eqn:E; [apply Z.ltb_lt in E; lia|]. now rewrite E.
Qed.

(** X1. [chunkify] with [max_number = 0] raises the [ValueError] of
    [range] and yields nothing; with a negative [max_number] it ends at once
    without a chunk, whatever the list; an empty list gives no chunk. *)
Theorem chunkify_degenerate {A : Type} (input_list : list A) (p : positive) :
  Dpytools.chunkify input_list 0 = stops (Raise (ValueError range_step_zero))
  /\ Dpytools.chunkify input_list (Z.neg p) = stops StopIteration
  /\ Dpytools.chunkify (@nil A) (Z.pos p) = stops StopIteration
  /\ Dpytools.chunkify (@nil A) (Z.neg p) = stops StopIteration.
Proof.
  assert (Hneg : forall l : list A, Dpytools.chunkify l (Z.neg p) = stops StopIteration).
  { intros l. unfold Dpytools.chunkify, range, range_len.
    change (Z.neg p =? 0) with false. change (0 <? Z.neg p) with false.
    destruct (len l <? 0) eqn:E; [apply Z.ltb_lt in E; unfold len in E; lia|].
    reflexivity. }
  split; [reflexivity|]. split; [apply Hneg|]. split; [reflexivity|apply Hneg].
Qed.

(** X2. For [max_number > 0], [chunkify] yields
    [(len + max_number - 1) // max_number] chunks, none of them empty. *)
Theorem chunkify_count {A : Type} (input_list : list A) (max_number : Z) :
  0 < max_number ->
  let chunks := yielded (Dpytools.chunkify input_list max_number) in
  Z.of_nat (length chunks) = (len input_list + max_number - 1) / max_number
  /\ Forall (fun c => c <> []) chunks.
Proof.
  intros Hpos chunks. subst chunks.
  rewrite chunkify_windows by assumption. cbn [yielded].
  assert (Hlen0 : 0 <= len input_list) by (unfold len; lia).
  pose proof (range_len_pos (len input_list) max_number Hpos Hlen0)
    as (Hc0 & Hcover & Htight).
  split.
  - rewrite length_map, length_seq, Z2Nat.id by assumption.
    unfold range_len. destruct (0 <? max_number) eqn:E;
      [|apply Z.ltb_ge in E; lia].
    destruct (0 <? len input_list) eqn:E'.
    + rewrite Z.sub_0_r.
      replace (len input_list + max_number - 1)
        with (len input_list - 1 + 1 * max_number) by lia.
      rewrite Z.div_add by lia. reflexivity.
    + apply Z.ltb_ge in E'. assert (Hz : len input_list = 0) by lia.
      rewrite Hz. symmetry. apply Z.div_small. lia.
  - apply Forall_forall. intros c Hin.
    apply in_map_iff in Hin as (k & <- & Hk). apply in_seq in Hk.
    intros Hnil.
    assert (Hl : length (firstn (Z.to_nat max_number)
                           (skipn (k * Z.to_nat max_number) input_list)) = 0%nat)
      by now rewrite Hnil.
    rewrite length_firstn, length_skipn in Hl. unfold len in *. nia.
Qed.

Lemma chunkify_count_witness :
  0 < 3 /\ Z.of_nat (length (yielded (Dpytools.chunkify [1; 2; 3; 4; 5; 6; 7] 3)))
           = (len [1; 2; 3; 4; 5; 6; 7] + 3 - 1) / 3.
Proof.
  split; [lia|].
  exact (proj1 (chunkify_count [1; 2; 3; 4; 5; 6; 7] 3 ltac:(lia))).
Defined.

(** X3. For [max_number > 0], position [j] of chunk number [k] is position
    [k * max_number + j] of the list: [chunk[j]] and
    [input_list[k * max_number + j]] are the same item, or both raise
    [IndexError]. *)
Theorem chunkify_addressing {A : Type} (input_list : list A) (max_number : Z)
        (k : nat) (chunk : list A) (j : Z) :
  0 < max_number ->
  nth_error (yielded (Dpytools.chunkify input_list max_number)) k = Some chunk ->
  0 <= j < max_number ->
  index chunk j = index input_list (Z.of_nat k * max_number + j).
Proof.
  intros Hpos Hk Hj.
  rewrite chunkify_windows in Hk by assumption. cbn [yielded] in Hk.
  rewrite nth_error_map, nth_error_seq in Hk.
  destruct (Nat.ltb k _); [|discriminate]. cbn in Hk. injection Hk as <-.
  rewrite !index_nonneg by nia.
  rewrite nth_error_firstn.
  destruct (Nat.ltb (Z.to_nat j) (Z.to_nat max_number)) eqn:E;
    [|apply Nat.ltb_ge in E; lia].
  rewrite nth_error_skipn.
  replace (Z.to_nat (Z.of_nat k * max_number + j))
    with (k * Z.to_nat max_number + Z.to_nat j)%nat; [reflexivity|].
  rewrite Z2Nat.inj_add, Z2Nat.inj_mul, Nat2Z.id by nia. reflexivity.
Qed.

Lemma chunkify_addressing_witness :
  0 < 3
  /\ nth_error (yielded (Dpytools.chunkify [10; 20; 30; 40; 50; 60; 70] 3)) 1
     = Some [40; 50; 60]
  /\ 0 <= 2 < 3
  /\ index [40; 50; 60] 2 = index [10; 20; 30; 40; 50; 60; 70] (Z.of_nat 1 * 3 + 2).
Proof.
  split; [lia|]. split; [reflexivity|]. split; [lia|].
  exact (chunkify_addressing [10; 20; 30; 40; 50; 60; 70] 3 1 [40; 50; 60] 2
           ltac:(lia) eq_refl ltac:(lia)).
Defined.

(* ----------------------------------------------------------------- *)
(** ** [chunkify_string_list]: what its chunks are *)

(** What the [while] loop returns when it ends: a slice from the start
    position that passes its test. *)
Lemma shrink_result (fuel : nat) (input_list : list string)
      (i n max_length separator_length : Z) (l : list string) :
  Dpytools.shrink fuel input_list i n max_length separator_length = Some l ->
  exists n', n - Z.of_nat fuel <= n' <= n
             /\ l = slice input_list i (i + n')
             /\ Dpytools.too_long l max_length separator_length = false.
Proof.
  revert n. induction fuel as [|fuel IH]; intros n H; rewrite shrink_eq in H;
    destruct (Dpytools.too_long (slice input_list i (i + n)) max_length
                                separator_length) eqn:Hlong;
    try discriminate.
  - injection H as <-. exists n. repeat split; try lia. exact Hlong.
  - apply IH in H as (n' & Hn' & Hl & Hfit).
    exists n'. repeat split; try lia; assumption.
  - injection H as <-. exists n. repeat split; try lia. exact Hlong.
Qed.

(** With the guard passed and a separator that is not negative, the loop
    entered with [n >= 1] keeps at least one item. *)
Lemma shrink_result_pos (fuel : nat) (input_list : list string)
      (i n max_length separator_length : Z) (l : list string) :
  0 <= separator_length ->
  Forall (fun item => str_len item <= max_length - separator_length) input_list ->
  0 <= i < len input_list ->
  1 <= n ->
  Dpytools.shrink fuel input_list i n max_length separator_length = Some l ->
  exists n', 1 <= n' <= n /\ l = slice input_list i (i + n').
Proof.
  intros Hsep Hall Hi. revert n.
  induction fuel as [|fuel IH]; intros n Hn H; rewrite shrink_eq in H;
    destruct (Dpytools.too_long (slice input_list i (i + n)) max_length
                                separator_length) eqn:Hlong;
    try discriminate.
  - injection H as <-. exists n. split; [lia|reflexivity].
  - destruct (Z.eq_dec n 1) as [->|Hne].
    + rewrite single_item_fits in Hlong by assumption. discriminate.
    + apply IH in H as (n' & Hn' & Hl); [|lia]. exists n'. split; [lia|exact Hl].
  - injection H as <-. exists n. split; [lia|reflexivity].
Qed.

Lemma sum_lengths_spec (l : list string) (sep : Z) :
  fold_right (fun opt acc => str_len opt + Z.max 0 sep + acc) 0 l
  = fold_right Z.add 0 (map str_len l) + Z.max 0 sep * len l.
Proof.
  unfold len. induction l as [|x l IH]; [cbn; lia|].
  cbn [fold_right map length]. rewrite IH. lia.
Qed.

(** X4. Whatever the arguments, every chunk that [chunkify_string_list]
    yields passes the test of its [while] loop: the lengths of its items,
    plus one separator per item, minus one separator, do not exceed
    [max_length]. *)
Theorem chunkify_string_list_chunks_fit
        (fuel : nat) (input_list : list string)
        (max_number max_length separator_length : Z) :
  Forall (fun l =>
            Dpytools.too_long l max_length separator_length = false
            /\ fold_right Z.add 0 (map str_len l)
               + Z.max 0 separator_length * len l - separator_length
               <= max_length)
         (yielded (Dpytools.chunkify_string_list fuel input_list max_number
                                                 max_length separator_length)).
Proof.
  unfold Dpytools.chunkify_string_list.
  destruct (existsb _ input_list); [constructor|].
  destruct (range 0 (len input_list) max_number) as [e|starts]; [constructor|].
  induction starts as [|i starts IH]; cbn [Dpytools.chunks_from]; [constructor|].
  destruct (Dpytools.shrink fuel input_list i max_number max_length separator_length)
    as [l|] eqn:Hl; [|constructor].
  cbn [yield yielded]. constructor; [|exact IH].
  apply shrink_result in Hl as (n' & _ & _ & Hfit).
  split; [exact Hfit|].
  rewrite too_long_spec, sum_lengths_spec in Hfit.
  destruct (_ >? _) eqn:E in Hfit; [discriminate|].
  rewrite Z.gtb_ltb in E. apply Z.ltb_ge in E. exact E.
Qed.

Lemma precheck_passes (input_list : list string) (bound : Z) :
  Forall (fun item => str_len item <= bound) input_list ->
  existsb (fun item => str_len item >? bound) input_list = false.
Proof.
  intros Hall. apply existsb_false_of_Forall.
  eapply Forall_impl; [|exact Hall]. intros item Hlen. cbn beta in Hlen.
  destruct (str_len item >? bound) eqn:E; [apply Z.gtb_lt in E; lia|reflexivity].
Qed.

Lemma chunks_from_structure (fuel : nat) (input_list : list string)
      (max_number max_length separator_length : Z) (starts : list Z) :
  0 <= separator_length ->
  1 <= max_number <= Z.of_nat fuel + 1 ->
  Forall (fun item => str_len item <= max_length - separator_length) input_list ->
  Forall (fun i => 0 <= i < len input_list) starts ->
  exists chunks,
    Dpytools.chunks_from fuel input_list max_number max_length separator_length starts
    = {| yielded := chunks; ending_of := StopIteration |}
    /\ Forall2 (fun chunk window =>
                  chunk <> [] /\ exists dropped, window = chunk ++ dropped)
               chunks
               (map (fun i => slice input_list i (i + max_number)) starts).
Proof.
  intros Hsep Hn Hall Hstarts.
  induction Hstarts as [|i starts Hi _ IH]; cbn [Dpytools.chunks_from map].
  - exists []. split; [reflexivity|constructor].
  - destruct (shrink_terminates fuel input_list i max_number max_length
                separator_length Hsep Hall Hi Hn) as [l Hl].
    destruct IH as (chunks & Hchunks & Hrel).
    rewrite Hl, Hchunks. exists (l :: chunks). split; [reflexivity|].
    constructor; [|exact Hrel].
    apply shrink_result_pos in Hl as (n' & Hn' & ->); try assumption; [|lia].
    rewrite !slice_from by lia. split.
    + intros Hnil.
      assert (Hlen : length (firstn (Z.to_nat n') (skipn (Z.to_nat i) input_list))
                     = 0%nat) by now rewrite Hnil.
      rewrite length_firstn, length_skipn in Hlen. unfold len in Hi. lia.
    + exists (firstn (Z.to_nat (max_number - n'))
                     (skipn (Z.to_nat n') (skipn (Z.to_nat i) input_list))).
      rewrite <- firstn_plus. f_equal. lia.
Qed.

(** X5. With a separator that is not negative, [max_number >= 1] and no
    item over [max_length - separator_length], [chunkify_string_list] ends
    normally (its [while] loops take at most [max_number - 1] turns each) and
    yields one chunk per chunk of [chunkify(input_list, max_number)]: a
    non-empty beginning of that chunk, the items after it being dropped. *)
Theorem chunkify_string_list_structure
        (fuel : nat) (input_list : list string)
        (max_number max_length separator_length : Z) :
  0 <= separator_length ->
  1 <= max_number <= Z.of_nat fuel + 1 ->
  Forall (fun item => str_len item <= max_length - separator_length) input_list ->
  let g := Dpytools.chunkify_string_list fuel input_list max_number
                                         max_length separator_length in
  ending_of g = StopIteration
  /\ Forall2 (fun chunk window =>
                chunk <> [] /\ exists dropped, window = chunk ++ dropped)
             (yielded g)
             (yielded (Dpytools.chunkify input_list max_number)).
Proof.
  intros Hsep Hn Hall g. subst g.
  unfold Dpytools.chunkify_string_list, Dpytools.chunkify.
  rewrite precheck_passes by assumption.
  destruct (range 0 (len input_list) max_number) as [e|starts] eqn:Hr.
  - rewrite range_from_zero in Hr by lia. discriminate.
  - assert (Hlen0 : 0 <= len input_list) by (unfold len; lia).
    destruct (range_in_bounds (len input_list) max_number starts
                ltac:(lia) Hlen0 Hr) as [Hb _].
    destruct (chunks_from_structure fuel input_list max_number max_length
                separator_length starts Hsep Hn Hall Hb)
      as (chunks & Hchunks & Hrel).
    rewrite Hchunks. split; [reflexivity|exact Hrel].
Qed.

Lemma chunkify_string_list_structure_witness :
  0 <= 1 /\ 1 <= 2 <= Z.of_nat 1 + 1
  /\ Forall (fun item => str_len item <= 5 - 1) ["aaa"; "bb"; "cc"]%string
  /\ ending_of (Dpytools.chunkify_string_list 1 ["aaa"; "bb"; "cc"]%string 2 5 1)
     = StopIteration.
Proof.
  assert (Hall : Forall (fun item => str_len item <= 5 - 1)
                        ["aaa"; "bb"; "cc"]%string)
    by (repeat constructor; vm_compute; discriminate).
  split; [lia|]. split; [lia|]. split; [exact Hall|].
  exact (proj1 (chunkify_string_list_structure 1 ["aaa"; "bb"; "cc"]%string 2 5 1
                  ltac:(lia) ltac:(lia) Hall)).
Defined.

Lemma chunkify_string_list_no_shrink_core
        (fuel : nat) (input_list : list string)
        (max_number max_length separator_length : Z) :
  0 < max_number ->
  Forall (fun item => str_len item <= max_length - separator_length) input_list ->
  Forall (fun window => Dpytools.too_long window max_length separator_length = false)
         (yielded (Dpytools.chunkify input_list max_number)) ->
  Dpytools.chunkify_string_list fuel input_list max_number max_length
                                separator_length
  = Dpytools.chunkify input_list max_number.
Proof.
  intros Hpos Hall Hfit.
  unfold Dpytools.chunkify_string_list, Dpytools.chunkify in *.
  rewrite precheck_passes by assumption.
  destruct (range 0 (len input_list) max_number) as [e|starts]; [reflexivity|].
  cbn [yielded] in Hfit.
  induction starts as [|i starts IH]; [reflexivity|].
  cbn [map] in Hfit. inversion Hfit as [|w ws Hw Hws]; subst.
  cbn [Dpytools.chunks_from map]. rewrite shrink_eq, Hw.
  rewrite (IH Hws). reflexivity.
Qed.

(** X6. When the guard passes and every chunk of
    [chunkify(input_list, max_number)] already passes the test of the
    [while] loop, [chunkify_string_list] yields exactly those chunks. *)
Theorem chunkify_string_list_no_shrink
        (fuel : nat) (input_list : list string)
        (max_number max_length separator_length : Z) :
  0 < max_number ->
  Forall (fun item => str_len item <= max_length - separator_length) input_list ->
  Forall (fun window => Dpytools.too_long window max_length separator_length = false)
         (yielded (Dpytools.chunkify input_list max_number)) ->
  Dpytools.chunkify_string_list fuel input_list max_number max_length
                                separator_length
  = Dpytools.chunkify input_list max_number.
Proof. apply chunkify_string_list_no_shrink_core. Qed.

Lemma chunkify_string_list_no_shrink_witness :
  0 < 2
  /\ Dpytools.chunkify_string_list 0 ["a"; "b"; "c"]%string 2 5 1
     = Dpytools.chunkify ["a"; "b"; "c"]%string 2.
Proof.
  split; [lia|].
  apply (chunkify_string_list_no_shrink 0 ["a"; "b"; "c"]%string 2 5 1).
  - lia.
  - repeat constructor; vm_compute; discriminate.
  - repeat constructor.
Defined.

(** X7. When [max_length + separator_length < 0] (the separator is
    negative and even an empty chunk fails the test of the [while] loop),
    a non-empty list that passes the guard makes the first [while] loop run
    for ever: whatever number of turns it is given, no chunk has been
    yielded and the loop has not ended. *)
Theorem chunkify_string_list_never_ends
        (fuel : nat) (input_list : list string)
        (max_number max_length separator_length : Z) :
  max_length + separator_length < 0 ->
  0 < max_number ->
  input_list <> [] ->
  Forall (fun item => str_len item <= max_length - separator_length) input_list ->
  Dpytools.chunkify_string_list fuel input_list max_number max_length
                                separator_length
  = stops OutOfFuel.
Proof.
  intros Hneg Hpos Hne Hall.
  assert (Hlong : forall l, Dpytools.too_long l max_length separator_length = true).
  { intros l. rewrite too_long_spec, sum_lengths_spec. apply Z.gtb_lt.
    assert (0 <= fold_right Z.add 0 (map str_len l)).
    { induction l as [|x l IH]; cbn [map fold_right]; [lia|].
      unfold str_len at 1. lia. }
    assert (0 <= len l) by (unfold len; lia).
    nia. }
  assert (Hloop : forall f i n,
             Dpytools.shrink f input_list i n max_length separator_length = None).
  { induction f as [|f IH]; intros i n; rewrite shrink_eq, Hlong;
      [reflexivity|apply IH]. }
  unfold Dpytools.chunkify_string_list.
  rewrite precheck_passes by assumption.
  destruct (range 0 (len input_list) max_number) as [e|starts] eqn:Hr.
  - rewrite range_from_zero in Hr by lia. discriminate.
  - assert (Hlen0 : 0 <= len input_list) by (unfold len; lia).
    destruct (range_in_bounds (len input_list) max_number starts
                ltac:(lia) Hlen0 Hr) as [_ Hsome].
    destruct starts as [|i starts].
    + exfalso. apply Hsome; [|reflexivity].
      unfold len. destruct input_list; [congruence|cbn [length]; lia].
    + cbn [Dpytools.chunks_from]. now rewrite Hloop.
Qed.

Lemma chunkify_string_list_never_ends_witness :
  2 + (-5) < 0 /\ 0 < 2
  /\ Dpytools.chunkify_string_list 1000 ["abc"]%string 2 2 (-5) = stops OutOfFuel.
Proof.
  split; [lia|]. split; [lia|].
  apply (chunkify_string_list_never_ends 1000 ["abc"]%string 2 2 (-5)).
  - lia.
  - lia.
  - discriminate.
  - repeat constructor. vm_compute. discriminate.
Defined.

(* ----------------------------------------------------------------- *)
(** ** [arrows]: start, navigation and what is shown *)

Lemma index_out_of_range {A : Type} (l : list A) (i : Z) :
  i < - len l \/ len l <= i -> index l i = inl IndexError.
Proof.
  intros Hi. unfold index.
  destruct (i <? 0) eqn:E.
  - apply Z.ltb_lt in E.
    destruct (i + len l <? 0) eqn:E'; [reflexivity|].
    apply Z.ltb_ge in E'. unfold len in *. lia.
  - rewrite E. apply Z.ltb_ge in E.
    destruct (nth_error l (Z.to_nat i)) eqn:En; [|reflexivity].
    assert (Hlt : (Z.to_nat i < length l)%nat)
      by (apply nth_error_Some; congruence).
    unfold len in Hi. lia.
Qed.

Lemma index_In {A : Type} (l : list A) (i : Z) (x : A) :
  index l i = inr x -> In x l.
Proof.
  unfold index. destruct (_ <? 0); [discriminate|].
  destruct (nth_error l _) eqn:En; [|discriminate].
  intros H. injection H as <-. eapply nth_error_In, En.
Qed.

(** X8. With exactly one embed, [arrows] sends it (whatever [head] is),
    adds no reaction, waits for nothing and returns the message sent. *)
Theorem arrows_single_embed
        (ctx : Context) (e : Embed) (closed_embed : option Embed) (msg : Message)
        (content : option string) (head : Z)
        (sigs : list (signal RawReaction)) :
  Arrows.arrows ctx [e] closed_embed msg content head sigs
  = ([send content (embed_view e)], Returns (Some msg)).
Proof. reflexivity. Qed.

(** X9. With no embed at all, or with several and a [head] that is not an
    index of the list ([head >= len] or [head < -len]), [arrows] raises
    [IndexError] before it sends anything. *)
Theorem arrows_bad_start
        (ctx : Context) (embed_list : list Embed)
        (closed_embed : option Embed)
        (msg : Message) (content : option string) (head : Z)
        (sigs : list (signal RawReaction)) :
  len embed_list <> 1 ->
  head < - len embed_list \/ len embed_list <= head ->
  Arrows.arrows ctx embed_list closed_embed msg content head sigs
  = ([], Raises IndexError).
Proof.
  intros Hone Hhead. unfold Arrows.arrows.
  destruct (len embed_list =? 1) eqn:E; [apply Z.eqb_eq in E; contradiction|].
  now rewrite index_out_of_range by assumption.
Qed.

Lemma arrows_bad_start_witness :
  len (@nil Embed) <> 1 /\ (0 < - len (@nil Embed) \/ len (@nil Embed) <= 0)
  /\ Arrows.arrows Sample.ctx [] None Sample.msg None 0
                   [Arrives Sample.play_by_author]
     = ([], Raises IndexError).
Proof.
  split; [discriminate|]. split; [right; reflexivity|].
  apply arrows_bad_start; [discriminate|right; reflexivity].
Defined.

(** X10. Started at an index of the list (negative indices counting from
    the end), [arrows] always returns: whatever events arrive, it raises
    nothing, and no index it reads is out of range. *)
Theorem arrows_always_returns
        (ctx : Context) (embed_list : list Embed)
        (closed_embed : option Embed)
        (msg : Message) (content : option string) (head : Z)
        (sigs : list (signal RawReaction)) :
  - len embed_list <= head < len embed_list ->
  exists t r,
    Arrows.arrows ctx embed_list closed_embed msg content head sigs
    = (t, Returns r).
Proof. apply arrows_returns. Qed.

Lemma arrows_always_returns_witness :
  - len Sample.three_embeds <= -1 < len Sample.three_embeds
  /\ exists t r,
      Arrows.arrows Sample.ctx Sample.three_embeds None
                    Sample.msg None (-1)
                    [Arrives Sample.play_by_author; Arrives Sample.play_by_author]
      = (t, Returns r).
Proof.
  assert (Hhead : - len Sample.three_embeds <= -1 < len Sample.three_embeds)
    by (change (len Sample.three_embeds) with 3; lia).
  split; [exact Hhead|].
  apply arrows_always_returns. exact Hhead.
Defined.

Lemma emoji_differs (a b : string) :
  String.eqb a b = false -> a = b -> False.
Proof. intros Hne Heq. apply String.eqb_neq in Hne. contradiction. Qed.

(** X11. For a qualifying event of [arrows] (one that passes [check] under
    the affordances of the current index): the first-track emoji leads to
    index 0 and is attached only from index 2 on; the reverse emoji leads to
    [head - 1], which is a valid index; the next-track emoji leads to
    [len - 1] and is attached only when [head + 2] is a valid index; and
    [get_head] finds an entry for the emoji of every qualifying event. *)
Theorem arrows_navigation
        (ctx : Context) (msg : Message) (n head : Z) (payload : RawReaction) :
  Arrows.check ctx msg (Arrows.get_reactions n head) payload = true ->
  (emoji_name payload = Emoji.LAST_TRACK ->
   Arrows.get_head n head (emoji_name payload) = inr (Arrows.is_int 0)
   /\ 0 <= head - 2 < n)
  /\ (emoji_name payload = Emoji.REVERSE ->
      Arrows.get_head n head (emoji_name payload) = inr (Arrows.is_int (head - 1))
      /\ 0 <= head - 1 < n)
  /\ (emoji_name payload = Emoji.NEXT_TRACK ->
      Arrows.get_head n head (emoji_name payload) = inr (Arrows.is_int (n - 1))
      /\ 0 <= head + 2 < n)
  /\ (exists v, Arrows.get_head n head (emoji_name payload) = inr v).
Proof.
  intros Hcheck. apply arrows_check_spec in Hcheck as (_ & _ & Hin).
  pose proof (get_head_of_attached _ _ _ Hin) as Hfound.
  apply arrows_attached in Hin.
  split; [|split; [|split]].
  - intros He. rewrite He in *. split; [reflexivity|].
    destruct Hin as [[_ H]|[[E _]|[[E _]|[[E _]|[E|E]]]]]; [exact H|..];
      exfalso; revert E; apply emoji_differs; reflexivity.
  - intros He. rewrite He in *.
    destruct Hin as [[E _]|[[_ H]|[[E _]|[[E _]|[E|E]]]]];
      try (exfalso; revert E; apply emoji_differs; reflexivity).
    split; [|exact H]. unfold Arrows.get_head. cbn.
    destruct (head =? 0) eqn:E0; [apply Z.eqb_eq in E0; lia|reflexivity].
  - intros He. rewrite He in *. split; [reflexivity|].
    destruct Hin as [[E _]|[[E _]|[[E _]|[[_ H]|[E|E]]]]]; [..|exact H| |];
      exfalso; revert E; apply emoji_differs; reflexivity.
  - destruct Hfound as [H|[H|(h & H & _)]]; eauto.
Qed.

Lemma arrows_navigation_witness :
  Arrows.check Sample.ctx Sample.msg (Arrows.get_reactions 3 2)
               (Sample.raw 1 Emoji.REVERSE) = true
  /\ Arrows.get_head 3 2 (emoji_name (Sample.raw 1 Emoji.REVERSE))
     = inr (Arrows.is_int (2 - 1)).
Proof.
  split; [reflexivity|].
  exact (proj1 (proj1 (proj2 (arrows_navigation Sample.ctx Sample.msg 3 2
                                (Sample.raw 1 Emoji.REVERSE) eq_refl))
                      eq_refl)).
Defined.

Lemma calls_bind_all {A B : Type} (Q : call -> Prop) (m : M A) (k : A -> M B) :
  Forall Q (calls m) -> (forall a, Forall Q (calls (k a))) ->
  Forall Q (calls (bind m k)).
Proof.
  intros Hm Hk. destruct m as [t [a| |]]; cbn [bind]; try exact Hm.
  specialize (Hk a). destruct (k a) as [t' r]. cbn [calls fst] in *.
  apply Forall_app. split; assumption.
Qed.

Lemma calls_try_clear_all (Q : call -> Prop) (msg : Message) :
  Q clear_reactions -> Forall Q (calls (try_clear_reactions msg)).
Proof.
  intros Hq. rewrite try_clear_reactions_returns. cbn [calls fst].
  destruct (in_guild msg); repeat constructor. exact Hq.
Qed.

(** X12. Whatever events arrive and however it ends, every call [arrows]
    makes on the host is one of: sending or showing an embed of
    [embed_list]; on close, showing the caller's [closed_embed] when it is
    given and truthy, and the default "Closed by user" embed when it is
    [None] or falsy; adding one of its six emojis; clearing the reactions.
    It never deletes the message itself. *)
Theorem arrows_calls
        (ctx : Context) (embed_list : list Embed)
        (closed_embed : option Embed)
        (msg : Message) (content : option string) (head : Z)
        (sigs : list (signal RawReaction)) :
  Forall (fun c =>
            match c with
            | send given v => given = content
                              /\ exists e, v = embed_view e /\ In e embed_list
            | edit v => exists e, v = embed_view e /\ In e embed_list
            | edit_closing v =>
                match closed_embed with
                | Some given =>
                    if truthy given
                    then v = embed_view given
                    else v = embed_view Arrows.default_closed_embed
                | None => v = embed_view Arrows.default_closed_embed
                end
            | add_reaction s =>
                In s [Emoji.LAST_TRACK; Emoji.REVERSE; Emoji.PLAY;
                      Emoji.NEXT_TRACK; Emoji.PAUSE; Emoji.X]
            | clear_reactions => True
            | delete => False
            end)
         (calls (Arrows.arrows ctx embed_list closed_embed msg content head sigs)).
Proof.
  set (Q := fun c : call => match c with send _ _ => _ | _ => _ end).
  assert (Hadd : forall h,
             Forall Q (calls (add_reactions
                                (Arrows.get_reactions (len embed_list) h)))).
  { intros h. unfold add_reactions. cbn [calls fst].
    apply Forall_forall. intros c Hc. apply in_map_iff in Hc as (s & <- & Hs).
    cbn. unfold Arrows.get_reactions in Hs.
    destruct (in_range (h - 2) _), (in_range (h - 1) _),
      (in_range (h + 1) _), (in_range (h + 2) _); cbn in Hs; tauto. }
  assert (Hclear : Forall Q (calls (try_clear_reactions msg)))
    by (apply calls_try_clear_all; exact I).
  assert (Hloop : forall sigs' h to_react,
             Forall Q (calls (Arrows.loop ctx embed_list
                                          (Arrows.or_default closed_embed) msg
                                          h to_react sigs'))).
  { induction sigs' as [|[payload|] sigs' IH]; intros h to_react;
      cbn [Arrows.loop];
      try (apply calls_bind_all; [exact Hclear|intros _; constructor]).
    destruct (Arrows.check ctx msg to_react payload); [|apply IH].
    destruct (Arrows.get_head (len embed_list) h (emoji_name payload))
      as [e|[| |h']]; cbn [lift].
    - constructor.
    - rewrite bind_ret_l. apply calls_bind_all; [exact Hclear|intros _].
      apply calls_bind_all; [|intros _; constructor].
      constructor; [|constructor]. cbn. unfold Arrows.or_default.
      destruct closed_embed as [given|]; [destruct (truthy given)|];
        reflexivity.
    - rewrite bind_ret_l. apply calls_bind_all; [exact Hclear|intros _].
      constructor.
    - rewrite bind_ret_l. apply calls_bind_all; [exact Hclear|intros _].
      destruct (index embed_list h') as [x|e] eqn:He; cbn [lift]; [constructor|].
      rewrite bind_ret_l. apply index_In in He.
      apply calls_bind_all; [repeat constructor; cbn; eauto|intros _].
      apply calls_bind_all; [apply Hadd|intros _; apply IH]. }
  unfold Arrows.arrows. cbv zeta. destruct (len embed_list =? 1).
  - destruct (index embed_list 0) as [x|e] eqn:He; cbn [lift]; [constructor|].
    rewrite bind_ret_l. apply index_In in He.
    apply calls_bind_all; [|intros _; constructor].
    repeat constructor; cbn; eauto.
  - destruct (index embed_list head) as [x|e] eqn:He; cbn [lift]; [constructor|].
    rewrite bind_ret_l. apply index_In in He.
    apply calls_bind_all; [repeat constructor; cbn; eauto|intros _].
    apply calls_bind_all; [apply Hadd|intros _; apply Hloop].
Qed.

Lemma bind_ext {A B : Type} (m : M A) (k k' : A -> M B) :
  (forall a, k a = k' a) -> bind m k = bind m k'.
Proof.
  intros Hk. destruct m as [t [a| |]]; cbn [bind]; try reflexivity.
  now rewrite Hk.
Qed.

Lemma arrows_loop_ignores (ctx : Context) (embed_list : list Embed)
      (closed_embed : Embed) (msg : Message) (stranger : RawReaction)
      (pre post : list (signal RawReaction)) :
  user_id stranger <> author ctx \/ message_id stranger <> id msg ->
  forall head to_react,
    Arrows.loop ctx embed_list closed_embed msg head to_react
                (pre ++ Arrives stranger :: post)
    = Arrows.loop ctx embed_list closed_embed msg head to_react (pre ++ post).
Proof.
  intros Hstranger.
  assert (Hrej : forall to_react, Arrows.check ctx msg to_react stranger = false).
  { intros to_react. apply not_true_is_false. intros H.
    apply arrows_check_spec in H as (Hm & Hu & _). intuition congruence. }
  induction pre as [|[payload|] pre IH]; intros head to_react;
    cbn [app Arrows.loop]; [now rewrite Hrej| |reflexivity].
  destruct (Arrows.check ctx msg to_react payload); [|apply IH].
  apply bind_ext. intros [| |h']; try reflexivity.
  do 4 (apply bind_ext; intros ?). apply IH.
Qed.

(** X13. A reaction of someone who is not the author, or a reaction on
    another message, never changes a run of [arrows], wherever it arrives
    among the other events: the calls made and the result are those of the
    run without it. *)
Theorem arrows_ignores_strangers
        (ctx : Context) (embed_list : list Embed)
        (closed_embed : option Embed)
        (msg : Message) (content : option string) (head : Z)
        (stranger : RawReaction) (pre post : list (signal RawReaction)) :
  user_id stranger <> author ctx \/ message_id stranger <> id msg ->
  Arrows.arrows ctx embed_list closed_embed msg content head
                (pre ++ Arrives stranger :: post)
  = Arrows.arrows ctx embed_list closed_embed msg content head (pre ++ post).
Proof.
  intros Hstranger. unfold Arrows.arrows. cbv zeta.
  destruct (len embed_list =? 1); [reflexivity|].
  do 3 (apply bind_ext; intros ?).
  now apply arrows_loop_ignores.
Qed.

Lemma arrows_ignores_strangers_witness :
  (user_id (Sample.raw 5 Emoji.X) <> author Sample.ctx
   \/ message_id (Sample.raw 5 Emoji.X) <> id Sample.msg)
  /\ Arrows.arrows Sample.ctx Sample.three_embeds None
                   Sample.msg None 0
                   ([Arrives Sample.play_by_author]
                      ++ Arrives (Sample.raw 5 Emoji.X)
                      :: [Arrives Sample.play_by_author])
     = Arrows.arrows Sample.ctx Sample.three_embeds None
                     Sample.msg None 0
                     ([Arrives Sample.play_by_author]
                        ++ [Arrives Sample.play_by_author]).
Proof.
  assert (H : user_id (Sample.raw 5 Emoji.X) <> author Sample.ctx
              \/ message_id (Sample.raw 5 Emoji.X) <> id Sample.msg)
    by (left; discriminate).
  split; [exact H|].
  exact (arrows_ignores_strangers Sample.ctx Sample.three_embeds
           None Sample.msg None 0 (Sample.raw 5 Emoji.X)
           [Arrives Sample.play_by_author] [Arrives Sample.play_by_author] H).
Defined.

(* ----------------------------------------------------------------- *)
(** ** [confirm]: role locks, the bot's own reactions, rejected events *)

(** X14. Under a role lock, [check] reads
    [ctx.guild.get_member(payload.user_id).roles] for every event, whatever
    its other tests say: when there is no guild, or the guild does not
    know the reacting user, [check] raises [AttributeError] whatever the
    message and the emoji of the event, and [confirm] ends with that
    exception, its two reactions added and no clearing attempted. *)
Theorem confirm_role_lock_needs_member
        (ctx : Context) (msg : Message) (role : Z)
        (payload : RawReaction) (rest : list (signal RawReaction)) :
  guild ctx = None
  \/ (exists g, guild ctx = Some g /\ get_member g (user_id payload) = None) ->
  Confirm.check ctx msg (Confirm.lock_role role) payload = inl AttributeError
  /\ Confirm.confirm ctx msg (Confirm.lock_role role) (Arrives payload :: rest)
     = ([add_reaction Emoji.THUMBS_UP; add_reaction Emoji.X],
        Raises AttributeError).
Proof.
  intros Hunknown.
  assert (Hcheck : Confirm.check ctx msg (Confirm.lock_role role) payload
                   = inl AttributeError).
  { unfold Confirm.check. cbv zeta.
    destruct Hunknown as [Hg|(g & Hg & Hm)]; rewrite Hg; [reflexivity|].
    now rewrite Hm. }
  split; [exact Hcheck|].
  unfold Confirm.confirm. cbn [wait_for]. now rewrite Hcheck.
Qed.

Lemma confirm_role_lock_needs_member_witness :
  (guild Sample.ctx = None
   \/ (exists g, guild Sample.ctx = Some g
                 /\ get_member g (user_id (Sample.raw 5 Emoji.PLAY)) = None))
  /\ Confirm.confirm Sample.ctx Sample.msg (Confirm.lock_role 7)
                     (Arrives (Sample.raw 5 Emoji.PLAY) :: [])
     = ([add_reaction Emoji.THUMBS_UP; add_reaction Emoji.X],
        Raises AttributeError).
Proof.
  split; [left; reflexivity|].
  exact (proj2 (confirm_role_lock_needs_member
                  Sample.ctx Sample.msg 7 (Sample.raw 5 Emoji.PLAY) []
                  (or_introl eq_refl))).
Defined.

(** X15. In no lock mode does a reaction of the bot itself qualify: [check]
    never answers [True] to an event whose user is [ctx.bot.user]. *)
Theorem confirm_never_accepts_bot
        (ctx : Context) (msg : Message) (lock : Confirm.lock_arg)
        (payload : RawReaction) :
  user_id payload = bot_user ctx ->
  Confirm.check ctx msg lock payload <> inr true.
Proof.
  intros Hbot Htrue. unfold Confirm.check in Htrue. cbv zeta in Htrue.
  destruct lock as [[|]| |m|r];
    try (destruct (guild ctx) as [g|]; [|discriminate];
         destruct (get_member g (user_id payload)); [|discriminate]);
    injection Htrue as Htrue;
    first [ apply confirm_all_spec in Htrue
          | apply confirm_all_base_spec in Htrue ]; tauto.
Qed.

Lemma confirm_never_accepts_bot_witness :
  user_id (Sample.raw 2 Emoji.THUMBS_UP) = bot_user Sample.ctx
  /\ Confirm.check Sample.ctx Sample.msg (Confirm.lock_bool false)
                   (Sample.raw 2 Emoji.THUMBS_UP) <> inr true.
Proof.
  split; [reflexivity|].
  exact (confirm_never_accepts_bot Sample.ctx Sample.msg (Confirm.lock_bool false)
           (Sample.raw 2 Emoji.THUMBS_UP) eq_refl).
Defined.

(** Dropping a rejected event from the signals changes the rest that a
    wait hands back, not the event that ends it. *)
Lemma wait_for_drop {E : Type} (check : E -> exn + bool) (rejected : E)
      (pre post : list (signal E)) :
  check rejected = inr false ->
  match wait_for check (pre ++ Arrives rejected :: post),
        wait_for check (pre ++ post) with
  | inl e, inl e' => e = e'
  | inr None, inr None => True
  | inr (Some (q, _)), inr (Some (q', _)) => q = q'
  | _, _ => False
  end.
Proof.
  intros Hrej. induction pre as [|[q|] pre IH]; cbn [app wait_for].
  - rewrite Hrej. destruct (wait_for check post) as [e|[[q rest]|]]; auto.
  - destruct (check q) as [e|[|]]; auto.
  - exact I.
Qed.

(** X16. An event that the check of [confirm] answers [False] to changes
    nothing wherever it arrives among the other events: [confirm] makes the
    same calls and returns the same result without it. *)
Theorem confirm_ignores_rejected
        (ctx : Context) (msg : Message) (lock : Confirm.lock_arg)
        (rejected : RawReaction) (pre post : list (signal RawReaction)) :
  Confirm.check ctx msg lock rejected = inr false ->
  Confirm.confirm ctx msg lock (pre ++ Arrives rejected :: post)
  = Confirm.confirm ctx msg lock (pre ++ post).
Proof.
  intros Hrej. unfold Confirm.confirm.
  pose proof (wait_for_drop (Confirm.check ctx msg lock) rejected pre post Hrej)
    as Hdrop.
  destruct (wait_for (Confirm.check ctx msg lock) (pre ++ Arrives rejected :: post))
    as [e|[[q rest]|]],
      (wait_for (Confirm.check ctx msg lock) (pre ++ post))
        as [e'|[[q' rest']|]];
    try contradiction; subst; reflexivity.
Qed.

Lemma confirm_ignores_rejected_witness :
  Confirm.check Sample.ctx Sample.msg (Confirm.lock_bool true)
                (Sample.raw 5 Emoji.THUMBS_UP) = inr false
  /\ Confirm.confirm Sample.ctx Sample.msg (Confirm.lock_bool true)
                     ([Arrives (Sample.raw 1 Emoji.PLAY)]
                        ++ Arrives (Sample.raw 5 Emoji.THUMBS_UP)
                        :: [Arrives (Sample.raw 1 Emoji.X)])
     = Confirm.confirm Sample.ctx Sample.msg (Confirm.lock_bool true)
                       ([Arrives (Sample.raw 1 Emoji.PLAY)]
                          ++ [Arrives (Sample.raw 1 Emoji.X)]).
Proof.
  split; [reflexivity|].
  exact (confirm_ignores_rejected Sample.ctx Sample.msg (Confirm.lock_bool true)
           (Sample.raw 5 Emoji.THUMBS_UP)
           [Arrives (Sample.raw 1 Emoji.PLAY)] [Arrives (Sample.raw 1 Emoji.X)]
           eq_refl).
Defined.

(* ----------------------------------------------------------------- *)
(** ** [multichoice]: validation, numerals and pages *)

(** X17. Which error the guards of [multichoice] raise: a falsy argument
    of any type ([None], [0], an empty string, list or tuple) is reported as
    empty ([ValueError]); a truthy argument that is not a list is a
    [TypeError]; a non-empty list with an element that is not a [str] is a
    [TypeError], even when it also holds an over-long string; a non-empty
    list of strings with one over 2000 characters is a [ValueError]. *)
Theorem validate_errors (options : Multichoice.pyval) :
  (Multichoice.validate options = inl (ValueError options_empty)
   <-> Multichoice.truthy options = false)
  /\ (Multichoice.validate options = inl (TypeError options_not_list)
      <-> Multichoice.truthy options = true
          /\ forall items, options <> Multichoice.PyList items)
  /\ (Multichoice.validate options = inl (TypeError options_contents_not_str)
      <-> exists items,
          options = Multichoice.PyList items /\ items <> []
          /\ exists v, In v items /\ Multichoice.type_is_str v = false)
  /\ (Multichoice.validate options = inl (ValueError option_too_long)
      <-> exists opts,
          options = Multichoice.PyList (map Multichoice.PyStr opts)
          /\ opts <> []
          /\ exists opt, In opt opts /\ 2000 < str_len opt).
Proof.
  assert (Hstr : forall items,
             forallb Multichoice.type_is_str items = true ->
             items = map Multichoice.PyStr (map Multichoice.as_str items)).
  { induction items as [|v items IH]; [reflexivity|]. cbn [forallb map].
    intros H. apply andb_true_iff in H as [Hv Hrest].
    rewrite <- IH by assumption. destruct v; try discriminate. reflexivity. }
  assert (Hnot : forall items,
             forallb Multichoice.type_is_str items = false <->
             exists v, In v items /\ Multichoice.type_is_str v = false).
  { intros items. split.
    - intros H. induction items as [|v items IH]; [discriminate|].
      cbn [forallb] in H. apply andb_false_iff in H as [Hv|Hrest].
      + exists v. split; [now left|assumption].
      + destruct (IH Hrest) as (w & Hw & Hf). exists w. split; [now right|assumption].
    - intros (v & Hin & Hf). apply not_true_is_false. intros Hall.
      rewrite forallb_forall in Hall. rewrite (Hall v Hin) in Hf. discriminate. }
  assert (Hlong : forall items,
             existsb (fun opt => str_len (Multichoice.as_str opt) >? 2000) items = true
             <-> exists opt, In opt (map Multichoice.as_str items) /\ 2000 < str_len opt).
  { intros items. rewrite existsb_exists. split.
    - intros (v & Hin & Hv). exists (Multichoice.as_str v).
      split; [now apply in_map|]. apply Z.gtb_lt in Hv. lia.
    - intros (opt & Hin & Hopt). apply in_map_iff in Hin as (v & <- & Hv).
      exists v. split; [assumption|]. apply Z.gtb_lt. lia. }
  assert (Hempty : forall items : list Multichoice.pyval,
             Multichoice.truthy (Multichoice.PyList items) = false -> items = []).
  { intros [|v items] H; [reflexivity|]. cbn in H. discriminate. }
  unfold Multichoice.validate.
  destruct (Multichoice.truthy options) eqn:Ht; cbn [negb].
  2:{ split; [split; reflexivity|]. split; [|split].
      - split; [discriminate|]. intros [H _]. discriminate.
      - split; [discriminate|]. intros (items & -> & Hne & _).
        now apply Hempty in Ht.
      - split; [discriminate|]. intros (opts & -> & Hne & _).
        apply Hempty in Ht. destruct opts; [congruence|discriminate]. }
  destruct options as [| |z|str|items|items].
  1-4, 6: (split; [split; discriminate|]; split; [|split];
           [ split; [intros _; split; [reflexivity|discriminate]|reflexivity]
           | split; [discriminate|intros (x & Hx & _); discriminate]
           | split; [discriminate|intros (x & Hx & _); discriminate] ]).
  assert (Hne : items <> []) by (destruct items; [discriminate|discriminate]).
  destruct (forallb Multichoice.type_is_str items) eqn:Hs; cbn [negb].
  - destruct (existsb (fun opt => str_len (Multichoice.as_str opt) >? 2000) items)
      eqn:Hl.
    + split; [split; discriminate|]. split; [|split].
      * split; [discriminate|]. intros [_ H]. now elim (H items).
      * split; [discriminate|].
        intros (items' & Heq & _ & Hv). injection Heq as <-.
        apply Hnot in Hv. congruence.
      * split; [|reflexivity]. intros _.
        exists (map Multichoice.as_str items).
        split; [f_equal; now apply Hstr|]. split.
        -- destruct items; [congruence|discriminate].
        -- now apply Hlong.
    + split; [split; discriminate|]. split; [|split].
      * split; [discriminate|]. intros [_ H]. now elim (H items).
      * split; [discriminate|].
        intros (items' & Heq & _ & Hv). injection Heq as <-.
        apply Hnot in Hv. congruence.
      * split; [discriminate|].
        intros (opts & Heq & _ & Hopt). injection Heq as ->.
        assert (Htrue : existsb (fun opt => str_len (Multichoice.as_str opt) >? 2000)
                                (map Multichoice.PyStr opts) = true).
        { apply Hlong. rewrite map_map. cbn [Multichoice.as_str].
          now rewrite map_id. }
        congruence.
  - split; [split; discriminate|]. split; [|split].
    + split; [discriminate|]. intros [_ H]. now elim (H items).
    + split; [|reflexivity]. intros _. exists items.
      split; [reflexivity|]. split; [assumption|]. now apply Hnot.
    + split; [discriminate|].
      intros (opts & Heq & _). injection Heq as ->.
      assert (forallb Multichoice.type_is_str (map Multichoice.PyStr opts) = true).
      { apply forallb_forall. intros v Hv.
        apply in_map_iff in Hv as (o & <- & _). reflexivity. }
      congruence.
Qed.

(** X18. Where [multichoice] stops before the menu is shown: when one of
    its four guards fails it raises that error and has called nothing; past
    them, when an option has more than 1990 characters it raises the
    [ValueError] of [chunkify_string_list] and has called nothing; otherwise
    its first call sends the menu. *)
Theorem multichoice_sends_exactly_when
        (fuel : nat) (ctx : Context) (options : Multichoice.pyval)
        (msg : Message) (sigs : list (signal ReactionAdd)) :
  (9 <= fuel)%nat ->
  match Multichoice.validate options with
  | inl e =>
      Multichoice.multichoice fuel ctx options msg sigs = ([], Raises e)
  | inr opts =>
      if existsb (fun opt => str_len opt >? 1990) opts
      then Multichoice.multichoice fuel ctx options msg sigs
           = ([], Raises (ValueError (items_exceed 2000)))
      else exists page more r,
             Multichoice.multichoice fuel ctx options msg sigs
             = (send None (page_view page) :: more, r)
  end.
Proof. apply multichoice_before_send. Qed.

Lemma multichoice_sends_exactly_when_witness :
  (9 <= 10)%nat
  /\ exists page more r,
      Multichoice.multichoice 10 Sample.ctx Sample.two_options Sample.msg []
      = (send None (page_view page) :: more, r).
Proof.
  split; [lia|].
  exact (multichoice_sends_exactly_when 10 Sample.ctx Sample.two_options
           Sample.msg [] ltac:(lia)).
Defined.

Lemma index_small {A : Type} (l : list A) (k : Z) (x : A) :
  0 <= k -> index l k = inr x -> k < len l.
Proof.
  intros Hk H. rewrite index_nonneg in H by assumption.
  destruct (nth_error l (Z.to_nat k)) eqn:En; [|discriminate].
  assert ((Z.to_nat k < length l)%nat) by (apply nth_error_Some; congruence).
  unfold len. lia.
Qed.

Lemma nums_get_index (e : string) (k : Z) :
  Multichoice.nums_get (unicode e) = Some k
  <-> 0 <= k /\ index (map fst Multichoice.nums) k = inr e.
Proof.
  split.
  - unfold Multichoice.nums_get, Multichoice.nums.
    cbn [find fst snd Multichoice.emoji_is].
    repeat match goal with
           | |- context [String.eqb e ?key] =>
               let E := fresh "E" in
               destruct (String.eqb e key) eqn:E;
               [apply String.eqb_eq in E; subst e; intros H; injection H as <-;
                split; [lia|reflexivity]|]
           end.
    discriminate.
  - intros [Hk Hidx].
    pose proof (index_small _ _ _ Hk Hidx) as Hlt.
    change (len (map fst Multichoice.nums)) with 10 in Hlt.
    assert (Hcases : k = 0 \/ k = 1 \/ k = 2 \/ k = 3 \/ k = 4 \/ k = 5
                     \/ k = 6 \/ k = 7 \/ k = 8 \/ k = 9) by lia.
    repeat (destruct Hcases as [->|Hcases]; [injection Hidx as <-; reflexivity|]).
    subst k. injection Hidx as <-. reflexivity.
Qed.

(** X19. The numerals and the positions they select are inverse to each
    other: [nums[e]] is [k] exactly when [e] is the [k]-th key of [nums]
    (counting from 0); there are ten keys, the zero numeral is none of
    them, and a custom emoji is never a key. *)
Theorem nums_round_trip (e : string) (k : Z) :
  (Multichoice.nums_get (unicode e) = Some k
   <-> 0 <= k /\ index (map fst Multichoice.nums) k = inr e)
  /\ len Multichoice.nums = 10
  /\ Multichoice.nums_get (unicode Emoji.ZERO) = None
  /\ (forall emoji_id, Multichoice.nums_get (custom emoji_id) = None).
Proof.
  split; [apply nums_get_index|].
  split; [reflexivity|split; [reflexivity|reflexivity]].
Qed.

(** The numerals shown for a chunk are the first keys of [nums], as many as
    the chunk has options (ten at most). *)
Lemma get_nums_index (chunk : list string) (k : Z) (e : string) :
  0 <= k ->
  (index (Multichoice.get_nums chunk) k = inr e
   <-> k < len chunk /\ index (map fst Multichoice.nums) k = inr e).
Proof.
  intros Hk. unfold Multichoice.get_nums.
  assert (Hlen : 0 <= len chunk) by (unfold len; lia).
  replace (len chunk) with (0 + len chunk) at 1 by lia.
  rewrite slice_from by lia. cbn [skipn Z.to_nat].
  rewrite !index_nonneg by assumption. rewrite nth_error_firstn.
  destruct (Nat.ltb (Z.to_nat k) (Z.to_nat (len chunk))) eqn:E.
  - apply Nat.ltb_lt in E. split; [intros H; split; [lia|exact H]|tauto].
  - apply Nat.ltb_ge in E. split; [discriminate|]. intros [Hlt _]. lia.
Qed.

Lemma numeral_is_not_close (k : Z) (e : string) :
  Multichoice.nums_get (unicode e) = Some k ->
  Multichoice.emoji_is (unicode e) Emoji.X = false.
Proof.
  intros H. cbn [Multichoice.emoji_is].
  destruct (String.eqb e Emoji.X) eqn:E; [|reflexivity].
  apply String.eqb_eq in E. subst e. discriminate H.
Qed.

Lemma multichoice_loop_numeral
      (ctx : Context) (msg : Message) (embeds : list (list string * Page))
      (multiple : bool) (head : Z) (to_react : list string)
      (ev : ReactionAdd) (rest : list (signal ReactionAdd))
      (entry : list string * Page) (k : Z) (e : string) :
  Multichoice.check ctx to_react ev = true ->
  reaction_emoji ev = unicode e ->
  index embeds head = inr entry ->
  0 <= k ->
  index (Multichoice.get_nums (fst entry)) k = inr e ->
  exists opt,
    index (fst entry) k = inr opt
    /\ Multichoice.loop ctx msg embeds multiple head to_react (Arrives ev :: rest)
       = ([delete], Returns (Some opt)).
Proof.
  intros Hcheck Hemoji Hentry Hk Hnum.
  apply get_nums_index in Hnum as [Hlt Hkey]; [|assumption].
  assert (Hget : Multichoice.nums_get (unicode e) = Some k)
    by (apply nums_get_index; split; assumption).
  destruct (index_in_range (fst entry) k ltac:(lia)) as [opt Hopt].
  exists opt. split; [exact Hopt|].
  rewrite (multichoice_loop_select _ _ _ _ _ _ _ _ k Hcheck);
    rewrite ?Hemoji; [|now apply numeral_is_not_close with k|exact Hget].
  rewrite Hentry. cbn -[index]. now rewrite Hopt.
Qed.

(** X20. On whatever page is displayed, the [k]-th numeral attached for
    that page selects the [k]-th option of the page: a qualifying event with
    that numeral deletes the message and returns that option. *)
Theorem multichoice_numeral_selects
        (ctx : Context) (msg : Message) (embeds : list (list string * Page))
        (multiple : bool) (head : Z) (to_react : list string)
        (ev : ReactionAdd) (rest : list (signal ReactionAdd))
        (entry : list string * Page) (k : Z) (e : string) :
  Multichoice.check ctx to_react ev = true ->
  reaction_emoji ev = unicode e ->
  index embeds head = inr entry ->
  0 <= k ->
  index (Multichoice.get_nums (fst entry)) k = inr e ->
  exists opt,
    index (fst entry) k = inr opt
    /\ Multichoice.loop ctx msg embeds multiple head to_react (Arrives ev :: rest)
       = ([delete], Returns (Some opt)).
Proof. apply multichoice_loop_numeral. Qed.

Lemma multichoice_numeral_selects_witness :
  Multichoice.check Sample.ctx [Emoji.ONE; Emoji.TWO; Emoji.X]
                    (Sample.reaction 10 1 Emoji.TWO) = true
  /\ Multichoice.loop Sample.ctx Sample.msg
                      [(["tea"; "coffee"]%string,
                        {| chunk := ["tea"; "coffee"]%string; footer := None |})]
                      false 0 [Emoji.ONE; Emoji.TWO; Emoji.X]
                      [Arrives (Sample.reaction 10 1 Emoji.TWO)]
     = ([delete], Returns (Some "coffee"%string)).
Proof.
  split; [reflexivity|].
  destruct (multichoice_numeral_selects
              Sample.ctx Sample.msg
              [(["tea"; "coffee"]%string,
                {| chunk := ["tea"; "coffee"]%string; footer := None |})]
              false 0 [Emoji.ONE; Emoji.TWO; Emoji.X]
              (Sample.reaction 10 1 Emoji.TWO) []
              (["tea"; "coffee"]%string,
               {| chunk := ["tea"; "coffee"]%string; footer := None |})
              1 Emoji.TWO eq_refl eq_refl eq_refl ltac:(lia) eq_refl)
    as (opt & Hopt & Hrun).
  injection Hopt as <-. exact Hrun.
Defined.

Lemma adjust_head_multiple (pages head : Z) (e : emoji) :
  0 <= head < pages ->
  exists head',
    Multichoice.adjust_head pages true head e = Some head'
    /\ 0 <= head' < pages.
Proof.
  intros Hhead. unfold Multichoice.adjust_head. cbn [negb].
  destruct (Multichoice.emoji_is e Emoji.LAST_TRACK); [exists 0; split; [reflexivity|lia]|].
  destruct (Multichoice.emoji_is e Emoji.REVERSE).
  { eexists; split; [reflexivity|]. destruct (head >? 0) eqn:E; [|lia].
    apply Z.gtb_lt in E. lia. }
  destruct (Multichoice.emoji_is e Emoji.PLAY).
  { eexists; split; [reflexivity|]. destruct (head <? pages - 1) eqn:E; [|lia].
    apply Z.ltb_lt in E. lia. }
  destruct (Multichoice.emoji_is e Emoji.NEXT_TRACK);
    eexists; (split; [reflexivity|lia]).
Qed.

(** X21. With several pages, [adjust_head] keeps the page index inside the
    pages whatever the emoji: first-track gives page 0, reverse gives
    [max(head - 1, 0)], play gives [min(head + 1, pages - 1)], next-track
    gives the last page, any other emoji leaves the page as it is.  With a
    single page it returns [None]. *)
Theorem adjust_head_in_range (pages head : Z) (e : emoji) :
  0 <= head < pages ->
  (exists head',
      Multichoice.adjust_head pages true head e = Some head'
      /\ 0 <= head' < pages)
  /\ Multichoice.adjust_head pages true head (unicode Emoji.LAST_TRACK) = Some 0
  /\ Multichoice.adjust_head pages true head (unicode Emoji.REVERSE)
     = Some (Z.max (head - 1) 0)
  /\ Multichoice.adjust_head pages true head (unicode Emoji.PLAY)
     = Some (Z.min (head + 1) (pages - 1))
  /\ Multichoice.adjust_head pages true head (unicode Emoji.NEXT_TRACK)
     = Some (pages - 1)
  /\ (Multichoice.emoji_in e [Emoji.LAST_TRACK; Emoji.REVERSE; Emoji.PLAY;
                              Emoji.NEXT_TRACK] = false ->
      Multichoice.adjust_head pages true head e = Some head)
  /\ Multichoice.adjust_head pages false head e = None.
Proof.
  intros Hhead. split; [now apply adjust_head_multiple|].
  split; [reflexivity|]. split; [|split; [|split; [reflexivity|split; [|reflexivity]]]].
  - unfold Multichoice.adjust_head. cbn.
    destruct (head >? 0) eqn:E; f_equal; [apply Z.gtb_lt in E; lia|].
    rewrite Z.gtb_ltb in E. apply Z.ltb_ge in E. lia.
  - unfold Multichoice.adjust_head. cbn.
    destruct (head <? pages - 1) eqn:E; f_equal;
      [apply Z.ltb_lt in E; lia|apply Z.ltb_ge in E; lia].
  - intros Hother. unfold Multichoice.adjust_head. cbn [negb].
    destruct e as [s|i]; cbn [Multichoice.emoji_in Multichoice.emoji_is] in *;
      [|reflexivity].
    unfold str_in in Hother. cbn [existsb] in Hother.
    repeat (apply orb_false_iff in Hother as [? Hother]).
    repeat match goal with H : String.eqb _ _ = false |- _ => rewrite H; clear H end.
    reflexivity.
Qed.

Lemma adjust_head_in_range_witness :
  0 <= 2 < 3
  /\ Multichoice.adjust_head 3 true 2 (unicode Emoji.PLAY)
     = Some (Z.min (2 + 1) (3 - 1)).
Proof.
  split; [lia|].
  exact (proj1 (proj2 (proj2 (proj2 (adjust_head_in_range
                                       3 2 (unicode Emoji.PLAY) ltac:(lia)))))).
Defined.

Lemma multichoice_attached (embeds : list (list string * Page)) (multiple : bool)
      (head : Z) (to_react : list string) (entry : list string * Page) (s : string) :
  index embeds head = inr entry ->
  Multichoice.get_reactions embeds multiple head = inr to_react ->
  In s to_react ->
  s = Emoji.X
  \/ In s (Multichoice.get_nums (fst entry))
  \/ (multiple = true
      /\ In s [Emoji.LAST_TRACK; Emoji.REVERSE; Emoji.PLAY; Emoji.NEXT_TRACK]).
Proof.
  intros Hentry Hget Hin. unfold Multichoice.get_reactions in Hget.
  rewrite Hentry in Hget. injection Hget as <-.
  unfold Multichoice.z_in in Hin. cbn [existsb] in Hin. revert Hin.
  destruct multiple, (head =? 0), (head =? len embeds - 1);
    cbn [negb orb app]; intros Hin; cbn [In] in Hin |- *;
    repeat match goal with
           | H : _ \/ _ |- _ => destruct H as [H|H]
           | H : In _ (_ ++ _) |- _ => apply in_app_or in H; cbn [In] in H
           end;
    subst; auto 10; try contradiction.
Qed.

Lemma get_reactions_defined (embeds : list (list string * Page)) (multiple : bool)
      (head : Z) :
  0 <= head < len embeds ->
  exists to_react, Multichoice.get_reactions embeds multiple head = inr to_react.
Proof.
  intros Hhead. destruct (index_in_range embeds head Hhead) as [entry Hentry].
  unfold Multichoice.get_reactions. rewrite Hentry. eauto.
Qed.

Lemma In_index {A : Type} (l : list A) (x : A) :
  In x l -> exists k, 0 <= k /\ index l k = inr x.
Proof.
  intros Hin. apply In_nth_error in Hin as [n Hn].
  exists (Z.of_nat n). split; [lia|].
  rewrite index_nonneg by lia. now rewrite Nat2Z.id, Hn.
Qed.

Lemma returns_bind {A B : Type} (m : M A) (k : A -> M B)
      (t t' : list call) (a : A) (r : B) :
  m = (t, Returns a) -> k a = (t', Returns r) ->
  bind m k = (t ++ t', Returns r).
Proof. intros -> Hk. cbn [bind]. now rewrite Hk. Qed.

Lemma try_else_allowed {B : Type} (msg : Message) (on_forbidden on_success : M B) :
  clear_allowed msg = true ->
  Multichoice.try_else (msg_clear_reactions msg) on_forbidden on_success
  = (clear_reactions :: calls on_success, result on_success).
Proof.
  intros Hallowed. unfold Multichoice.try_else, msg_clear_reactions.
  rewrite Hallowed. now destruct on_success.
Qed.

Lemma multichoice_loop_returns
      (ctx : Context) (msg : Message) (embeds : list (list string * Page))
      (multiple : bool) (sigs : list (signal ReactionAdd)) :
  clear_allowed msg = true ->
  forall head to_react,
    0 <= head < len embeds ->
    Multichoice.get_reactions embeds multiple head = inr to_react ->
    exists t r,
      Multichoice.loop ctx msg embeds multiple head to_react sigs = (t, Returns r).
Proof.
  intros Hallowed.
  induction sigs as [|[ev|] sigs IH]; intros head to_react Hhead Hget;
    cbn [Multichoice.loop]; try (cbn; eauto; fail).
  destruct (Multichoice.check ctx to_react ev) eqn:Hcheck; [|now apply IH].
  destruct (index_in_range embeds head Hhead) as [entry Hentry].
  assert (Hin : Multichoice.emoji_in (reaction_emoji ev) to_react = true).
  { unfold Multichoice.check in Hcheck. cbn [forallb] in Hcheck.
    repeat (apply andb_true_iff in Hcheck as [? Hcheck]). assumption. }
  destruct (reaction_emoji ev) as [s|i] eqn:Hemoji; [|discriminate Hin].
  cbn [Multichoice.emoji_in] in Hin. apply str_in_In in Hin.
  destruct (multichoice_attached _ _ _ _ _ _ Hentry Hget Hin)
    as [->|[Hnum|[-> Hnav]]].
  - cbn. eauto.
  - apply In_index in Hnum as (k & Hk & Hnum).
    destruct (multichoice_loop_numeral ctx msg embeds multiple head to_react
                ev sigs entry k s Hcheck Hemoji Hentry Hk Hnum)
      as (opt & _ & Hrun).
    cbn [Multichoice.loop] in Hrun. rewrite Hcheck, Hemoji in Hrun.
    rewrite Hrun. eauto.
  - destruct (adjust_head_multiple (len embeds) head (unicode s) Hhead)
      as (head' & Hadj & Hhead').
    destruct (index_in_range embeds head' Hhead') as [entry' Hentry'].
    destruct (get_reactions_defined embeds true head' Hhead') as [to_react' Hget'].
    destruct (IH head' to_react' Hhead' Hget') as (t & r & Hloop).
    assert (Hx : Multichoice.emoji_is (unicode s) Emoji.X = false)
      by (destruct Hnav as [<-|[<-|[<-|[<-|[]]]]]; reflexivity).
    assert (Hk : Multichoice.nums_get (unicode s) = None)
      by (destruct Hnav as [<-|[<-|[<-|[<-|[]]]]]; reflexivity).
    rewrite Hx, Hk, Hadj, Hentry'. cbn [lift]. rewrite bind_ret_l.
    rewrite try_else_allowed by assumption.
    rewrite Hget'. cbn [lift]. rewrite bind_ret_l.
    unfold add_reactions. rewrite calls_bind_returns, result_bind_returns, Hloop.
    cbn. eauto.
Qed.

(** X22. When the options pass the guards, none has more than 1990
    characters and the host lets the bot clear reactions, [multichoice]
    always returns: whatever events arrive, it raises nothing, no page index
    and no option index it reads is out of range. *)
Theorem multichoice_always_returns
        (fuel : nat) (ctx : Context) (options : Multichoice.pyval)
        (opts : list string) (msg : Message) (sigs : list (signal ReactionAdd)) :
  (9 <= fuel)%nat ->
  Multichoice.validate options = inr opts ->
  Forall (fun opt => str_len opt <= 1990) opts ->
  clear_allowed msg = true ->
  exists t r, Multichoice.multichoice fuel ctx options msg sigs = (t, Returns r).
Proof.
  intros Hfuel Hv Hshort Hallowed. unfold Multichoice.multichoice.
  rewrite Hv. cbn [lift]. rewrite bind_ret_l.
  apply validate_spec in Hv as (_ & Hne & _).
  destruct (chunkify_string_list_terminates fuel opts 10 2000 10
              ltac:(lia) ltac:(lia) Hshort) as (chunks & Hchunks & Hsome).
  rewrite Hchunks. specialize (Hsome Hne).
  unfold Multichoice.consume. cbn [ending_of yielded]. rewrite bind_ret_l.
  set (embeds := map (fun c => (c, {| chunk := c; footer := None |})) chunks).
  assert (Hhead : 0 <= 0 < len embeds).
  { subst embeds. unfold len. rewrite length_map.
    destruct chunks; [congruence|cbn [length]; lia]. }
  destruct (get_reactions_defined embeds (len opts >? 10) 0 Hhead) as [to_react Hget].
  destruct (index_in_range embeds 0 Hhead) as [entry Hentry].
  destruct (multichoice_loop_returns ctx msg embeds (len opts >? 10) sigs Hallowed
              0 to_react Hhead Hget) as (t & r & Hloop).
  rewrite Hget. cbn [lift]. rewrite bind_ret_l, Hentry. cbn [lift].
  rewrite bind_ret_l. unfold perform, add_reactions.
  rewrite Hloop. cbn. eauto.
Qed.

Lemma multichoice_always_returns_witness :
  (9 <= 10)%nat
  /\ Multichoice.validate Sample.letter_options = inr Sample.letters
  /\ Forall (fun opt => str_len opt <= 1990) Sample.letters
  /\ clear_allowed Sample.msg = true
  /\ exists t r,
      Multichoice.multichoice 10 Sample.ctx Sample.letter_options Sample.msg
                              [Arrives (Sample.reaction 10 1 Emoji.NEXT_TRACK);
                               Arrives (Sample.reaction 10 1 Emoji.FIVE)]
      = (t, Returns r).
Proof.
  assert (Hv : Multichoice.validate Sample.letter_options = inr Sample.letters)
    by (vm_compute; reflexivity).
  assert (Hshort : Forall (fun opt => str_len opt <= 1990) Sample.letters)
    by (repeat constructor; vm_compute; discriminate).
  split; [lia|]. split; [exact Hv|]. split; [exact Hshort|].
  split; [reflexivity|].
  exact (multichoice_always_returns 10 Sample.ctx Sample.letter_options
           Sample.letters Sample.msg _ ltac:(lia) Hv Hshort eq_refl).
Defined.

Lemma bind_returns_eq {A B : Type} (t : list call) (a : A) (k : A -> M B) :
  bind (t, Returns a) k = (t ++ calls (k a), result (k a)).
Proof. unfold bind, calls, result. now destruct (k a). Qed.

Lemma try_else_forbidden {B : Type} (msg : Message) (on_forbidden on_success : M B) :
  clear_allowed msg = false ->
  Multichoice.try_else (msg_clear_reactions msg) on_forbidden on_success
  = (clear_reactions :: calls on_forbidden, result on_forbidden).
Proof.
  intros Hforbidden. unfold Multichoice.try_else, msg_clear_reactions.
  rewrite Hforbidden. now destruct on_forbidden.
Qed.

(** X23. When the host refuses to clear the reactions, [multichoice] keeps
    checking events against the affordances of the page it has left.  With
    11 options (the first ten fitting one page), after the author's play
    reaction the second page shows one option, yet the author's numeral 2
    still qualifies: the message is deleted and [IndexError] is raised.
    When the host allows the clearing, the same numeral does not qualify
    and the call ends on its time-out with [None]. *)
Theorem multichoice_stale_affordances
        (fuel : nat) (ctx : Context) (msg : Message) (options : list string) :
  len options = 11 ->
  Dpytools.too_long (slice options 0 10) 2000 10 = false ->
  Forall (fun opt => str_len opt <= 1990) options ->
  author ctx <> bot_user ctx ->
  let by_author := fun what =>
    Arrives {| on_message := id msg; on_channel := channel ctx;
               reaction_emoji := unicode what; user := author ctx |} in
  let run :=
    Multichoice.multichoice fuel ctx
                            (Multichoice.PyList (map Multichoice.PyStr options)) msg
                            [by_author Emoji.PLAY; by_author Emoji.TWO] in
  let shown :=
    send None (page_view {| chunk := slice options 0 10; footer := Some (1, 2) |})
    :: map add_reaction (map fst Multichoice.nums
                           ++ [Emoji.PLAY; Emoji.NEXT_TRACK; Emoji.X])
    ++ [edit (page_view {| chunk := slice options 10 20; footer := Some (2, 2) |});
        clear_reactions] in
  len (slice options 10 20) = 1
  /\ (clear_allowed msg = false ->
      run = (shown ++ [delete], Raises IndexError))
  /\ (clear_allowed msg = true ->
      run = (shown
               ++ map add_reaction [Emoji.LAST_TRACK; Emoji.REVERSE; Emoji.ONE; Emoji.X]
               ++ [delete],
             Returns None)).
Proof.
  intros Hlen K0 Hshort Hauthor by_author run shown.
  unfold len in Hlen.
  do 11 (destruct options as [|? options]; [cbn [length] in Hlen; lia|]).
  destruct options; [|cbn [length] in Hlen; lia].
  set (options := [s; s0; s1; s2; s3; s4; s5; s6; s7; s8; s9]) in *.
  assert (K10 : Dpytools.too_long (slice options 10 (10 + 10)) 2000 10 = false).
  { change (slice options 10 (10 + 10)) with [s9].
    rewrite too_long_spec. cbn [fold_right]. apply gtb_false.
    pose proof (proj1 (Forall_forall _ _) Hshort s9) as Hs9.
    cbn beta in Hs9. specialize (Hs9 ltac:(subst options; cbn; auto 20)). lia. }
  assert (Hchunks : Dpytools.chunkify_string_list fuel options 10 2000 10
                    = {| yielded := [slice options 0 10; slice options 10 20];
                         ending_of := StopIteration |}).
  { unfold Dpytools.chunkify_string_list.
    rewrite precheck_passes by exact Hshort.
    change (range 0 (len options) 10) with (@inr exn _ [0; 10]).
    cbn [Dpytools.chunks_from]. rewrite !shrink_eq.
    change (0 + 10) with 10. rewrite K0, K10. reflexivity. }
  assert (Hv : Multichoice.validate (Multichoice.PyList (map Multichoice.PyStr options))
               = inr options).
  { apply validate_spec. split; [reflexivity|]. split; [discriminate|].
    eapply Forall_impl; [|exact Hshort]. intros item Hitem. cbn beta in Hitem. lia. }
  set (embeds := map (fun c => (c, {| chunk := c; footer := None |}))
                     [slice options 0 10; slice options 10 20]).
  set (stale := map fst Multichoice.nums ++ [Emoji.PLAY; Emoji.NEXT_TRACK; Emoji.X]).
  assert (Hstart :
            run = (send None (page_view {| chunk := slice options 0 10;
                                           footer := Some (1, 2) |})
                     :: map add_reaction stale
                     ++ calls (Multichoice.loop ctx msg embeds true 0 stale
                                 [by_author Emoji.PLAY; by_author Emoji.TWO]),
                   result (Multichoice.loop ctx msg embeds true 0 stale
                             [by_author Emoji.PLAY; by_author Emoji.TWO]))).
  { subst run. unfold Multichoice.multichoice.
    rewrite Hv. cbn [lift]. rewrite bind_ret_l, Hchunks.
    unfold Multichoice.consume. cbn [ending_of yielded]. rewrite bind_ret_l.
    fold embeds. change (len options >? 10) with true.
    change (Multichoice.get_reactions embeds true 0) with (@inr exn _ stale).
    cbn [lift]. rewrite bind_ret_l.
    change (index embeds 0)
      with (@inr exn _ (slice options 0 10,
                        {| chunk := slice options 0 10; footer := None |})).
    cbn [lift]. rewrite bind_ret_l.
    unfold perform, add_reactions. rewrite bind_returns_eq.
    rewrite calls_bind_returns, result_bind_returns. reflexivity. }
  assert (Hplay :
            forall rest,
              Multichoice.loop ctx msg embeds true 0 stale (by_author Emoji.PLAY :: rest)
              = (perform (edit (page_view {| chunk := slice options 10 20;
                                             footer := Some (2, 2) |})) ;;
                 Multichoice.try_else (msg_clear_reactions msg)
                   (Multichoice.loop ctx msg embeds true 1 stale rest)
                   (to_react' <- lift (Multichoice.get_reactions embeds true 1) ;;
                    add_reactions to_react' ;;
                    Multichoice.loop ctx msg embeds true 1 to_react' rest))%menu).
  { intros rest. subst by_author. cbv beta.
    rewrite (multichoice_loop_navigate _ _ _ _ _ _ _ _ 1
               (slice options 10 20,
                {| chunk := slice options 10 20; footer := None |}));
      try reflexivity.
    rewrite multichoice_check_author by assumption. reflexivity. }
  split; [reflexivity|]. split.
  - intros Hforbidden. rewrite Hstart, Hplay.
    unfold perform. rewrite bind_returns_eq, try_else_forbidden by assumption.
    subst by_author. cbv beta.
    rewrite (multichoice_loop_select _ _ _ _ _ _ _ _ 1);
      [reflexivity
      |rewrite multichoice_check_author by assumption; reflexivity
      |reflexivity..].
  - intros Hallowed. rewrite Hstart, Hplay.
    unfold perform. rewrite bind_returns_eq, try_else_allowed by assumption.
    change (Multichoice.get_reactions embeds true 1)
      with (@inr exn _ [Emoji.LAST_TRACK; Emoji.REVERSE; Emoji.ONE; Emoji.X]).
    cbn [lift]. rewrite bind_ret_l. unfold add_reactions.
    rewrite calls_bind_returns, result_bind_returns.
    subst by_author. cbv beta. cbn [Multichoice.loop].
    rewrite multichoice_check_author by assumption.
    reflexivity.
Qed.

Lemma multichoice_stale_affordances_witness :
  len Sample.eleven_letters = 11
  /\ Dpytools.too_long (slice Sample.eleven_letters 0 10) 2000 10 = false
  /\ author Sample.ctx <> bot_user Sample.ctx
  /\ clear_allowed Sample.msg_no_clear = false
  /\ result (Multichoice.multichoice
               10 Sample.ctx
               (Multichoice.PyList (map Multichoice.PyStr Sample.eleven_letters))
               Sample.msg_no_clear
               [Arrives (Sample.reaction 10 1 Emoji.PLAY);
                Arrives (Sample.reaction 10 1 Emoji.TWO)])
     = Raises IndexError.
Proof.
  split; [reflexivity|]. split; [vm_compute; reflexivity|].
  split; [discriminate|]. split; [reflexivity|].
  assert (Hshort : Forall (fun opt => str_len opt <= 1990) Sample.eleven_letters)
    by (repeat constructor; vm_compute; discriminate).
  pose proof (proj1 (proj2 (multichoice_stale_affordances
                              10 Sample.ctx Sample.msg_no_clear
                              Sample.eleven_letters eq_refl eq_refl Hshort
                              ltac:(discriminate)))
                    eq_refl) as Hrun.
  exact (f_equal snd Hrun).
Defined.

(** A list that is not empty and has at most [max_number] items is its own
    single chunk. *)
Lemma chunkify_short {A : Type} (input_list : list A) (max_number : Z) :
  input_list <> [] -> len input_list <= max_number ->
  Dpytools.chunkify input_list max_number
  = {| yielded := [input_list]; ending_of := StopIteration |}.
Proof.
  intros Hne Hlen.
  assert (Hpos : 0 < len input_list).
  { unfold len. destruct input_list; [congruence|cbn [length]; lia]. }
  rewrite chunkify_windows by lia.
  assert (Hc : range_len 0 (len input_list) max_number = 1).
  { unfold range_len. destruct (0 <? max_number) eqn:E;
      [|apply Z.ltb_ge in E; lia].
    destruct (0 <? len input_list) eqn:E'; [|apply Z.ltb_ge in E'; lia].
    rewrite Z.sub_0_r, Z.div_small by lia. reflexivity. }
  rewrite Hc. change (Z.to_nat 1) with 1%nat. cbn [seq map].
  rewrite Nat.mul_0_l. cbn [skipn].
  rewrite firstn_all2 by (unfold len in Hlen; lia). reflexivity.
Qed.

(** X24. With at most ten options that pass the guards and fit one page,
    [multichoice] shows a single page holding all of them, marked page 1 of
    1, attaches one numeral per option and the close emoji, and no
    navigation emoji; left without any reaction it deletes the message and
    returns [None]. *)
Theorem multichoice_single_page
        (fuel : nat) (ctx : Context) (msg : Message) (opts : list string) :
  opts <> [] ->
  len opts <= 10 ->
  Forall (fun opt => str_len opt <= 1990) opts ->
  Dpytools.too_long opts 2000 10 = false ->
  Multichoice.multichoice fuel ctx
                          (Multichoice.PyList (map Multichoice.PyStr opts)) msg []
  = (send None (page_view {| chunk := opts; footer := Some (1, 1) |})
       :: map add_reaction (slice (map fst Multichoice.nums) 0 (len opts)
                              ++ [Emoji.X])
       ++ [delete],
     Returns None).
Proof.
  intros Hne Hlen Hshort Hfit.
  assert (Hv : Multichoice.validate (Multichoice.PyList (map Multichoice.PyStr opts))
               = inr opts).
  { apply validate_spec. split; [reflexivity|]. split; [assumption|].
    eapply Forall_impl; [|exact Hshort]. intros item Hitem. cbn beta in Hitem. lia. }
  assert (Hchunks : Dpytools.chunkify_string_list fuel opts 10 2000 10
                    = {| yielded := [opts]; ending_of := StopIteration |}).
  { rewrite <- (chunkify_short opts 10 Hne Hlen).
    apply chunkify_string_list_no_shrink_core; [lia|exact Hshort|].
    rewrite chunkify_short by assumption. cbn [yielded].
    constructor; [exact Hfit|constructor]. }
  unfold Multichoice.multichoice.
  rewrite Hv. cbn [lift]. rewrite bind_ret_l, Hchunks.
  unfold Multichoice.consume. cbn [ending_of yielded]. rewrite bind_ret_l.
  cbn [map].
  assert (Hmultiple : (len opts >? 10) = false) by (apply gtb_false; lia).
  rewrite Hmultiple.
  unfold Multichoice.get_reactions.
  change (index [(opts, {| chunk := opts; footer := None |})] 0)
    with (@inr exn _ (opts, {| chunk := opts; footer := None |})).
  cbn [lift fst snd]. rewrite !bind_ret_l.
  unfold perform, add_reactions. rewrite bind_returns_eq.
  rewrite calls_bind_returns, result_bind_returns.
  reflexivity.
Qed.

Lemma multichoice_single_page_witness :
  ["tea"; "coffee"]%string <> []
  /\ len ["tea"; "coffee"]%string <= 10
  /\ Dpytools.too_long ["tea"; "coffee"]%string 2000 10 = false
  /\ Multichoice.multichoice 10 Sample.ctx Sample.two_options Sample.msg []
     = (send None (page_view {| chunk := ["tea"; "coffee"]%string;
                                footer := Some (1, 1) |})
          :: map add_reaction (slice (map fst Multichoice.nums) 0
                                     (len ["tea"; "coffee"]%string)
                                 ++ [Emoji.X])
          ++ [delete],
        Returns None).
Proof.
  split; [discriminate|]. split; [vm_compute; discriminate|].
  split; [vm_compute; reflexivity|].
  apply (multichoice_single_page 10 Sample.ctx Sample.msg ["tea"; "coffee"]%string).
  - discriminate.
  - vm_compute; discriminate.
  - repeat constructor; vm_compute; discriminate.
  - vm_compute; reflexivity.
Defined.

Lemma multichoice_loop_ignores (ctx : Context) (msg : Message)
      (embeds : list (list string * Page)) (multiple : bool)
      (stranger : ReactionAdd) (pre post : list (signal ReactionAdd)) :
  (forall to_react, Multichoice.check ctx to_react stranger = false) ->
  forall head to_react,
    Multichoice.loop ctx msg embeds multiple head to_react
                     (pre ++ Arrives stranger :: post)
    = Multichoice.loop ctx msg embeds multiple head to_react (pre ++ post).
Proof.
  intros Hrej.
  induction pre as [|[ev|] pre IH]; intros head to_react;
    cbn [app Multichoice.loop]; [now rewrite Hrej| |reflexivity].
  destruct (Multichoice.check ctx to_react ev); [|apply IH].
  destruct (Multichoice.emoji_is (reaction_emoji ev) Emoji.X); [reflexivity|].
  destruct (Multichoice.nums_get (reaction_emoji ev)); [reflexivity|].
  destruct (Multichoice.adjust_head (len embeds) multiple head (reaction_emoji ev))
    as [head'|]; [|reflexivity].
  do 2 (apply bind_ext; intros ?).
  rewrite IH. f_equal.
  do 2 (apply bind_ext; intros ?). apply IH.
Qed.

(** X26. A reaction of anyone but the author, a reaction in another
    channel, or a reaction with a custom emoji, never changes a run of
    [multichoice], wherever it arrives among the other events. *)
Theorem multichoice_ignores_strangers
        (fuel : nat) (ctx : Context) (options : Multichoice.pyval) (msg : Message)
        (stranger : ReactionAdd) (pre post : list (signal ReactionAdd)) :
  user stranger <> author ctx
  \/ on_channel stranger <> channel ctx
  \/ (exists emoji_id, reaction_emoji stranger = custom emoji_id) ->
  Multichoice.multichoice fuel ctx options msg (pre ++ Arrives stranger :: post)
  = Multichoice.multichoice fuel ctx options msg (pre ++ post).
Proof.
  intros Hstranger.
  assert (Hrej : forall to_react, Multichoice.check ctx to_react stranger = false).
  { intros to_react. unfold Multichoice.check. cbn [forallb].
    destruct Hstranger as [Hu|[Hc|(i & Hi)]].
    - apply Z.eqb_neq in Hu. rewrite Hu. now rewrite andb_false_r.
    - assert (Hc' : (channel ctx =? on_channel stranger) = false)
        by (apply Z.eqb_neq; congruence).
      rewrite Hc'. now rewrite !andb_false_r.
    - rewrite Hi. cbn [Multichoice.emoji_in]. now rewrite !andb_false_r. }
  unfold Multichoice.multichoice.
  do 6 (apply bind_ext; intros ?).
  now apply multichoice_loop_ignores.
Qed.

Lemma multichoice_ignores_strangers_witness :
  (user (Sample.reaction 10 5 Emoji.ONE) <> author Sample.ctx
   \/ on_channel (Sample.reaction 10 5 Emoji.ONE) <> channel Sample.ctx
   \/ (exists emoji_id,
          reaction_emoji (Sample.reaction 10 5 Emoji.ONE) = custom emoji_id))
  /\ Multichoice.multichoice 10 Sample.ctx Sample.two_options Sample.msg
                             ([] ++ Arrives (Sample.reaction 10 5 Emoji.ONE)
                                 :: [Arrives (Sample.reaction 10 1 Emoji.TWO)])
     = Multichoice.multichoice 10 Sample.ctx Sample.two_options Sample.msg
                               ([] ++ [Arrives (Sample.reaction 10 1 Emoji.TWO)]).
Proof.
  assert (H : user (Sample.reaction 10 5 Emoji.ONE) <> author Sample.ctx
              \/ on_channel (Sample.reaction 10 5 Emoji.ONE) <> channel Sample.ctx
              \/ (exists emoji_id,
                     reaction_emoji (Sample.reaction 10 5 Emoji.ONE)
                     = custom emoji_id))
    by (left; discriminate).
  split; [exact H|].
  exact (multichoice_ignores_strangers 10 Sample.ctx Sample.two_options Sample.msg
           (Sample.reaction 10 5 Emoji.ONE) []
           [Arrives (Sample.reaction 10 1 Emoji.TWO)] H).
Defined.

Lemma In_slice {A : Type} (l : list A) (lo hi : Z) (x : A) :
  In x (slice l lo hi) -> In x l.
Proof.
  unfold slice. intros H.
  rewrite <- (firstn_skipn (Z.to_nat (clamp (len l) lo)) l).
  apply in_or_app. right.
  rewrite <- (firstn_skipn (Z.to_nat (clamp (len l) hi - clamp (len l) lo))
                           (skipn (Z.to_nat (clamp (len l) lo)) l)).
  apply in_or_app. now left.
Qed.

Lemma numerals_are_not_navigation (chunk : list string) (s : string) :
  In s [Emoji.LAST_TRACK; Emoji.REVERSE; Emoji.PLAY; Emoji.NEXT_TRACK; Emoji.X] ->
  ~ In s (Multichoice.get_nums chunk).
Proof.
  intros Hnav Hnum. apply In_slice in Hnum.
  apply str_in_In in Hnum.
  destruct Hnav as [<-|[<-|[<-|[<-|[<-|[]]]]]]; discriminate Hnum.
Qed.

Lemma multichoice_attached_pages
      (embeds : list (list string * Page)) (head : Z) (to_react : list string)
      (entry : list string * Page) (s : string) :
  2 <= len embeds ->
  0 <= head < len embeds ->
  index embeds head = inr entry ->
  Multichoice.get_reactions embeds true head = inr to_react ->
  (In s to_react
   <-> In s (Multichoice.get_nums (fst entry))
       \/ s = Emoji.X
       \/ (0 < head /\ (s = Emoji.LAST_TRACK \/ s = Emoji.REVERSE))
       \/ (head < len embeds - 1 /\ (s = Emoji.PLAY \/ s = Emoji.NEXT_TRACK))).
Proof.
  intros Hpages Hhead Hentry Hget.
  unfold Multichoice.get_reactions in Hget. rewrite Hentry in Hget.
  injection Hget as <-.
  unfold Multichoice.z_in. cbn [existsb].
  destruct (head =? 0) eqn:E0; [apply Z.eqb_eq in E0|apply Z.eqb_neq in E0];
    (destruct (head =? len embeds - 1) eqn:E1;
     [apply Z.eqb_eq in E1|apply Z.eqb_neq in E1]);
    cbn [negb orb app]; repeat (rewrite in_app_iff || cbn [In]);
    try lia; split; intros H;
    repeat match goal with
           | H : _ \/ _ |- _ => destruct H as [H|H]
           | H : _ /\ _ |- _ => destruct H as [? H]
           | H : False |- _ => contradiction
           end;
    subst; try lia; try tauto;
    try (right; right; left; split; [lia|tauto]);
    try (right; right; right; split; [lia|tauto]).
Qed.

(** X28. With several pages, the navigation emojis that [multichoice]
    attaches depend only on whether the page is the first or the last:
    first-track and reverse are attached on every page but the first, play
    and next-track on every page but the last, and the close emoji always.
    With [multiple] false (at most ten options, hence a single page),
    whatever the pages and the page shown, what is attached is the numerals
    of the page followed by the close emoji, and none of the four
    navigation emojis. *)
Theorem multichoice_navigation_affordances
        (embeds : list (list string * Page)) (head : Z) :
  (forall to_react,
      2 <= len embeds ->
      0 <= head < len embeds ->
      Multichoice.get_reactions embeds true head = inr to_react ->
      (In Emoji.LAST_TRACK to_react <-> 0 < head)
      /\ (In Emoji.REVERSE to_react <-> 0 < head)
      /\ (In Emoji.PLAY to_react <-> head < len embeds - 1)
      /\ (In Emoji.NEXT_TRACK to_react <-> head < len embeds - 1)
      /\ In Emoji.X to_react)
  /\ (forall single,
         Multichoice.get_reactions embeds false head = inr single ->
         (exists entry,
             index embeds head = inr entry
             /\ single = Multichoice.get_nums (fst entry) ++ [Emoji.X])
         /\ ~ In Emoji.LAST_TRACK single
         /\ ~ In Emoji.REVERSE single
         /\ ~ In Emoji.PLAY single
         /\ ~ In Emoji.NEXT_TRACK single
         /\ (forall s, In s single ->
                       s = Emoji.X \/ In s (firstn 10 EmojiNumbers.values))).
Proof.
  split.
  - intros to_react Hpages Hhead Hget.
    destruct (index_in_range embeds head Hhead) as [entry Hentry].
    pose proof (fun s => multichoice_attached_pages embeds head to_react entry s
                           Hpages Hhead Hentry Hget) as Hiff.
    pose proof (numerals_are_not_navigation (fst entry)) as Hnot.
    assert (HL := Hnot Emoji.LAST_TRACK ltac:(cbn; auto)).
    assert (HR := Hnot Emoji.REVERSE ltac:(cbn; auto)).
    assert (HP := Hnot Emoji.PLAY ltac:(cbn; auto)).
    assert (HN := Hnot Emoji.NEXT_TRACK ltac:(cbn; auto 6)).
    repeat split.
    + intros H. apply Hiff in H as [H|[H|[[H _]|[_ [H|H]]]]];
        try contradiction; try discriminate H; exact H.
    + intros H. apply Hiff. auto 6.
    + intros H. apply Hiff in H as [H|[H|[[H _]|[_ [H|H]]]]];
        try contradiction; try discriminate H; exact H.
    + intros H. apply Hiff. auto 6.
    + intros H. apply Hiff in H as [H|[H|[[_ [H|H]]|[H _]]]];
        try contradiction; try discriminate H; exact H.
    + intros H. apply Hiff. auto 7.
    + intros H. apply Hiff in H as [H|[H|[[_ [H|H]]|[H _]]]];
        try contradiction; try discriminate H; exact H.
    + intros H. apply Hiff. auto 7.
    + apply Hiff. auto.
  - intros single Hsingle. unfold Multichoice.get_reactions in Hsingle.
    destruct (index embeds head) as [e|entry] eqn:Hentry; [discriminate|].
    injection Hsingle as <-.
    pose proof (numerals_are_not_navigation (fst entry)) as Hnot.
    assert (Hnav : forall s,
               In s [Emoji.LAST_TRACK; Emoji.REVERSE; Emoji.PLAY;
                     Emoji.NEXT_TRACK] ->
               ~ In s (Multichoice.get_nums (fst entry) ++ [Emoji.X])).
    { intros s Hs Hin. apply in_app_or in Hin as [Hin|[Hin|[]]].
      - apply (Hnot s); [|exact Hin]. cbn in Hs |- *. tauto.
      - subst s. destruct Hs as [H|[H|[H|[H|[]]]]]; discriminate H. }
    split; [exists entry; split; reflexivity|].
    split; [apply Hnav; cbn; auto|].
    split; [apply Hnav; cbn; auto|].
    split; [apply Hnav; cbn; auto|].
    split; [apply Hnav; cbn; auto 6|].
    intros s Hs. apply in_app_or in Hs as [Hs|[<-|[]]]; [right|now left].
    apply In_slice in Hs. exact Hs.
Qed.

Lemma multichoice_navigation_affordances_witness :
  let page := fun c : list string => (c, {| chunk := c; footer := None |}) in
  let embeds := [page ["a"; "b"]; page ["c"; "d"]; page ["e"]]%string in
  (2 <= len embeds /\ 0 <= 1 < len embeds
   /\ (In Emoji.PLAY [Emoji.LAST_TRACK; Emoji.REVERSE; Emoji.ONE; Emoji.TWO;
                      Emoji.PLAY; Emoji.NEXT_TRACK; Emoji.X]
       <-> 1 < len embeds - 1))
  /\ ~ In Emoji.PLAY [Emoji.ONE; Emoji.TWO; Emoji.X].
Proof.
  intros page embeds.
  assert (H2 : 2 <= len embeds) by (vm_compute; discriminate).
  assert (H1 : 0 <= 1 < len embeds) by (split; vm_compute; [discriminate|reflexivity]).
  split.
  - split; [exact H2|]. split; [exact H1|].
    exact (proj1 (proj2 (proj2 (proj1 (multichoice_navigation_affordances embeds 1)
                                      _ H2 H1 eq_refl)))).
  - exact (proj1 (proj2 (proj2 (proj2
             (proj2 (multichoice_navigation_affordances
                       [page ["a"; "b"]%string] 0) _ eq_refl))))).
Defined.

Lemma delete_is_last_after {A : Type} (pre t : list call) (r : outcome A) :
  Forall (fun c => c <> delete) pre ->
  delete_is_last t r -> delete_is_last (pre ++ t) r.
Proof.
  intros Hpre (before & Hbefore & Hcases). exists (pre ++ before).
  split; [apply Forall_app; split; assumption|].
  destruct Hcases as [->|[-> Hr]];
    [left; now rewrite app_assoc|right; split; [reflexivity|assumption]].
Qed.

Lemma multichoice_loop_delete_last
      (ctx : Context) (msg : Message) (embeds : list (list string * Page))
      (multiple : bool) (sigs : list (signal ReactionAdd)) :
  forall head to_react t r,
    Multichoice.loop ctx msg embeds multiple head to_react sigs = (t, r) ->
    delete_is_last t r.
Proof.
  assert (Hdone : forall r : outcome (option string), delete_is_last [delete] r).
  { intros r. exists []. split; [constructor|]. now left. }
  assert (Hraised : forall e, delete_is_last [] (@Raises (option string) e)).
  { intros e. exists []. split; [constructor|]. right.
    split; [reflexivity|]. intros x. discriminate. }
  induction sigs as [|[ev|] sigs IH]; intros head to_react t r Hrun;
    cbn [Multichoice.loop] in Hrun;
    try (injection Hrun as <- <-; apply Hdone).
  destruct (Multichoice.check ctx to_react ev); [|now apply IH in Hrun].
  destruct (Multichoice.emoji_is (reaction_emoji ev) Emoji.X);
    [injection Hrun as <- <-; apply Hdone|].
  destruct (Multichoice.nums_get (reaction_emoji ev)) as [k|].
  { unfold perform in Hrun. rewrite bind_returns_eq in Hrun.
    injection Hrun as <- <-.
    destruct (index embeds head) as [e|entry]; [apply Hdone|].
    cbn [lift]. rewrite bind_ret_l.
    destruct (index (fst entry) k); apply Hdone. }
  destruct (Multichoice.adjust_head (len embeds) multiple head (reaction_emoji ev))
    as [head'|]; [|injection Hrun as <- <-; apply Hraised].
  destruct (index embeds head') as [e|entry];
    [injection Hrun as <- <-; apply Hraised|].
  cbn [lift] in Hrun. rewrite bind_ret_l in Hrun.
  unfold perform in Hrun. rewrite bind_returns_eq in Hrun.
  destruct (clear_allowed msg) eqn:Hallowed.
  - rewrite try_else_allowed in Hrun by assumption.
    destruct (Multichoice.get_reactions embeds multiple head') as [e|to_react'].
    + injection Hrun as <- <-.
      exists [edit (page_view (Multichoice.set_footer (snd entry) (head' + 1)
                                                      (len embeds)));
              clear_reactions].
      split; [repeat constructor; discriminate|].
      right. split; [reflexivity|]. intros x. discriminate.
    + cbn [lift] in Hrun. rewrite bind_ret_l in Hrun.
      unfold add_reactions in Hrun.
      rewrite calls_bind_returns, result_bind_returns in Hrun.
      destruct (Multichoice.loop ctx msg embeds multiple head' to_react' sigs)
        as [t' r'] eqn:Hloop.
      cbn [calls result fst snd] in Hrun. injection Hrun as <- <-.
      apply (delete_is_last_after
               (edit (page_view (Multichoice.set_footer (snd entry) (head' + 1)
                                                        (len embeds)))
                  :: clear_reactions :: map add_reaction to_react'));
        [|eapply IH, Hloop].
      constructor; [discriminate|]. constructor; [discriminate|].
      apply Forall_forall. intros c Hc. apply in_map_iff in Hc as (s & <- & _).
      discriminate.
  - rewrite try_else_forbidden in Hrun by assumption.
    destruct (Multichoice.loop ctx msg embeds multiple head' to_react sigs)
      as [t' r'] eqn:Hloop.
    cbn [calls result fst snd] in Hrun. injection Hrun as <- <-.
    apply (delete_is_last_after
             [edit (page_view (Multichoice.set_footer (snd entry) (head' + 1)
                                                      (len embeds)));
              clear_reactions]);
      [repeat constructor; discriminate|eapply IH, Hloop].
Qed.

(** X27. [multichoice] deletes the menu message at most once, and then as
    its last call: nothing is done to the message after its deletion; and
    whenever [multichoice] returns, the message has been deleted. *)
Theorem multichoice_delete_is_last
        (fuel : nat) (ctx : Context) (options : Multichoice.pyval) (msg : Message)
        (sigs : list (signal ReactionAdd)) :
  delete_is_last (calls (Multichoice.multichoice fuel ctx options msg sigs))
                 (result (Multichoice.multichoice fuel ctx options msg sigs)).
Proof.
  assert (Hnone : forall r : outcome (option string),
             (forall x, r <> Returns x) -> delete_is_last (@nil call) r).
  { intros r Hr. exists []. split; [constructor|]. right. now split. }
  destruct (Multichoice.multichoice fuel ctx options msg sigs) as [t r] eqn:Hrun.
  cbn [calls result fst snd].
  unfold Multichoice.multichoice in Hrun.
  destruct (Multichoice.validate options) as [e|opts];
    [injection Hrun as <- <-; apply Hnone; discriminate|].
  cbn [lift] in Hrun. rewrite bind_ret_l in Hrun.
  unfold Multichoice.consume in Hrun.
  destruct (ending_of (Dpytools.chunkify_string_list fuel opts 10 2000 10));
    try (injection Hrun as <- <-; apply Hnone; discriminate).
  rewrite bind_ret_l in Hrun.
  destruct (Multichoice.get_reactions _ _ 0) as [e|to_react];
    [injection Hrun as <- <-; apply Hnone; discriminate|].
  cbn [lift] in Hrun. rewrite bind_ret_l in Hrun.
  destruct (index _ 0) as [e|entry];
    [injection Hrun as <- <-; apply Hnone; discriminate|].
  cbn [lift] in Hrun. rewrite bind_ret_l in Hrun.
  unfold perform, add_reactions in Hrun. rewrite bind_returns_eq in Hrun.
  rewrite calls_bind_returns, result_bind_returns in Hrun.
  destruct (Multichoice.loop ctx msg _ _ 0 to_react sigs) as [t' r'] eqn:Hloop.
  cbn [calls result fst snd] in Hrun. injection Hrun as <- <-.
  match goal with
  | |- context [?first :: map add_reaction to_react ++ t'] =>
      apply (delete_is_last_after (first :: map add_reaction to_react));
        [|eapply multichoice_loop_delete_last, Hloop]
  end.
  constructor; [discriminate|].
  apply Forall_forall. intros c Hc. apply in_map_iff in Hc as (s & <- & _).
  discriminate.
Qed.

Lemma distinct_strings (l : list string) :
  (fix distinct (l : list string) : bool :=
     match l with
     | [] => true
     | x :: l' => negb (str_in x l') && distinct l'
     end) l = true ->
  NoDup l.
Proof.
  induction l as [|x l IH]; [constructor|].
  intros H. apply andb_true_iff in H as [Hx Hl].
  constructor; [|now apply IH].
  intros Hin. apply str_in_In in Hin. rewrite Hin in Hx. discriminate.
Qed.

Lemma emoji_tables :
  NoDup Emoji.values
  /\ length Emoji.values = 31%nat
  /\ NoDup EmojiNumbers.values
  /\ incl EmojiNumbers.values Emoji.values
  /\ map fst Multichoice.nums = firstn 10 EmojiNumbers.values
  /\ map snd Multichoice.nums = [0; 1; 2; 3; 4; 5; 6; 7; 8; 9].
Proof.
  split; [apply distinct_strings; vm_compute; reflexivity|].
  split; [reflexivity|].
  split; [apply distinct_strings; vm_compute; reflexivity|].
  split; [|split; reflexivity].
  intros s Hs. apply str_in_In. apply str_in_In in Hs.
  unfold EmojiNumbers.values, str_in in Hs. cbn [existsb] in Hs.
  repeat (apply orb_true_iff in Hs as [Hs|Hs];
          [apply String.eqb_eq in Hs; subst s; vm_compute; reflexivity|]).
  discriminate.
Qed.

Lemma color_values :
  (forall c c', Color.value c = Color.value c' -> c = c')
  /\ (forall c, 0 <= Color.value c <= 0xFFFFFF)
  /\ color Arrows.default_closed_embed = Some (Color.value Color.RED).
Proof.
  split; [|split; [|reflexivity]].
  - intros c c' H. destruct c, c'; try reflexivity; discriminate H.
  - intros c. destruct c; cbn; lia.
Qed.

(** X25. The symbol tables.  The 31 members of [Emoji] have pairwise
    different values, so none is an alias of another and dictionaries keyed
    by them keep every entry; the members of [EmojiNumbers] carry values of
    [Emoji], pairwise different; the keys of [nums] are the first ten of
    them, in order (the zero numeral is left out), mapped to 0..9.  The
    values of [Color] are pairwise different 24-bit colours, and the default
    closed embed of [arrows] is [Color.RED]. *)
Theorem symbol_tables :
  (NoDup Emoji.values
   /\ length Emoji.values = 31%nat
   /\ NoDup EmojiNumbers.values
   /\ incl EmojiNumbers.values Emoji.values
   /\ map fst Multichoice.nums = firstn 10 EmojiNumbers.values
   /\ map snd Multichoice.nums = [0; 1; 2; 3; 4; 5; 6; 7; 8; 9])
  /\ (forall c c', Color.value c = Color.value c' -> c = c')
  /\ (forall c, 0 <= Color.value c <= 0xFFFFFF)
  /\ color Arrows.default_closed_embed = Some (Color.value Color.RED).
Proof. split; [exact emoji_tables|exact color_values]. Qed.

(* ----------------------------------------------------------------- *)
(** ** More on [arrows] and [chunkify_string_list] *)

(** X29. For a list of [n] embeds and an index [head] of it, [arrows]
    attaches first-track exactly from index 2 on, reverse from index 1 on,
    play up to index [n - 2], next-track up to index [n - 3], and pause and
    close always, in this order.  For [head = -1], which indexing resolves
    to the last embed, the affordances are computed from [-1] itself: play
    and next-track are attached, reverse is not, and play leads to index
    0. *)
Theorem arrows_affordances (n head : Z) :
  0 <= head < n ->
  (In Emoji.LAST_TRACK (Arrows.get_reactions n head) <-> 2 <= head)
  /\ (In Emoji.REVERSE (Arrows.get_reactions n head) <-> 1 <= head)
  /\ (In Emoji.PLAY (Arrows.get_reactions n head) <-> head <= n - 2)
  /\ (In Emoji.NEXT_TRACK (Arrows.get_reactions n head) <-> head <= n - 3)
  /\ (exists navigation,
         Arrows.get_reactions n head = navigation ++ [Emoji.PAUSE; Emoji.X])
  /\ (2 <= n ->
      Arrows.get_reactions n (-1)
      = [Emoji.PLAY; Emoji.NEXT_TRACK; Emoji.PAUSE; Emoji.X]
      /\ Arrows.get_head n (-1) Emoji.PLAY = inr (Arrows.is_int 0)).
Proof.
  intros Hhead.
  assert (HL : str_in Emoji.LAST_TRACK (Arrows.get_reactions n head)
               = in_range (head - 2) n).
  { unfold Arrows.get_reactions.
    destruct (in_range (head - 2) n), (in_range (head - 1) n),
      (in_range (head + 1) n), (in_range (head + 2) n); reflexivity. }
  assert (HR : str_in Emoji.REVERSE (Arrows.get_reactions n head)
               = in_range (head - 1) n).
  { unfold Arrows.get_reactions.
    destruct (in_range (head - 2) n), (in_range (head - 1) n),
      (in_range (head + 1) n), (in_range (head + 2) n); reflexivity. }
  assert (HN : str_in Emoji.NEXT_TRACK (Arrows.get_reactions n head)
               = in_range (head + 2) n).
  { unfold Arrows.get_reactions.
    destruct (in_range (head - 2) n), (in_range (head - 1) n),
      (in_range (head + 1) n), (in_range (head + 2) n); reflexivity. }
  split; [rewrite <- str_in_In, HL, in_range_spec; lia|].
  split; [rewrite <- str_in_In, HR, in_range_spec; lia|].
  split; [rewrite <- str_in_In, play_attached, in_range_spec; lia|].
  split; [rewrite <- str_in_In, HN, in_range_spec; lia|].
  split.
  - unfold Arrows.get_reactions. rewrite !app_assoc. eexists. reflexivity.
  - intros Hn. unfold Arrows.get_reactions, Arrows.get_head, in_range. cbn.
    destruct (0 <? n) eqn:F0; [|apply Z.ltb_ge in F0; lia].
    destruct (1 <? n) eqn:F1; [|apply Z.ltb_ge in F1; lia].
    destruct (-1 <? n - 1) eqn:E; [|apply Z.ltb_ge in E; lia].
    split; reflexivity.
Qed.

Lemma arrows_affordances_witness :
  0 <= 2 < len Sample.three_embeds + 2
  /\ (In Emoji.PLAY (Arrows.get_reactions (len Sample.three_embeds + 2) 2)
      <-> 2 <= len Sample.three_embeds + 2 - 2).
Proof.
  assert (H : 0 <= 2 < len Sample.three_embeds + 2).
  { change (len Sample.three_embeds) with 3. lia. }
  split; [exact H|].
  exact (proj1 (proj2 (proj2
           (arrows_affordances (len Sample.three_embeds + 2) 2 H)))).
Defined.

Lemma arrows_loop_skips (ctx : Context) (embed_list : list Embed)
      (closed_embed : Embed) (msg : Message) (head : Z) (to_react : list string)
      (pre : list RawReaction) (sigs : list (signal RawReaction)) :
  Forall (fun q => Arrows.check ctx msg to_react q = false) pre ->
  Arrows.loop ctx embed_list closed_embed msg head to_react
              (map Arrives pre ++ sigs)
  = Arrows.loop ctx embed_list closed_embed msg head to_react sigs.
Proof.
  induction 1 as [|q pre Hq _ IH]; [reflexivity|].
  cbn [map app Arrows.loop]. now rewrite Hq.
Qed.

(** X30. When the first event that [arrows] accepts is the close emoji,
    the menu clears its reactions as [try_clear_reactions] does, shows the
    closing embed and returns, whatever arrives afterwards.  The closing
    embed is the caller's [closed_embed] when it is given and truthy; when
    the argument is [None], or an embed that is falsy, it is the default
    one, "Closed by user" in [Color.RED]. *)
Theorem arrows_close_shows
        (ctx : Context) (embed_list : list Embed)
        (closed_embed : option Embed) (msg : Message)
        (content : option string) (head : Z) (e : Embed)
        (pre : list RawReaction) (payload : RawReaction)
        (rest : list (signal RawReaction)) :
  let to_react := Arrows.get_reactions (len embed_list) head in
  let shown :=
    match closed_embed with
    | Some given => if truthy given then given else Arrows.default_closed_embed
    | None => Arrows.default_closed_embed
    end in
  len embed_list <> 1 ->
  index embed_list head = inr e ->
  Forall (fun q => Arrows.check ctx msg to_react q = false) pre ->
  Arrows.check ctx msg to_react payload = true ->
  emoji_name payload = Emoji.X ->
  calls (Arrows.arrows ctx embed_list closed_embed msg content head
                       (map Arrives pre ++ Arrives payload :: rest))
  = send content (embed_view e) :: map add_reaction to_react
      ++ (if in_guild msg then [clear_reactions] else [])
      ++ [edit_closing (embed_view shown)]
  /\ (exists r,
         result (Arrows.arrows ctx embed_list closed_embed msg content head
                               (map Arrives pre ++ Arrives payload :: rest))
         = Returns r)
  /\ description Arrows.default_closed_embed = "Closed by user"%string
  /\ color Arrows.default_closed_embed = Some (Color.value Color.RED).
Proof.
  intros to_react shown Hone Hindex Hpre Hcheck Hemoji.
  assert (Hshown : Arrows.or_default closed_embed = shown) by reflexivity.
  unfold Arrows.arrows. cbv zeta. rewrite Hshown.
  destruct (len embed_list =? 1) eqn:E; [apply Z.eqb_eq in E; contradiction|].
  rewrite Hindex. cbn [lift]. rewrite bind_ret_l.
  fold to_react. rewrite arrows_loop_skips by exact Hpre.
  cbn [Arrows.loop]. rewrite Hcheck, Hemoji.
  change (Arrows.get_head (len embed_list) head Emoji.X)
    with (@inr exn _ Arrows.is_False).
  cbn [lift]. rewrite bind_ret_l.
  unfold try_clear_reactions, msg_clear_reactions, except_forbidden_pass.
  destruct (in_guild msg), (clear_allowed msg);
    (split; [reflexivity|split; [eexists; reflexivity|split; reflexivity]]).
Qed.

Lemma arrows_close_shows_witness :
  len Sample.three_embeds <> 1
  /\ calls (Arrows.arrows Sample.ctx Sample.three_embeds None Sample.msg None 0
                          (map Arrives [Sample.raw 5 Emoji.X]
                               ++ Arrives (Sample.raw 1 Emoji.X) :: []))
     = [send None (embed_view (Sample.an_embed "one"));
        add_reaction Emoji.PLAY; add_reaction Emoji.NEXT_TRACK;
        add_reaction Emoji.PAUSE; add_reaction Emoji.X;
        clear_reactions;
        edit_closing (embed_view Arrows.default_closed_embed)].
Proof.
  assert (Hone : len Sample.three_embeds <> 1) by discriminate.
  split; [exact Hone|].
  exact (proj1 (arrows_close_shows
                  Sample.ctx Sample.three_embeds None Sample.msg None 0
                  (Sample.an_embed "one") [Sample.raw 5 Emoji.X]
                  (Sample.raw 1 Emoji.X) [] Hone eq_refl
                  (Forall_cons (Sample.raw 5 Emoji.X) eq_refl (Forall_nil _))
                  eq_refl eq_refl)).
Defined.
